(** * SurfAI profile service: tiered profile store, deep merge, scoring, stats

    A shallow embedding of [EnhancedUserProfileService] (the hybrid
    Supabase + in-memory service) and the properties of its read / create /
    update path, of [deepMerge], of [calculateAdvancedSpotScore] and of the
    statistics helpers.  The repository holds two variants of the service;
    the first part of the model follows the one that keeps the extended
    profile as JSON in [user_extended_profiles] and has the scoring and the
    streak, a later part the one adapted to the table [profile].
    [deepMerge] and [isObject] are the same in both.

    Modelling conventions.
    - JS numbers keep their non-finite values ([NaN], [+Infinity],
      [-Infinity]); finite values are exact rationals kept in lowest terms
      and zero is unsigned.  The binary rounding of each operation of a
      double and its overflow are not modelled.  What is stated of numbers
      is therefore what the doubles share with the rationals: orders and
      bounds (every operation of a double is monotone), with a margin
      where a rounded value is compared with an exact one, thresholds on
      values that the doubles represent exactly, and non-finite results;
      magnitudes are bounded by hypothesis where a sum or a difference
      could overflow.
    - JS values are JSON data: [null], [undefined], booleans, numbers,
      strings, arrays and plain objects.  An object is the list of its own
      enumerable properties, none of them named [__proto__] (an assignment
      to that name changes the prototype of an object instead of adding a
      property, and prototypes are not part of a value).  The members
      inherited from [Object.prototype] are seen where the code looks a
      free key up ([key in target] in [deepMerge], the crowd table of the
      score, the level table); where a lookup would return such a member
      as a value, it is outside the model and excluded by hypothesis.
    - [Date.now()], [new Date().toISOString()], [Math.random()],
      [generateId()] and every answer of the Supabase client are inputs of
      the operation that asks for them.  Every call made to the Supabase
      client is appended to a log kept in the service state.
    - User ids are strings, the keys of the two [Map]s.  Profiles are held
      by value: the sharing of one object between the cache, the fallback
      table and the caller is not modelled, and no property below depends
      on it.
    - The functions that compute with numbers ([calculateAdvancedSpotScore],
      [calculateAverageRating], [calculateStreak]) read typed records, the
      others read JSON values. *)

From Stdlib Require Import QArith Qround Qabs Lqa.
From stdpp Require Import gmap strings list fin_maps pretty.

Local Open Scope Z_scope.

(** ** Numbers *)

Module Num.

Local Open Scope Q_scope.

Inductive num : Type :=
  | NaN
  | PInf
  | NInf
  | Fin (q : Q).

Definition fin (q : Q) : num := Fin (Qred q).

Definition of_Z (z : Z) : num := Fin (inject_Z z).

Definition Qzero (q : Q) : bool := (Qnum q =? 0)%Z.
Definition Qpos (q : Q) : bool := (0 <? Qnum q)%Z.

Definition neg (a : num) : num :=
  match a with
  | NaN => NaN
  | PInf => NInf
  | NInf => PInf
  | Fin q => fin (- q)
  end.

Definition add (a b : num) : num :=
  match a, b with
  | NaN, _ | _, NaN => NaN
  | PInf, NInf | NInf, PInf => NaN
  | PInf, _ | _, PInf => PInf
  | NInf, _ | _, NInf => NInf
  | Fin x, Fin y => fin (x + y)
  end.

Definition sub (a b : num) : num := add a (neg b).

(** [inf_signed pos] is the infinity of the given sign. *)
Definition inf_signed (pos : bool) : num := if pos then PInf else NInf.

Definition mul (a b : num) : num :=
  match a, b with
  | NaN, _ | _, NaN => NaN
  | Fin x, Fin y => fin (x * y)
  | Fin x, PInf | PInf, Fin x => if Qzero x then NaN else inf_signed (Qpos x)
  | Fin x, NInf | NInf, Fin x => if Qzero x then NaN else inf_signed (negb (Qpos x))
  | PInf, PInf | NInf, NInf => PInf
  | PInf, NInf | NInf, PInf => NInf
  end.

Definition div (a b : num) : num :=
  match a, b with
  | NaN, _ | _, NaN => NaN
  | Fin x, Fin y =>
      if Qzero y then (if Qzero x then NaN else inf_signed (Qpos x))
      else fin (x / y)
  | Fin _, (PInf | NInf) => Fin 0
  | (PInf | NInf), (PInf | NInf) => NaN
  | PInf, Fin y => inf_signed (Qpos y || Qzero y)
  | NInf, Fin y => inf_signed (negb (Qpos y || Qzero y))
  end.

(** [Math.abs] *)
Definition abs (a : num) : num :=
  match a with
  | NaN => NaN
  | PInf | NInf => PInf
  | Fin q => fin (Qabs q)
  end.

(** [a <= b]; false as soon as one side is [NaN]. *)
Definition leb (a b : num) : bool :=
  match a, b with
  | NaN, _ | _, NaN => false
  | NInf, _ | _, PInf => true
  | PInf, _ | _, NInf => false
  | Fin x, Fin y => Qle_bool x y
  end.


(** [a >= b] *)
Definition geb (a b : num) : bool := leb b a.

(** [Math.max(a, b)]: [NaN] if either argument is. *)
Definition max (a b : num) : num :=
  match a, b with
  | NaN, _ | _, NaN => NaN
  | _, _ => if leb a b then b else a
  end.

(** [Math.min(a, b)] *)
Definition min (a b : num) : num :=
  match a, b with
  | NaN, _ | _, NaN => NaN
  | _, _ => if leb a b then a else b
  end.

(** [Math.round]: the nearest integer, halves going up. *)
Definition round (a : num) : num :=
  match a with
  | Fin q => of_Z (Qfloor (q + (1 # 2)))
  | _ => a
  end.

(** [Math.floor] *)
Definition floor (a : num) : num :=
  match a with
  | Fin q => of_Z (Qfloor q)
  | _ => a
  end.

(** Truthiness of a number: [0] and [NaN] are falsy. *)
Definition truthy (a : num) : bool :=
  match a with
  | NaN => false
  | Fin q => negb (Qzero q)
  | _ => true
  end.

Definition is_finite (a : num) : bool :=
  match a with Fin _ => true | _ => false end.

(** [a <= b] as a proposition, for statements. *)
Definition le (a b : num) : Prop := leb a b = true.

(** The rational behind a finite number. *)
Definition toQ (a : num) : Q := match a with Fin q => q | _ => 0 end.

Definition finite (a : num) : Prop := is_finite a = true.

(** [is_q a q]: the number [a] is finite and equal to [q]. *)
Definition is_q (a : num) (q : Q) : Prop :=
  match a with Fin x => x == q | _ => False end.

End Num.

Import Num.

Declare Scope num_scope.
Delimit Scope num_scope with num.
Bind Scope num_scope with num.
Infix "+" := Num.add : num_scope.
Infix "-" := Num.sub : num_scope.
Infix "*" := Num.mul : num_scope.
Infix "/" := Num.div : num_scope.
Infix "<=?" := Num.leb : num_scope.
Infix ">=?" := Num.geb : num_scope.

(** Decimal literals of the source. *)
Definition dec (n : Z) (d : positive) : num := fin (n # d)%Q.


(** ** Inherited members *)

Module Prototype.

(** The names of the members that every object inherits from
    [Object.prototype].  [key in object] is true for these names whether
    or not the object has such a property of its own, and [table[key]]
    then finds the inherited member: a function, or the prototype itself
    for the accessor [__proto__].  A function is truthy, is no plain
    object, has no enumerable property and counts as [NaN] in a product. *)
Definition inherited (key : string) : bool :=
  existsb (String.eqb key)
    ["constructor"; "__proto__"; "hasOwnProperty"; "isPrototypeOf";
     "propertyIsEnumerable"; "toLocaleString"; "toString"; "valueOf";
     "__defineGetter__"; "__defineSetter__"; "__lookupGetter__";
     "__lookupSetter__"]%string.

End Prototype.
(** ** Scoring engine *)

Module Scoring.
Import Prototype.

(** The fields of the profile that [calculateAdvancedSpotScore] reads. *)
Record User := {
  waveSize_min : num;
  waveSize_max : num;
  waveSize_optimal : num;
  windTolerance_onshore : num;
  surfLevel_overall : num;
  sessionsCount : num;
  crowdTolerance : string
}.

(** [crowd] is [None] when the caller gives no crowd level. *)
Record Conditions := {
  waveHeight : num;
  windSpeed : num;
  crowd : option string
}.

(** One row of the [crowdFactors] table; [None] is [undefined]. *)
Definition crowdRow (tolerance : string) : option (string -> option num) :=
  if String.eqb tolerance "low" then
    Some (fun c => if String.eqb c "low" then Some (of_Z 1)
                   else if String.eqb c "medium" then Some (dec 9 10)
                   else if String.eqb c "high" then Some (dec 8 10)
                   else None)
  else if String.eqb tolerance "medium" then
    Some (fun c => if String.eqb c "low" then Some (dec 9 10)
                   else if String.eqb c "medium" then Some (of_Z 1)
                   else if String.eqb c "high" then Some (dec 7 10)
                   else None)
  else if String.eqb tolerance "high" then
    Some (fun c => if String.eqb c "low" then Some (dec 8 10)
                   else if String.eqb c "medium" then Some (dec 9 10)
                   else if String.eqb c "high" then Some (of_Z 1)
                   else None)
  else None.

(** [crowdFactors[tolerance][crowd] || 1], as the factor of the product;
    [None] is the [TypeError] raised when the row is [undefined].  A crowd
    level that names an inherited member finds that member in the row: it
    is truthy, so [|| 1] keeps it, and the product with it is [NaN].  A
    tolerance that names an inherited member is outside the model (the row
    is then that member, not [undefined]); the properties below are stated
    for the other tolerances. *)
Definition crowdFactor (tolerance crowd : string) : option num :=
  match crowdRow tolerance with
  | None => None
  | Some row =>
      match row crowd with
      | Some f => Some (if Num.truthy f then f else of_Z 1)
      | None => if inherited crowd then Some NaN else Some (of_Z 1)
      end
  end.

(** The wave-size block: the score after [score *= ...]. *)
Definition waveStep (user : User) (conditions : Conditions) (score : num) : num :=
  let waveOptimal := waveSize_optimal user in
  let waveHeight := waveHeight conditions in
  let waveRange := (waveSize_max user - waveSize_min user)%num in
  if (waveHeight >=? waveSize_min user)%num && (waveHeight <=? waveSize_max user)%num then
    let distanceFromOptimal := Num.abs (waveHeight - waveOptimal) in
    let waveFactor := (of_Z 1 - distanceFromOptimal / waveRange)%num in
    (score * (dec 5 10 + dec 5 10 * waveFactor))%num
  else
    (score * dec 3 10)%num.

Definition windFactor (user : User) (conditions : Conditions) : num :=
  let windTolerance := windTolerance_onshore user in
  Num.max (dec 2 10) (of_Z 1 - windSpeed conditions / windTolerance)%num.

Definition levelStep (user : User) (score : num) : num :=
  let levelFactor := Num.min (of_Z 1) (surfLevel_overall user / of_Z 10)%num in
  let experienceFactor := Num.min (of_Z 1) (sessionsCount user / of_Z 100)%num in
  (score * (dec 6 10 + dec 2 10 * levelFactor + dec 2 10 * experienceFactor))%num.

(** A string is falsy exactly when empty. *)
Definition crowdGiven (c : option string) : option string :=
  match c with
  | Some s => if String.eqb s "" then None else Some s
  | None => None
  end.

(** [calculateAdvancedSpotScore(user, conditions)]; [None] is a thrown
    [TypeError]. *)
Definition calculateAdvancedSpotScore (user : User) (conditions : Conditions)
  : option num :=
  let score := of_Z 5 in
  let score := waveStep user conditions score in
  let score := (score * windFactor user conditions)%num in
  let score := levelStep user score in
  let score :=
    match crowdGiven (crowd conditions) with
    | Some c =>
        match crowdFactor (crowdTolerance user) c with
        | Some f => Some (score * f)%num
        | None => None
        end
    | None => Some score
    end in
  match score with
  | Some score => Some (Num.round (score * of_Z 10) / of_Z 10)%num
  | None => None
  end.

(** The same conditions at another wave height. *)
Definition with_wave (c : Conditions) (h : num) : Conditions :=
  {| waveHeight := h; windSpeed := windSpeed c; crowd := crowd c |}.

(** The wave-height test of [calculateAdvancedSpotScore]. *)
Definition in_range (u : User) (h : num) : bool :=
  (h >=? waveSize_min u)%num && (h <=? waveSize_max u)%num.

(** The crowd level, when one is given, names an own entry of the crowd
    table or nothing, not an inherited member. *)
Definition own_crowd (c : Conditions) : Prop :=
  match crowd c with
  | Some cr => inherited cr = false
  | None => True
  end.

Definition known_tolerance (t : string) : Prop :=
  t = "low"%string \/ t = "medium"%string \/ t = "high"%string.

(** Inputs in the ranges of the data model: finite numbers, a wave range of
    positive width, a wind speed that is not negative, a positive wind
    tolerance, a level and a session count that are not negative, and a
    crowd tolerance of the table. *)
Record admissible (u : User) (c : Conditions) : Prop := {
  adm_min : finite (waveSize_min u);
  adm_max : finite (waveSize_max u);
  adm_opt : finite (waveSize_optimal u);
  adm_range : (toQ (waveSize_min u) < toQ (waveSize_max u))%Q;
  adm_wind : finite (windSpeed c) /\ (0 <= toQ (windSpeed c))%Q;
  adm_tol : finite (windTolerance_onshore u) /\ (0 < toQ (windTolerance_onshore u))%Q;
  adm_level : finite (surfLevel_overall u) /\ (0 <= toQ (surfLevel_overall u))%Q;
  adm_sessions : finite (sessionsCount u) /\ (0 <= toQ (sessionsCount u))%Q;
  adm_crowd : known_tolerance (crowdTolerance u)
}.

(** [Math.round(x * 10) / 10] on a finite [x]. *)
Definition round10 (x : Q) : Q := (inject_Z (Qfloor (x * 10 + (1 # 2))) / 10)%Q.

(** What [calculateAdvancedSpotScore] does after the wave-size block. *)
Definition afterWave (user : User) (conditions : Conditions) (score : num)
  : option num :=
  let score := (score * windFactor user conditions)%num in
  let score := levelStep user score in
  let score :=
    match crowdGiven (crowd conditions) with
    | Some c =>
        match crowdFactor (crowdTolerance user) c with
        | Some f => Some (score * f)%num
        | None => None
        end
    | None => Some score
    end in
  match score with
  | Some score => Some (Num.round (score * of_Z 10) / of_Z 10)%num
  | None => None
  end.

(** Sample inputs: the profile of the test data and the conditions of the
    built-in recommendation. *)
Definition jean : User :=
  {| waveSize_min := dec 8 10; waveSize_max := dec 25 10; waveSize_optimal := dec 15 10;
     windTolerance_onshore := of_Z 15; surfLevel_overall := of_Z 6;
     sessionsCount := of_Z 1; crowdTolerance := "medium" |}.

Definition grande_plage : Conditions :=
  {| waveHeight := dec 12 10; windSpeed := of_Z 10; crowd := Some "medium"%string |}.

(** A seasoned surfer with the range [1, 3] m, optimum 2 m, on a windless day. *)
Definition expert : User :=
  {| waveSize_min := of_Z 1; waveSize_max := of_Z 3; waveSize_optimal := of_Z 2;
     windTolerance_onshore := of_Z 15; surfLevel_overall := of_Z 10;
     sessionsCount := of_Z 100; crowdTolerance := "medium" |}.

Definition calm : Conditions :=
  {| waveHeight := of_Z 2; windSpeed := of_Z 0; crowd := None |}.

(** A profile whose wave range has no width: [min = max = optimal = 1]. *)
Definition flat_range : User :=
  {| waveSize_min := of_Z 1; waveSize_max := of_Z 1; waveSize_optimal := of_Z 1;
     windTolerance_onshore := of_Z 15; surfLevel_overall := of_Z 6;
     sessionsCount := of_Z 1; crowdTolerance := "medium" |}.

(** The expert with an optimum of 3.5 m, outside the range [1, 3]. *)
Definition expert_off_range : User :=
  {| waveSize_min := of_Z 1; waveSize_max := of_Z 3; waveSize_optimal := dec 35 10;
     windTolerance_onshore := of_Z 15; surfLevel_overall := of_Z 10;
     sessionsCount := of_Z 100; crowdTolerance := "medium" |}.

(** The conditions of a calm day with a crowd level that names an
    inherited member. *)
Definition calm_constructor : Conditions :=
  {| waveHeight := of_Z 2; windSpeed := of_Z 0; crowd := Some "constructor"%string |}.

(** Conditions whose wind speed is negative. *)
Definition tailwind : Conditions :=
  {| waveHeight := of_Z 5; windSpeed := of_Z (-15); crowd := None |}.

End Scoring.


(** ** JSON values and the merge utility *)

Module Json.
Import Prototype.

#[local] Unset Elimination Schemes.

Inductive value : Type :=
  | VUndefined
  | VNull
  | VBool (b : bool)
  | VNum (n : num)
  | VStr (s : string)
  | VArr (elems : list value)
  | VObj (props : list (string * value)).

#[local] Set Elimination Schemes.

(** The own enumerable properties of an object, in enumeration order. *)
Abbreviation props := (list (string * value)).

(** Own property lookup; [None] when the object has no such property. *)
Fixpoint getp (o : props) (key : string) : option value :=
  match o with
  | [] => None
  | (k, v) :: rest => if String.eqb k key then Some v else getp rest key
  end.

(** [o[key] = v]: an existing property keeps its place, a new one goes last. *)
Fixpoint setp (o : props) (key : string) (v : value) : props :=
  match o with
  | [] => [(key, v)]
  | (k, w) :: rest =>
      if String.eqb k key then (k, v) :: rest else (k, w) :: setp rest key v
  end.

(** [o.key]: [undefined] when absent. *)
Definition prop (o : props) (key : string) : value :=
  match getp o key with Some v => v | None => VUndefined end.

Definition keys (o : props) : list string := map fst o.

(** No property name occurs twice, as in every object. *)
Definition wf_props (o : props) : Prop := List.NoDup (keys o).

Definition truthy (v : value) : bool :=
  match v with
  | VUndefined | VNull => false
  | VBool b => b
  | VNum n => Num.truthy n
  | VStr s => negb (String.eqb s "")
  | VArr _ | VObj _ => true
  end.

(** [a || b] *)
Definition js_or (a b : value) : value := if truthy a then a else b.

(** [isObject(item)]: truthy exactly for a plain object. *)
Definition isObject (item : value) : bool :=
  match item with VObj _ => true | _ => false end.

(** The characters of a string, each as a one-character string. *)
Fixpoint chars (s : string) : list value :=
  match s with
  | EmptyString => []
  | String c rest => VStr (String c EmptyString) :: chars rest
  end.

(** The index-keyed properties ["0"], ["1"], ... of an array or a string. *)
Definition indexed (elems : list value) : props :=
  imap (fun i v => (pretty i, v)) elems.

(** [Object.assign({}, item)]: a copy of the own enumerable properties of
    [item]; a primitive other than a string has none. *)
Definition objectAssign (item : value) : props :=
  match item with
  | VObj o => o
  | VArr elems => indexed elems
  | VStr s => indexed (chars s)
  | VUndefined | VNull | VBool _ | VNum _ => []
  end.

(** [key in target], for an object: true for a property of its own and for
    the name of an inherited member. *)
Definition key_in (key : string) (target : value) : bool :=
  match target with
  | VObj o => match getp o key with Some _ => true | None => inherited key end
  | _ => false
  end.

(** [target[key]] as [deepMerge] uses it, where [target] is an object: the
    property of its own, else [undefined].  For the name of an inherited
    member the value read is that member, a function: [deepMerge] only
    takes from it what it takes from [undefined], no enumerable property
    and the answer of [isObject].  The accessor [__proto__] is outside the
    model: reading it gives the prototype and assigning it changes the
    prototype of the output instead of adding a property; a property list
    stands for an object without a property of that name. *)
Definition member (target : value) (key : string) : value :=
  match target with
  | VObj o => prop o key
  | _ => VUndefined
  end.

(** [deepMerge(target, source)].  [Object.keys(source).forEach] visits each
    property of [source] once, in order. *)
Fixpoint deepMerge (target source : value) {struct source} : value :=
  let output := objectAssign target in
  match source with
  | VObj entries =>
      if isObject target then
        VObj (fold_left
                (fun output entry =>
                   match entry with
                   | (key, sv) =>
                       if isObject sv then
                         if negb (key_in key target)
                         then setp output key sv
                         else setp output key (deepMerge (member target key) sv)
                       else setp output key sv
                   end)
                entries output)
      else VObj output
  | _ => VObj output
  end.

(** The loop of [deepMerge] over the properties of [source], from a given
    [output]. *)
Definition mergeInto (target : value) (entries output : props) : props :=
  fold_left
    (fun output entry =>
       match entry with
       | (key, sv) =>
           if isObject sv then
             if negb (key_in key target)
             then setp output key sv
             else setp output key (deepMerge (member target key) sv)
           else setp output key sv
       end)
    entries output.

(** The value a merge step stores under [key] for the update value [sv]. *)
Definition mergedValue (target : value) (key : string) (sv : value) : value :=
  if isObject sv then
    if negb (key_in key target) then sv else deepMerge (member target key) sv
  else sv.

(** Own property lookup on a value. *)
Definition own (v : value) (key : string) : option value :=
  match v with VObj o => getp o key | _ => None end.

(** [v.key] for any value: [None] is the [TypeError] raised on [null] and
    [undefined]; arrays and strings answer [length] and their indices. *)
Definition access (v : value) (key : string) : option value :=
  match v with
  | VUndefined | VNull => None
  | VObj o => Some (prop o key)
  | VArr elems =>
      Some (if String.eqb key "length" then VNum (of_Z (Z.of_nat (length elems)))
            else prop (indexed elems) key)
  | VStr s =>
      Some (if String.eqb key "length" then VNum (of_Z (Z.of_nat (String.length s)))
            else prop (indexed (chars s)) key)
  | VBool _ | VNum _ => Some VUndefined
  end.

(** [v.k1.k2...] *)
Fixpoint access_path (v : value) (path : list string) : option value :=
  match path with
  | [] => Some v
  | key :: rest =>
      match access v key with
      | Some w => access_path w rest
      | None => None
      end
  end.

End Json.

Import Json.

(** ** The tiered profile repository *)

Module Service.

(** *** Building profiles *)

Definition num_lit (n : Z) (d : positive) : value := VNum (dec n d).
Definition int_lit (n : Z) : value := VNum (of_Z n).

Definition day (available : bool) (timeSlots : list value) : value :=
  VObj [("available"%string, VBool available); ("timeSlots"%string, VArr timeSlots)].

Definition getDefaultSchedule : value :=
  let weekend := [VStr "06:00-12:00"; VStr "14:00-18:00"] in
  VObj [("monday"%string, day false []);
        ("tuesday"%string, day false []);
        ("wednesday"%string, day false []);
        ("thursday"%string, day false []);
        ("friday"%string, day false []);
        ("saturday"%string, day true weekend);
        ("sunday"%string, day true weekend)].

(** [buildCompleteProfile(userId, userData)]; [createdAt] and [updatedAt]
    are the two readings of [new Date().toISOString()]. *)
Definition buildCompleteProfile (userId : string) (userData : props)
    (createdAt updatedAt : string) : value :=
  let ud := prop userData in
  VObj [
    ("id"%string, VStr userId);
    ("createdAt"%string, VStr createdAt);
    ("updatedAt"%string, VStr updatedAt);
    ("personal"%string, VObj [
       ("name"%string, js_or (ud "name") (VStr ""));
       ("email"%string, js_or (ud "email") (VStr ""));
       ("location"%string, js_or (ud "location") (VStr ""));
       ("timezone"%string, js_or (ud "timezone") (VStr "Europe/Paris"))]);
    ("surfLevel"%string, VObj [
       ("overall"%string, js_or (js_or (ud "surfLevel") (ud "level")) (int_lit 1));
       ("progression"%string, VObj [
          ("paddling"%string, js_or (ud "paddling") (int_lit 1));
          ("takeoff"%string, js_or (ud "takeoff") (int_lit 1));
          ("turning"%string, js_or (ud "turning") (int_lit 1));
          ("tubeRiding"%string, js_or (ud "tubeRiding") (int_lit 1))]);
       ("experience"%string, VObj [
          ("yearsActive"%string, js_or (ud "yearsActive") (int_lit 0));
          ("sessionsCount"%string, int_lit 0);
          ("lastSession"%string, VNull)])]);
    ("equipment"%string, VObj [
       ("boards"%string, js_or (ud "boards") (VArr []));
       ("suits"%string, js_or (ud "suits") (VArr []));
       ("accessories"%string, js_or (ud "accessories") (VArr []))]);
    ("preferences"%string, VObj [
       ("waveSize"%string, VObj [
          ("min"%string, js_or (js_or (ud "minWaveSize") (ud "wave_min")) (num_lit 3 10));
          ("max"%string, js_or (js_or (ud "maxWaveSize") (ud "wave_max")) (int_lit 2));
          ("optimal"%string,
             js_or (js_or (ud "optimalWaveSize") (ud "optimal_wave_size")) (num_lit 12 10))]);
       ("windTolerance"%string, VObj [
          ("onshore"%string, js_or (ud "onshoreWind") (int_lit 15));
          ("offshore"%string, js_or (ud "offshoreWind") (int_lit 25));
          ("sideshore"%string, js_or (ud "sideshoreWind") (int_lit 20))]);
       ("crowdTolerance"%string, js_or (ud "crowdTolerance") (VStr "medium"));
       ("waterTemp"%string, VObj [
          ("min"%string, js_or (ud "minWaterTemp") (int_lit 12))])]);
    ("spots"%string, VObj [
       ("favorites"%string, js_or (ud "favoriteSpots") (VArr []));
       ("history"%string, VArr []);
       ("blacklist"%string, js_or (ud "blacklistedSpots") (VArr []))]);
    ("availability"%string, VObj [
       ("schedule"%string, js_or (ud "schedule") getDefaultSchedule);
       ("travelDistance"%string, js_or (ud "maxTravelDistance") (int_lit 30));
       ("notificationPrefs"%string, VObj [
          ("advance"%string, js_or (ud "notificationAdvance") (int_lit 24));
          ("types"%string,
             js_or (ud "notificationTypes") (VArr [VStr "optimal"; VStr "alternative"]))])]);
    ("goals"%string, VObj [
       ("current"%string, js_or (ud "currentGoals") (VArr []));
       ("achievements"%string, VArr []);
       ("progressTracking"%string, VObj [
          ("sessionsThisMonth"%string, int_lit 0);
          ("progressionPoints"%string, int_lit 0);
          ("challengesCompleted"%string, VArr [])])])
  ].

(** [getDefaultProfile(userId)] *)
Definition getDefaultProfile (userId : string) (createdAt updatedAt : string) : value :=
  buildCompleteProfile userId
    [("name"%string, VStr "SurfAI User");
     ("email"%string, VStr "");
     ("location"%string, VStr "Biarritz, France");
     ("surfLevel"%string, int_lit 3);
     ("minWaveSize"%string, num_lit 8 10);
     ("maxWaveSize"%string, num_lit 25 10);
     ("optimalWaveSize"%string, num_lit 12 10)]
    createdAt updatedAt.

(** The sections of a complete profile. *)
Definition sections : list string :=
  ["id"; "createdAt"; "updatedAt"; "personal"; "surfLevel"; "equipment";
   "preferences"; "spots"; "availability"; "goals"]%string.

(** A complete profile: an object, hence not [null], with every section. *)
Definition complete (profile : value) : bool :=
  match profile with
  | VObj o => forallb (fun key => match getp o key with Some _ => true | None => false end) sections
  | _ => false
  end.

(** *** State, errors and the operation monad *)

Record Error := { message : string }.

Inductive outcome (A : Type) : Type :=
  | Returns (a : A)
  | Throws (e : Error).
Arguments Returns {A} a.
Arguments Throws {A} e.

Record CacheEntry := { data : value; timestamp : Z }.

(** A call made to the Supabase client. *)
Inductive DurableCall : Type :=
  | SelectProfile (userId : string)
  | SelectExtended (userId : string)
  | UpsertProfile (userId : string)
  | UpsertExtended (userId : string) (profile : value).

Definition is_upsert (c : DurableCall) : bool :=
  match c with
  | UpsertProfile _ | UpsertExtended _ _ => true
  | SelectProfile _ | SelectExtended _ => false
  end.

(** The service object: [supabase] tells whether a client is configured,
    [users] is [memoryDB.users], [calls] logs the client calls, oldest
    first. *)
Record State := {
  supabase : bool;
  profilesCache : gmap string CacheEntry;
  users : gmap string value;
  calls : list DurableCall
}.

(** [this.cacheTimeout], 5 minutes in milliseconds. *)
Definition cacheTimeout : Z := 5 * 60 * 1000.

(** Operations thread the state and may throw; what was written before a
    throw stays written. *)
Definition M (A : Type) : Type := State -> outcome A * State.

Definition ret {A} (a : A) : M A := fun st => (Returns a, st).

Definition throw {A} (e : Error) : M A := fun st => (Throws e, st).

Definition bind {A B} (m : M A) (k : A -> M B) : M B :=
  fun st =>
    match m st with
    | (Returns a, st') => k a st'
    | (Throws e, st') => (Throws e, st')
    end.

(** [try { body } catch (error) { handler }] *)
Definition try_catch {A} (body : M A) (handler : Error -> M A) : M A :=
  fun st =>
    match body st with
    | (Returns a, st') => (Returns a, st')
    | (Throws e, st') => handler e st'
    end.

Definition gets {A} (f : State -> A) : M A := fun st => (Returns (f st), st).

Definition modify (f : State -> State) : M unit := fun st => (Returns tt, f st).

(** Lifting of a computation that only returns or throws. *)
Definition lift {A} (o : outcome A) : M A := fun st => (o, st).

Notation "'let*' x ':=' m 'in' k" := (bind m (fun x => k))
  (at level 10, x name, m at level 100, k at level 200).
Notation "'let*' '_' ':=' m 'in' k" := (bind m (fun _ => k))
  (at level 10, m at level 100, k at level 200).

(** [this.profilesCache.set(userId, {data: profile, timestamp: now})] *)
Definition cache_set (userId : string) (profile : value) (now : Z) : M unit :=
  modify (fun st =>
    {| supabase := supabase st;
       profilesCache := <[userId := {| data := profile; timestamp := now |}]> (profilesCache st);
       users := users st;
       calls := calls st |}).

(** [this.memoryDB.users.set(userId, profile)] *)
Definition users_set (userId : string) (profile : value) : M unit :=
  modify (fun st =>
    {| supabase := supabase st;
       profilesCache := profilesCache st;
       users := <[userId := profile]> (users st);
       calls := calls st |}).

(** A query is sent to the Supabase client. *)
Definition call (c : DurableCall) : M unit :=
  modify (fun st =>
    {| supabase := supabase st;
       profilesCache := profilesCache st;
       users := users st;
       calls := calls st ++ [c] |}).

(** *** Reads of nested fields *)

Definition nullish_name (v : value) : string :=
  match v with VNull => "null" | _ => "undefined" end.

(** [v.key], throwing the [TypeError] of a read on [null] or [undefined]. *)
Definition read (v : value) (key : string) : outcome value :=
  match access v key with
  | Some w => Returns w
  | None =>
      Throws {| message := "Cannot read properties of " ++ nullish_name v
                           ++ " (reading '" ++ key ++ "')" |}
  end.

Fixpoint read_path (v : value) (path : list string) : outcome value :=
  match path with
  | [] => Returns v
  | key :: rest =>
      match read v key with
      | Returns w => read_path w rest
      | Throws e => Throws e
      end
  end.

Fixpoint read_all (v : value) (paths : list (list string)) : outcome unit :=
  match paths with
  | [] => Returns tt
  | path :: rest =>
      match read_path v path with
      | Returns _ => read_all v rest
      | Throws e => Throws e
      end
  end.

(** [extractBasicProfileData(profile)].  The row it builds only goes to the
    store; the model keeps the reads, in the order of the source, since one
    of them throws when [personal], [surfLevel], [preferences] or
    [preferences.waveSize] is [null] or [undefined]. *)
Definition extractBasicProfileData (profile : value) : outcome unit :=
  read_all profile
    [["personal"; "email"];
     ["personal"; "name"];
     ["surfLevel"; "overall"];
     ["personal"; "location"];
     ["preferences"; "waveSize"; "min"];
     ["preferences"; "waveSize"; "max"];
     ["preferences"; "waveSize"; "optimal"];
     ["notes"]]%string.

(** *** Answers of the store *)

(** What the two awaited selects of a read give: [Promise.all] rejects, or
    both resolve.  [basicData] tells whether [basicProfile.data] is a row;
    [extendedData] is [None] when [extendedProfile.data] is [null], and
    otherwise what [JSON.parse] does on its [extended_data]. *)
Inductive selects : Type :=
  | SelectsReject (e : Error)
  | SelectsResolve (basicData : bool) (extendedData : option (outcome value)).

(** What an awaited upsert gives: the promise rejects, or resolves to
    [{data, error}]. *)
Inductive upsert : Type :=
  | UpsertRejects (e : Error)
  | UpsertResolves (error : option Error).

(** What [Promise.all] of the two upserts of an update gives. *)
Inductive upserts : Type :=
  | UpsertsReject (e : Error)
  | UpsertsResolve (profile_error extended_error : option Error).

(** The inputs of a read: [Date.now()] at the cache test, the answer of the
    store, [Date.now()] at the cache refresh, and the two timestamps of a
    default profile. *)
Record ReadEnv := {
  check_now : Z;
  selected : selects;
  refresh_now : Z;
  default_createdAt : string;
  default_updatedAt : string
}.

Record CreateEnv := {
  generated_id : string;
  createdAt_now : string;
  updatedAt_now : string;
  profile_upsert : upsert;
  extended_upsert : upsert;
  cache_now : Z
}.

Record UpdateEnv := {
  read_env : ReadEnv;
  updatedAt_stamp : string;
  both_upserts : upserts;
  store_now : Z
}.

(** The [userData] given to [createUserProfile]: an id, when given, is a
    string. *)
Record UserData := {
  ud_id : option string;
  ud_fields : props
}.

(** *** The operations *)

(** [cached && (Date.now() - cached.timestamp) < this.cacheTimeout] *)
Definition cache_hit (cached : option CacheEntry) (now : Z) : option value :=
  match cached with
  | Some entry => if now - timestamp entry <? cacheTimeout then Some (data entry) else None
  | None => None
  end.

(** [getUserProfile(userId)] *)
Definition getUserProfile (userId : string) (env : ReadEnv) : M value :=
  let default := getDefaultProfile userId (default_createdAt env) (default_updatedAt env) in
  try_catch
    (let* cached := gets (fun st => profilesCache st !! userId) in
     match cache_hit cached (check_now env) with
     | Some profile => ret profile
     | None =>
         let* configured := gets supabase in
         let* found :=
           if configured then
             let* _ := call (SelectProfile userId) in
             let* _ := call (SelectExtended userId) in
             match selected env with
             | SelectsReject e => throw e
             | SelectsResolve true (Some parsed) =>
                 let* profile := lift parsed in
                 let* _ := cache_set userId profile (refresh_now env) in
                 ret (Some profile)
             | SelectsResolve _ _ => ret None
             end
           else ret None in
         match found with
         | Some profile => ret profile
         | None =>
             let* memoryProfile := gets (fun st => users st !! userId) in
             match memoryProfile with
             | Some profile => if truthy profile then ret profile else ret default
             | None => ret default
             end
         end
     end)
    (fun error =>
       let* memoryProfile := gets (fun st => users st !! userId) in
       match memoryProfile with
       | Some profile => ret (js_or profile default)
       | None => ret default
       end).

(** [userData.id || this.generateId()] *)
Definition userId_of (userData : UserData) (generated : string) : string :=
  match ud_id userData with
  | Some id => if truthy (VStr id) then id else generated
  | None => generated
  end.

(** [createUserProfile(userData)] *)
Definition createUserProfile (userData : UserData) (env : CreateEnv) : M value :=
  let userId := userId_of userData (generated_id env) in
  let profile :=
    buildCompleteProfile userId (ud_fields userData) (createdAt_now env) (updatedAt_now env) in
  try_catch
    (let* configured := gets supabase in
     let* _ :=
       if configured then
         let* _ := lift (extractBasicProfileData profile) in
         let* _ := call (UpsertProfile userId) in
         match profile_upsert env with
         | UpsertRejects e => throw e
         | UpsertResolves (Some error) => throw error
         | UpsertResolves None =>
             let* _ := call (UpsertExtended userId profile) in
             match extended_upsert env with
             | UpsertRejects e => throw e
             | UpsertResolves _ => ret tt
             end
         end
       else ret tt in
     let* _ := cache_set userId profile (cache_now env) in
     let* _ := users_set userId profile in
     ret profile)
    (fun error =>
       let* _ := users_set userId profile in
       let* _ := cache_set userId profile (cache_now env) in
       ret profile).

(** [updatedProfile.updatedAt = ...] on the output of [deepMerge]. *)
Definition set_member (v : value) (key : string) (w : value) : value :=
  match v with
  | VObj o => VObj (setp o key w)
  | _ => v
  end.

(** [updateUserProfile(userId, updates)] *)
Definition updateUserProfile (userId : string) (updates : value) (env : UpdateEnv)
  : M value :=
  try_catch
    (let* currentProfile := getUserProfile userId (read_env env) in
     let updatedProfile :=
       set_member (deepMerge currentProfile updates) "updatedAt"
                  (VStr (updatedAt_stamp env)) in
     let* configured := gets supabase in
     let* _ :=
       if configured then
         let* _ := lift (extractBasicProfileData updatedProfile) in
         let* _ := call (UpsertProfile userId) in
         let* _ := call (UpsertExtended userId updatedProfile) in
         match both_upserts env with
         | UpsertsReject e => throw e
         | UpsertsResolve _ _ => ret tt
         end
       else ret tt in
     let* _ := cache_set userId updatedProfile (store_now env) in
     let* _ := users_set userId updatedProfile in
     ret updatedProfile)
    (fun error =>
       throw {| message := "Impossible de mettre à jour le profil: " ++ message error |}).

(** *** Invariants and sample states *)

(** Every profile held by the cache and by the fallback table is complete. *)
Definition tiers_complete (st : State) : Prop :=
  (forall id entry, profilesCache st !! id = Some entry -> complete (data entry) = true) /\
  (forall id profile, users st !! id = Some profile -> complete profile = true).

(** A record found in the store parses to a complete profile. *)
Definition store_complete (sel : selects) : Prop :=
  forall profile, sel = SelectsResolve true (Some (Returns profile)) ->
    complete profile = true.

(** The store yields no profile: a row is missing, its data does not parse,
    or the query fails. *)
Definition finds_nothing (sel : selects) : Prop :=
  match sel with
  | SelectsResolve true (Some (Returns _)) => False
  | _ => True
  end.

(** The cache has no entry for the id younger than the timeout of five
    minutes. *)
Definition stale (st : State) (userId : string) (env : ReadEnv) : Prop :=
  forall entry,
    profilesCache st !! userId = Some entry ->
    5 * 60 * 1000 <= check_now env - timestamp entry.

(** What a read returns when neither the cache nor the store gives a
    profile: the entry of the fallback table if it is truthy, and a default
    profile otherwise. *)
Definition fallback_or_default (st : State) (userId : string) (env : ReadEnv) : value :=
  let default := getDefaultProfile userId (default_createdAt env) (default_updatedAt env) in
  match users st !! userId with
  | Some kept => if truthy kept then kept else default
  | None => default
  end.

(** The calls a read adds to the log. *)
Definition read_calls (st : State) (userId : string) (env : ReadEnv) : list DurableCall :=
  match cache_hit (profilesCache st !! userId) (check_now env) with
  | Some _ => []
  | None => if supabase st then [SelectProfile userId; SelectExtended userId] else []
  end.

(** The cache after a read. *)
Definition read_cache (st : State) (userId : string) (env : ReadEnv)
  : gmap string CacheEntry :=
  match cache_hit (profilesCache st !! userId) (check_now env), supabase st, selected env with
  | None, true, SelectsResolve true (Some (Returns profile)) =>
      <[userId := {| data := profile; timestamp := refresh_now env |}]> (profilesCache st)
  | _, _, _ => profilesCache st
  end.

(** The profile an update stores: the merge, stamped. *)
Definition updated_profile (current updates : value) (stamp : string) : value :=
  set_member (deepMerge current updates) "updatedAt" (VStr stamp).


(** The state of a service that has just been constructed. *)
Definition fresh_state (configured : bool) : State :=
  {| supabase := configured; profilesCache := ∅; users := ∅; calls := [] |}.

(** A state with one fresh cache entry for ["jean"] and another profile for
    the same id in the fallback table. *)
Definition cached_state : State :=
  {| supabase := true;
     profilesCache :=
       {[ "jean"%string :=
            {| data := getDefaultProfile "jean" "2024-05-01T08:00:00.000Z"
                                         "2024-05-01T08:00:00.000Z";
               timestamp := 1000 |} ]};
     users :=
       {[ "jean"%string :=
            getDefaultProfile "jean" "2024-04-30T08:00:00.000Z"
                                     "2024-04-30T08:00:00.000Z" ]};
     calls := [] |}.

(** A read one minute after the entry was cached, while the store holds a
    newer record. *)
Definition read_in_window : ReadEnv :=
  {| check_now := 61000;
     selected :=
       SelectsResolve true
         (Some (Returns (getDefaultProfile "jean" "2024-05-01T08:00:30.000Z"
                                                  "2024-05-01T08:00:30.000Z")));
     refresh_now := 61005;
     default_createdAt := "2024-05-01T08:01:01.000Z";
     default_updatedAt := "2024-05-01T08:01:01.000Z" |}.

(** A read by a store whose record for the id holds the JSON text [null]
    as [extended_data], and a read one minute later. *)
Definition read_null_record : ReadEnv :=
  {| check_now := 1000;
     selected := SelectsResolve true (Some (Returns VNull));
     refresh_now := 1005;
     default_createdAt := "2024-05-01T08:00:01.000Z";
     default_updatedAt := "2024-05-01T08:00:01.000Z" |}.

Definition read_a_minute_later : ReadEnv :=
  {| check_now := 61000;
     selected := SelectsReject {| message := "fetch failed" |};
     refresh_now := 61000;
     default_createdAt := "2024-05-01T08:01:01.000Z";
     default_updatedAt := "2024-05-01T08:01:01.000Z" |}.

(** A read at the given time by a store that has no record. *)
Definition read_missing (now : Z) (iso : string) : ReadEnv :=
  {| check_now := now;
     selected := SelectsResolve false None;
     refresh_now := now;
     default_createdAt := iso;
     default_updatedAt := iso |}.

(** A state whose fallback table holds a profile for ["jean"], with a
    configured store and an empty cache. *)
Definition fallback_state : State :=
  {| supabase := true;
     profilesCache := ∅;
     users :=
       {[ "jean"%string :=
            getDefaultProfile "jean" "2024-04-30T08:00:00.000Z"
                                     "2024-04-30T08:00:00.000Z" ]};
     calls := [] |}.


(** An update that sets the section [personal] to [null], with a store that
    would accept every write. *)
Definition accepted_update : UpdateEnv :=
  {| read_env := read_missing 1000 "2024-05-01T08:00:00.000Z";
     updatedAt_stamp := "2024-05-01T08:00:00.100Z";
     both_upserts := UpsertsResolve None None;
     store_now := 1200 |}.

Definition erase_personal : value := VObj [("personal"%string, VNull)].

Definition rename_jean : value :=
  VObj [("personal"%string, VObj [("name"%string, VStr "Jean")])].

End Service.

(** ** Progress and statistics *)

Module Stats.
Import Service.

(** [session.rating]: absent, a number, or an object whose [overall] is a
    number when present. *)
Inductive Rating : Type :=
  | NoRating
  | RatingNumber (n : num)
  | RatingObject (overall : option num).

(** A session as the statistics read it.  [date] is the time value, in
    milliseconds, of [new Date(session.date)]; [None] is an invalid date. *)
Record Session := {
  date : option Z;
  rating : Rating
}.

(** What [getUserSessions] resolves to. *)
Record SessionsPage := {
  sessions : list Session;
  total : value
}.

(** [session.rating?.overall || session.rating || 0]: a number, or the
    rating object itself. *)
Inductive term : Type :=
  | TermNumber (n : num)
  | TermObject.

Definition rating_term (r : Rating) : term :=
  match r with
  | NoRating => TermNumber (of_Z 0)
  | RatingNumber n => TermNumber (if Num.truthy n then n else of_Z 0)
  | RatingObject (Some overall) =>
      if Num.truthy overall then TermNumber overall else TermObject
  | RatingObject None => TermObject
  end.

(** The accumulator of the [reduce]: a number, or, once an object has been
    added, a string that is no numeral. *)
Inductive acc : Type :=
  | Sum (n : num)
  | Text.

(** [sum + term] *)
Definition acc_add (sum : acc) (t : term) : acc :=
  match sum, t with
  | Sum a, TermNumber b => Sum (a + b)%num
  | _, _ => Text
  end.

(** [total / sessions.length] *)
Definition acc_div (total : acc) (n : num) : num :=
  match total with
  | Sum a => (a / n)%num
  | Text => NaN
  end.

(** [calculateAverageRating(sessions)] *)
Definition calculateAverageRating (sessions : list Session) : num :=
  if (length sessions =? 0)%nat then of_Z 0
  else
    let total := fold_left (fun sum session => acc_add sum (rating_term (rating session)))
                           sessions (Sum (of_Z 0)) in
    (Num.round (acc_div total (of_Z (Z.of_nat (length sessions))) * of_Z 10) / of_Z 10)%num.

(** The time value of a date; [NaN] for an invalid date. *)
Definition time (s : Session) : num :=
  match date s with
  | Some t => of_Z t
  | None => NaN
  end.

(** [Math.abs(curr - prev) / (1000 * 60 * 60 * 24)] *)
Definition diffDays (prev curr : Session) : num :=
  (Num.abs (time curr - time prev) / of_Z (1000 * 60 * 60 * 24))%num.

(** The loop of [calculateStreak] from index [i], with [prev = sessions[i-1]]
    and [rest] the sessions from index [i] on. *)
Fixpoint streak_loop (prev : Session) (rest : list Session) (streak : nat) : nat :=
  match rest with
  | [] => streak
  | curr :: rest' =>
      if (diffDays prev curr <=? of_Z 7)%num
      then streak_loop curr rest' (S streak)
      else streak
  end.

(** [calculateStreak(sessions)] *)
Definition calculateStreak (sessions : list Session) : nat :=
  match sessions with
  | [] => 0%nat
  | first :: rest => streak_loop first rest 1
  end.

(** What an awaited count query gives: a rejection, or [{count}], where
    [count] may be [null]. *)
Inductive counted : Type :=
  | CountRejects (e : Error)
  | CountResolves (count : option num).

(** The inputs of [getUserStats] after its two reads: the answers of the
    store to the two count queries, and the draws of [Math.random()], one
    in the [try] block and two in the [catch] block. *)
Record StatsEnv := {
  favorites_counted : counted;
  boards_counted : counted;
  random_try : Q;
  random_catch_predictions : Q;
  random_catch_streak : Q
}.

(** The object [getUserStats] returns; [level] and [experience] are
    [undefined] in the object of the [catch] block. *)
Record StatsResult := {
  totalSessions : value;
  avgRating : num;
  favoriteSpots : value;
  totalBoards : value;
  totalPredictions : num;
  currentStreak : num;
  level : value;
  experience : value
}.

(** [Math.floor(r * n) + k] for a draw [r] of [Math.random()]. *)
Definition random_int (r : Q) (n k : Z) : num :=
  (Num.floor (Fin r * of_Z n) + of_Z k)%num.

(** [count || local], after the await; the query is made only when a store
    is configured. *)
Definition counted_or (configured : bool) (answer : counted) (local : value)
  : outcome value :=
  if configured then
    match answer with
    | CountRejects e => Throws e
    | CountResolves (Some count) => Returns (js_or (VNum count) local)
    | CountResolves None => Returns local
    end
  else Returns local.

Definition obind {A B} (o : outcome A) (k : A -> outcome B) : outcome B :=
  match o with
  | Returns a => k a
  | Throws e => Throws e
  end.

Notation "'let?' x ':=' o 'in' k" := (obind o (fun x => k))
  (at level 10, x name, o at level 100, k at level 200).

(** The [try] block of [getUserStats], given the profile and the page of
    sessions that [getUserProfile] and [getUserSessions] resolved to
    (neither of the two throws). *)
Definition stats_try (configured : bool) (user : value) (page : SessionsPage)
    (env : StatsEnv) : outcome StatsResult :=
  let? local_favorites := read_path user ["spots"; "favorites"; "length"]%string in
  let? favoritesCount := counted_or configured (favorites_counted env) local_favorites in
  let? local_boards := read_path user ["equipment"; "boards"; "length"]%string in
  let? boardsCount := counted_or configured (boards_counted env) local_boards in
  let? level := read_path user ["surfLevel"; "overall"]%string in
  let? experience := read_path user ["surfLevel"; "experience"]%string in
  Returns
    {| totalSessions := total page;
       avgRating := calculateAverageRating (sessions page);
       favoriteSpots := favoritesCount;
       totalBoards := boardsCount;
       totalPredictions := random_int (random_try env) 50 20;
       currentStreak := of_Z (Z.of_nat (calculateStreak (sessions page)));
       level := level;
       experience := experience |}.

(** [getUserStats(userId)] after its two reads. *)
Definition getUserStats (configured : bool) (user : value) (page : SessionsPage)
    (env : StatsEnv) : StatsResult :=
  match stats_try configured user page env with
  | Returns stats => stats
  | Throws error =>
      {| totalSessions := int_lit 0;
         avgRating := of_Z 0;
         favoriteSpots := int_lit 0;
         totalBoards := int_lit 0;
         totalPredictions := random_int (random_catch_predictions env) 50 20;
         currentStreak := random_int (random_catch_streak env) 10 1;
         level := VUndefined;
         experience := VUndefined |}
  end.

(** The same inputs with other draws of [Math.random()]. *)
Definition with_draws (env : StatsEnv) (r1 r2 r3 : Q) : StatsEnv :=
  {| favorites_counted := favorites_counted env;
     boards_counted := boards_counted env;
     random_try := r1;
     random_catch_predictions := r2;
     random_catch_streak := r3 |}.

(** A draw of [Math.random()] lies in [0, 1). *)
Definition unit_draw (r : Q) : Prop := (0 <= r /\ r < 1)%Q.

(** One week in milliseconds. *)
Definition week : Z := 7 * (1000 * 60 * 60 * 24).

(** The number of leading gaps of at most a week, from the time [p]. *)
Fixpoint run (p : Z) (ts : list Z) : nat :=
  match ts with
  | [] => 0
  | t :: ts' => if Z.abs (t - p) <=? week then S (run t ts') else 0
  end.

(** A session at a given time. *)
Definition session_at (t : Z) : Session :=
  {| date := Some t; rating := RatingObject (Some (of_Z 5)) |}.

(** Times from the most recent to the oldest. *)
Definition descending (ts : list Z) : Prop :=
  forall i a b, ts !! i = Some a -> ts !! S i = Some b -> b <= a.

(** [day_offset now d] is [d] days before [now]. *)
Definition day_offset (now d : Z) : Z := now - d * (1000 * 60 * 60 * 24).

(** The profile and the sessions of the test user. *)
Definition jean_profile : value :=
  getDefaultProfile "jean" "2024-05-01T08:00:00.000Z" "2024-05-01T08:00:00.000Z".

Definition jean_page : SessionsPage :=
  {| sessions := [session_at 1714550400000; session_at 1714118400000];
     total := int_lit 2 |}.

(** Store answers and draws of one computation of the statistics. *)
Definition stats_env (r : Q) : StatsEnv :=
  {| favorites_counted := CountResolves None;
     boards_counted := CountResolves None;
     random_try := r;
     random_catch_predictions := r;
     random_catch_streak := r |}.

End Stats.

(** ** More of the merge utility *)

Module MergeShape.
Import Prototype.

(** Every object met by going down the properties of objects has distinct
    property names, as every object has. *)
Fixpoint wf_value (v : value) : Prop :=
  match v with
  | VObj o =>
      wf_props o /\
      (fix all (o : props) : Prop :=
         match o with
         | [] => True
         | (_, w) :: rest => wf_value w /\ all rest
         end) o
  | _ => True
  end.

(** The update fits the target: wherever the update holds an object under
    a key of the target, the target holds an object there, which the
    update's object fits in turn. *)
Fixpoint fits (target source : value) {struct source} : Prop :=
  match source with
  | VObj entries =>
      (fix all (entries : props) : Prop :=
         match entries with
         | [] => True
         | (key, sv) :: rest =>
             (isObject sv = true -> key_in key target = true ->
                isObject (member target key) = true /\ fits (member target key) sv) /\
             all rest
         end) entries
  | _ => True
  end.

(** No property of the update bears the name of an inherited member, at
    any depth reached through objects: [key in target] and [target[key]]
    then look at own properties only. *)
Fixpoint own_names (v : value) : Prop :=
  match v with
  | VObj o =>
      (fix all (o : props) : Prop :=
         match o with
         | [] => True
         | (key, w) :: rest => inherited key = false /\ own_names w /\ all rest
         end) o
  | _ => True
  end.

(** No object met by going down the properties of objects has a property
    named [__proto__]. *)
Fixpoint no_proto (v : value) : Prop :=
  match v with
  | VObj o =>
      (fix all (o : props) : Prop :=
         match o with
         | [] => True
         | (key, w) :: rest => key <> "__proto__"%string /\ no_proto w /\ all rest
         end) o
  | _ => True
  end.


Definition nested_level : value :=
  VObj [("surfLevel"%string, VObj [("overall"%string, VNum (of_Z 4))])].

End MergeShape.

(** ** More of the repository *)

Module Repository.
Import Service.

(** [clearCache()]: the profile cache is emptied.  The session and spot
    caches, which no modelled operation reads, are not part of the state. *)
Definition clearCache : M unit :=
  modify (fun st =>
    {| supabase := supabase st;
       profilesCache := ∅;
       users := users st;
       calls := calls st |}).



(** The fields of a built profile that the score divides by or compares
    with. *)
Definition scoring_fields : list (list string) :=
  [["surfLevel"; "overall"];
   ["preferences"; "waveSize"; "min"];
   ["preferences"; "waveSize"; "max"];
   ["preferences"; "waveSize"; "optimal"];
   ["preferences"; "windTolerance"; "onshore"];
   ["preferences"; "crowdTolerance"]]%string.

(** When a read after a write still sees what was written: the cache entry
    written at [written] is fresh at the read, or no store is configured, or
    the store yields no profile. *)
Definition sees_write (configured : bool) (written : Z) (env : ReadEnv) : Prop :=
  check_now env - written < cacheTimeout \/ configured = false \/ finds_nothing (selected env).

(** A create with an id, on a store that accepts the writes. *)
Definition create_jean : UserData :=
  {| ud_id := Some "jean"%string;
     ud_fields := [("name"%string, VStr "Jean Surfer"); ("surfLevel"%string, int_lit 6)] |}.

Definition accepted_create : CreateEnv :=
  {| generated_id := "lx1c0k";
     createdAt_now := "2024-05-01T08:00:00.000Z";
     updatedAt_now := "2024-05-01T08:00:00.000Z";
     profile_upsert := UpsertResolves None;
     extended_upsert := UpsertResolves None;
     cache_now := 1000 |}.

(** A read ten minutes later, when the store fails. *)
Definition read_in_outage : ReadEnv :=
  {| check_now := 601000;
     selected := SelectsReject {| message := "fetch failed" |};
     refresh_now := 601000;
     default_createdAt := "2024-05-01T08:10:01.000Z";
     default_updatedAt := "2024-05-01T08:10:01.000Z" |}.

(** A read two minutes after [read_in_window], when the store fails. *)
Definition read_soon_in_outage : ReadEnv :=
  {| check_now := 181000;
     selected := SelectsReject {| message := "fetch failed" |};
     refresh_now := 181000;
     default_createdAt := "2024-05-01T08:03:01.000Z";
     default_updatedAt := "2024-05-01T08:03:01.000Z" |}.

End Repository.

(** ** The score as a product of factors *)

Module ScoreFormula.
Import Scoring.
Local Open Scope Q_scope.

Definition Qmax2 (a b : Q) : Q := if Qle_bool a b then b else a.
Definition Qmin2 (a b : Q) : Q := if Qle_bool a b then a else b.

(** The wave-fit factor: the penalty 0.3 outside [mn, mx], and
    [0.5 + 0.5 * (1 - |h - opt| / (mx - mn))] inside. *)
Definition wave_factor (mn mx opt h : Q) : Q :=
  if Qle_bool mn h && Qle_bool h mx
  then (1 # 2) + (1 # 2) * (1 - Qabs (h - opt) / (mx - mn))
  else 3 # 10.

(** The wind factor [max(0.2, 1 - windSpeed / tolerance)]. *)
Definition wind_factor (w t : Q) : Q := Qmax2 (1 # 5) (1 - w / t).

(** The level and experience factor
    [0.6 + 0.2 * min(1, level / 10) + 0.2 * min(1, sessions / 100)]. *)
Definition level_factor (o s : Q) : Q :=
  (6 # 10) + (2 # 10) * Qmin2 1 (o / 10) + (2 # 10) * Qmin2 1 (s / 100).

(** The crowd compatibility table; an unknown pair is neutral. *)
Definition crowd_table (tolerance crowd : string) : Q :=
  if String.eqb tolerance "low" then
    if String.eqb crowd "low" then 1
    else if String.eqb crowd "medium" then 9 # 10
    else if String.eqb crowd "high" then 8 # 10 else 1
  else if String.eqb tolerance "medium" then
    if String.eqb crowd "low" then 9 # 10
    else if String.eqb crowd "medium" then 1
    else if String.eqb crowd "high" then 7 # 10 else 1
  else if String.eqb tolerance "high" then
    if String.eqb crowd "low" then 8 # 10
    else if String.eqb crowd "medium" then 9 # 10
    else if String.eqb crowd "high" then 1 else 1
  else 1.

(** The crowd factor, applied only when a crowd level is given. *)
Definition crowd_factor (tolerance : string) (crowd : option string) : Q :=
  match crowdGiven crowd with
  | Some c => crowd_table tolerance c
  | None => 1
  end.

(** The product of the wind, level and crowd factors, which does not
    depend on the wave height. *)
Definition other_factors (u : User) (c : Conditions) : Q :=
  wind_factor (toQ (windSpeed c)) (toQ (windTolerance_onshore u))
  * level_factor (toQ (surfLevel_overall u)) (toQ (sessionsCount u))
  * crowd_factor (crowdTolerance u) (crowd c).

(** The base 5.0 times the four factors, before the rounding. *)
Definition product (u : User) (c : Conditions) : Q :=
  5 * wave_factor (toQ (waveSize_min u)) (toQ (waveSize_max u))
                  (toQ (waveSize_optimal u)) (toQ (waveHeight c))
    * wind_factor (toQ (windSpeed c)) (toQ (windTolerance_onshore u))
    * level_factor (toQ (surfLevel_overall u)) (toQ (sessionsCount u))
    * crowd_factor (crowdTolerance u) (crowd c).

(** The product rounded once to one decimal, in exact arithmetic. *)
Definition score_formula (u : User) (c : Conditions) : Q := round10 (product u c).


(** The same conditions with another crowd level, or none. *)
Definition with_crowd (c : Conditions) (cr : option string) : Conditions :=
  {| waveHeight := waveHeight c; windSpeed := windSpeed c; crowd := cr |}.


(** The same surfer with another crowd tolerance. *)
Definition with_tolerance (u : User) (tolerance : string) : User :=
  {| waveSize_min := waveSize_min u;
     waveSize_max := waveSize_max u;
     waveSize_optimal := waveSize_optimal u;
     windTolerance_onshore := windTolerance_onshore u;
     surfLevel_overall := surfLevel_overall u;
     sessionsCount := sessionsCount u;
     crowdTolerance := tolerance |}.


End ScoreFormula.

(** ** More of the statistics *)

Module StatsMore.
Import Service Stats.
Local Open Scope Q_scope.

(** The number a rating counts for in the average, when it counts as one:
    a numeric rating (0 when falsy), or the truthy [overall] of a rating
    object. *)
Definition rating_value (r : Rating) : option Q :=
  match r with
  | NoRating => Some 0
  | RatingNumber (Fin q) => Some q
  | RatingNumber NaN => Some 0
  | RatingNumber _ => None
  | RatingObject (Some (Fin q)) => if Qzero q then None else Some q
  | RatingObject _ => None
  end.

(** A rating object whose [overall] is missing or falsy. *)
Definition broken_rating (r : Rating) : Prop :=
  match r with
  | RatingObject None => True
  | RatingObject (Some overall) => Num.truthy overall = false
  | _ => False
  end.

Definition Qsum (qs : list Q) : Q := fold_right Qplus 0 qs.

(** The mean of a list of ratings. *)
Definition mean (qs : list Q) : Q := Qsum qs / inject_Z (Z.of_nat (length qs)).

(** A session with a given rating object, dated at the epoch. *)
Definition rated (overall : Z) : Session :=
  {| date := Some 0%Z; rating := RatingObject (Some (of_Z overall)) |}.

(** A session without a valid date. *)
Definition undated : Session :=
  {| date := None; rating := RatingObject (Some (of_Z 5)) |}.

End StatsMore.

(** ** The service adapted to the table [profile]

    The second variant of the service keeps one row per user in the table
    [profile] and rebuilds the extended profile from it.  Its read, create
    and conversion functions are modelled here, on the state of the first
    variant.

    - A row of the table is what the Supabase client answers: its two wave
      heights are numbers or [null], its other columns any JSON value.
    - The row that [createUserProfile] sends only goes to the store; the
      model keeps the call.
    - [mapping[level]] finds an inherited member when [level] names one,
      and converts an array or an object to a string first.  Such a level
      is outside the model: the functions that look a level up answer
      [None] for it, and so does every operation that meets one. *)

Module Adapted.
Import Service Prototype.
Local Open Scope string_scope.

(** *** Levels *)

(** [convertLevelToCategory(numericLevel)] of the first variant, read where
    the level is a number. *)
Definition convertLevelToCategory (numericLevel : num) : string :=
  if (numericLevel <=? of_Z 2)%num then "beginner"
  else if (numericLevel <=? of_Z 5)%num then "intermediate"
  else if (numericLevel <=? of_Z 8)%num then "advanced"
  else "expert".

(** [convertLevelToYourFormat(level)] *)
Definition convertLevelToYourFormat (level : value) : value :=
  match level with
  | VNum n =>
      if (n <=? of_Z 2)%num then VStr "beginner"
      else if (n <=? of_Z 5)%num then VStr "intermediate"
      else if (n <=? of_Z 8)%num then VStr "advanced"
      else VStr "expert"
  | _ => js_or level (VStr "intermediate")
  end.

Definition mapping : props :=
  [("beginner", int_lit 2);
   ("intermediate", int_lit 4);
   ("advanced", int_lit 7);
   ("expert", int_lit 9)].

(** [convertLevelFromYourFormat(level)]: [mapping[level] || 4].  A
    primitive that is no string names the key [undefined], [null], [true],
    [false] or a numeral, none of which [mapping] has or inherits. *)
Definition convertLevelFromYourFormat (level : value) : option value :=
  match level with
  | VStr s => if inherited s then None else Some (js_or (prop mapping s) (int_lit 4))
  | VUndefined | VNull | VBool _ | VNum _ => Some (int_lit 4)
  | VArr _ | VObj _ => None
  end.

(** The rank of a category, for comparisons. *)
Definition rank (category : string) : nat :=
  if String.eqb category "beginner" then 0
  else if String.eqb category "intermediate" then 1
  else if String.eqb category "advanced" then 2
  else 3.

(** The four categories. *)
Definition categories : list string := ["beginner"; "intermediate"; "advanced"; "expert"].

(** [getNextLevelRequirements(currentLevel)] of the first variant, read
    where the level is a number. *)
Definition requirements : props :=
  [("1", VArr [VStr "Apprendre à ramer"; VStr "Première mousse"]);
   ("2", VArr [VStr "Take-off en mousse"; VStr "10 sessions"]);
   ("3", VArr [VStr "Take-off vague verte"; VStr "Comprendre les priorités"]);
   ("4", VArr [VStr "Premier virage"; VStr "25 sessions"]);
   ("5", VArr [VStr "Bottom turn"; VStr "Surf en autonomie"]);
   ("6", VArr [VStr "Cut back"; VStr "50 sessions"]);
   ("7", VArr [VStr "Tube riding débutant"; VStr "Surf spots variés"]);
   ("8", VArr [VStr "Manoeuvres avancées"; VStr "100+ sessions"]);
   ("9", VArr [VStr "Compétition locale"; VStr "Mentor autres surfeurs"]);
   ("10", VArr [VStr "Expert local"; VStr "Toutes conditions"])].

(** The property key that a number names, when it is the numeral of an
    integer; any other number names a key with a fraction, an exponent, or
    [NaN] or [Infinity], which no table here has. *)
Definition integer_key (n : num) : option string :=
  match n with
  | Fin q =>
      if (Z.pos (Qden (Qred q)) =? 1)%Z && (Z.abs (Qnum (Qred q)) <? 10 ^ 21)%Z
      then Some (pretty (Qnum (Qred q)))
      else None
  | _ => None
  end.

Definition maximum_reached : value := VArr [VStr "Niveau maximum atteint"].

Definition getNextLevelRequirements (currentLevel : num) : value :=
  match integer_key (currentLevel + of_Z 1)%num with
  | Some key => js_or (prop requirements key) maximum_reached
  | None => maximum_reached
  end.

(** The levels whose next level is off the table whatever the rounding
    of [currentLevel + 1]: no number, 10 and above, -1 and below, and the
    levels at least a thousandth away from every integer. *)
Definition off_table (currentLevel : num) : Prop :=
  match currentLevel with
  | Fin q =>
      (10 <= q \/ q <= -1 \/
       exists z : Z, inject_Z z + (1 # 1000) <= q <= inject_Z z + (999 # 1000))%Q
  | _ => True
  end.

(** *** Rows and conversions *)

(** A row of the table [profile]. *)
Record Row := {
  uuid : value;
  created_at : value;
  updated_at : value;
  nickname : value;
  email : value;
  surf_level : value;
  min_wave_height : option num;
  max_wave_height : option num
}.

(** [column || fallback] on a numeric column. *)
Definition or_num (column : option num) (fallback : num) : num :=
  match column with
  | Some n => if Num.truthy n then n else fallback
  | None => fallback
  end.

(** [getDefaultSchedule()] of this variant. *)
Definition getDefaultSchedule : value :=
  VObj [("travelDistance", int_lit 30);
        ("notificationPrefs", VObj [
           ("advance", int_lit 24);
           ("types", VArr [VStr "optimal"])])].

(** [convertToExtendedProfile(supabaseData)] on a row. *)
Definition convertToExtendedProfile (supabaseData : Row) : option value :=
  match convertLevelFromYourFormat (surf_level supabaseData) with
  | None => None
  | Some overall =>
      Some (VObj [
        ("id", uuid supabaseData);
        ("createdAt", created_at supabaseData);
        ("updatedAt", updated_at supabaseData);
        ("personal", VObj [
           ("name", js_or (nickname supabaseData) (VStr "SurfAI User"));
           ("email", js_or (email supabaseData) (VStr ""));
           ("location", VStr "Biarritz, France");
           ("timezone", VStr "Europe/Paris")]);
        ("surfLevel", VObj [
           ("overall", overall);
           ("progression", VObj [
              ("paddling", int_lit 3);
              ("takeoff", int_lit 3);
              ("turning", int_lit 3);
              ("tubeRiding", int_lit 1)]);
           ("experience", VObj [
              ("yearsActive", int_lit 2);
              ("sessionsCount", int_lit 0);
              ("lastSession", VNull)])]);
        ("preferences", VObj [
           ("waveSize", VObj [
              ("min", VNum (or_num (min_wave_height supabaseData) (dec 7 10)));
              ("max", VNum (or_num (max_wave_height supabaseData) (dec 18 10)));
              ("optimal",
                 VNum ((or_num (min_wave_height supabaseData) (dec 7 10)
                        + or_num (max_wave_height supabaseData) (dec 18 10))
                       / of_Z 2)%num)]);
           ("windTolerance", VObj [
              ("onshore", int_lit 15);
              ("offshore", int_lit 25);
              ("sideshore", int_lit 20)]);
           ("crowdTolerance", VStr "medium");
           ("waterTemp", VObj [("min", int_lit 12)])]);
        ("equipment", VObj [
           ("boards", VArr []);
           ("suits", VArr []);
           ("accessories", VArr [])]);
        ("spots", VObj [
           ("favorites", VArr []);
           ("history", VArr []);
           ("blacklist", VArr [])]);
        ("availability", getDefaultSchedule);
        ("goals", VObj [
           ("current", VArr []);
           ("achievements", VArr []);
           ("progressTracking", VObj [
              ("sessionsThisMonth", int_lit 0);
              ("progressionPoints", int_lit 0);
              ("challengesCompleted", VArr [])])])
      ])
  end.

(** [userData.surfLevel || this.convertLevelFromYourFormat(userData.level) || 4] *)
Definition overall_of (userData : props) : option value :=
  if truthy (prop userData "surfLevel") then Some (prop userData "surfLevel")
  else
    match convertLevelFromYourFormat (prop userData "level") with
    | Some level => Some (js_or level (int_lit 4))
    | None => None
    end.

(** [buildExtendedProfile(userId, userData, supabaseData = null)];
    [createdAt] and [updatedAt] are the two readings of
    [new Date().toISOString()], made when there is no row. *)
Definition buildExtendedProfile (userId : string) (userData : props)
    (supabaseData : option Row) (createdAt updatedAt : string) : option value :=
  match supabaseData with
  | Some row => convertToExtendedProfile row
  | None =>
      let ud := prop userData in
      match overall_of userData with
      | None => None
      | Some overall =>
          Some (VObj [
            ("id", VStr userId);
            ("createdAt", VStr createdAt);
            ("updatedAt", VStr updatedAt);
            ("personal", VObj [
               ("name", js_or (js_or (ud "name") (ud "nickname")) (VStr "SurfAI User"));
               ("email", js_or (ud "email") (VStr ""));
               ("location", js_or (ud "location") (VStr "Biarritz, France"));
               ("timezone", VStr "Europe/Paris")]);
            ("surfLevel", VObj [
               ("overall", overall);
               ("progression", VObj [
                  ("paddling", int_lit 3);
                  ("takeoff", int_lit 3);
                  ("turning", int_lit 3);
                  ("tubeRiding", int_lit 1)]);
               ("experience", VObj [
                  ("yearsActive", js_or (ud "yearsActive") (int_lit 1));
                  ("sessionsCount", int_lit 0);
                  ("lastSession", VNull)])]);
            ("preferences", VObj [
               ("waveSize", VObj [
                  ("min", js_or (ud "minWaveSize") (num_lit 7 10));
                  ("max", js_or (ud "maxWaveSize") (num_lit 18 10));
                  ("optimal", js_or (ud "optimalWaveSize") (num_lit 12 10))]);
               ("windTolerance", VObj [
                  ("onshore", int_lit 15);
                  ("offshore", int_lit 25);
                  ("sideshore", int_lit 20)]);
               ("crowdTolerance", VStr "medium");
               ("waterTemp", VObj [("min", int_lit 12)])]);
            ("equipment", VObj [
               ("boards", js_or (ud "boards") (VArr []));
               ("suits", js_or (ud "suits") (VArr []));
               ("accessories", js_or (ud "accessories") (VArr []))]);
            ("spots", VObj [
               ("favorites", js_or (ud "favoriteSpots") (VArr []));
               ("history", VArr []);
               ("blacklist", js_or (ud "blacklistedSpots") (VArr []))]);
            ("availability", getDefaultSchedule);
            ("goals", VObj [
               ("current", js_or (ud "currentGoals") (VArr []));
               ("achievements", VArr []);
               ("progressTracking", VObj [
                  ("sessionsThisMonth", int_lit 0);
                  ("progressionPoints", int_lit 0);
                  ("challengesCompleted", VArr [])])])
          ])
      end
  end.

(** *** Operations *)

(** An operation of this variant: as [M], with [None] for a run that meets
    a level outside the model. *)
Definition P (A : Type) : Type := State -> option (outcome A * State).

Definition pure {A} (a : A) : P A := fun st => Some (Returns a, st).

Definition raise {A} (e : Error) : P A := fun st => Some (Throws e, st).

Definition and_then {A B} (m : P A) (k : A -> P B) : P B :=
  fun st =>
    match m st with
    | Some (Returns a, st') => k a st'
    | Some (Throws e, st') => Some (Throws e, st')
    | None => None
    end.

(** [try { body } catch (error) { handler }] *)
Definition attempt {A} (body : P A) (handler : Error -> P A) : P A :=
  fun st =>
    match body st with
    | Some (Returns a, st') => Some (Returns a, st')
    | Some (Throws e, st') => handler e st'
    | None => None
    end.

(** An operation of the first variant's monad, which is always modelled. *)
Definition modelled {A} (m : M A) : P A := fun st => Some (m st).

(** A value that is modelled or not. *)
Definition known {A} (o : option A) : P A :=
  fun st => match o with Some a => Some (Returns a, st) | None => None end.

Notation "'let+' x ':=' m 'in' k" := (and_then m (fun x => k))
  (at level 10, x name, m at level 100, k at level 200).
Notation "'let+' '_' ':=' m 'in' k" := (and_then m (fun _ => k))
  (at level 10, m at level 100, k at level 200).

(** What the awaited [upsert([profileData]).select()] gives: a rejection, or
    [{data, error}] with [data] an array of rows or [null]. *)
Inductive upserted : Type :=
  | UpsertedRejects (e : Error)
  | UpsertedResolves (rows : option (list Row)) (error : option Error).

(** The inputs of a create: the id of [generateUserId()], the answer of the
    store, the two timestamps of a profile built without a row, and
    [Date.now()] at the cache write. *)
Record CreateInputs := {
  new_id : string;
  upsert_answer : upserted;
  built_createdAt : string;
  built_updatedAt : string;
  cached_at : Z
}.

(** [data[0]]: a [TypeError] on [null], [undefined] past the end. *)
Definition first_row (rows : option (list Row)) : outcome (option Row) :=
  match rows with
  | None => Throws {| message := "Cannot read properties of null (reading '0')" |}
  | Some rows => Returns (head rows)
  end.

(** [createUserProfile(userData)] *)
Definition createUserProfile (userData : UserData) (env : CreateInputs) : P value :=
  let userId := userId_of userData (new_id env) in
  let build supabaseData :=
    known (buildExtendedProfile userId (ud_fields userData) supabaseData
             (built_createdAt env) (built_updatedAt env)) in
  attempt
    (let+ configured := modelled (gets supabase) in
     if configured then
       let+ _ := modelled (call (UpsertProfile userId)) in
       match upsert_answer env with
       | UpsertedRejects e => raise e
       | UpsertedResolves _ (Some error) => raise error
       | UpsertedResolves rows None =>
           let+ row := modelled (lift (first_row rows)) in
           let+ extendedProfile := build row in
           let+ _ := modelled (cache_set userId extendedProfile (cached_at env)) in
           pure extendedProfile
       end
     else
       let+ profile := build None in
       let+ _ := modelled (users_set userId profile) in
       pure profile)
    (fun error =>
       let+ profile := build None in
       let+ _ := modelled (users_set userId profile) in
       let+ _ := modelled (cache_set userId profile (cached_at env)) in
       pure profile).

(** The error of a store answer, with its [code] if it has one. *)
Record StoreError := { code : option string; cause : Error }.

(** What the awaited [select('*').eq('uuid', userId).single()] gives. *)
Inductive single : Type :=
  | SingleRejects (e : Error)
  | SingleResolves (row : option Row) (error : option StoreError).

(** [error && error.code !== 'PGRST116'] *)
Definition fatal (error : option StoreError) : option Error :=
  match error with
  | Some e =>
      match code e with
      | Some c => if String.eqb c "PGRST116" then None else Some (cause e)
      | None => Some (cause e)
      end
  | None => None
  end.

(** The inputs of a read: [Date.now()] at the cache test, the answer of the
    store, [Date.now()] at the cache refresh, the inputs of the create of a
    default profile, and the two timestamps of the profile built in the
    [catch] block. *)
Record ReadInputs := {
  checked_at : Z;
  single_answer : single;
  refreshed_at : Z;
  default_inputs : CreateInputs;
  rescue_createdAt : string;
  rescue_updatedAt : string
}.

(** [{ id: userId }] *)
Definition only_id (userId : string) : UserData :=
  {| ud_id := Some userId; ud_fields := [] |}.

(** [getUserProfile(userId)] *)
Definition getUserProfile (userId : string) (env : ReadInputs) : P value :=
  attempt
    (let+ cached := modelled (gets (fun st => profilesCache st !! userId)) in
     match cache_hit cached (checked_at env) with
     | Some profile => pure profile
     | None =>
         let+ configured := modelled (gets supabase) in
         if configured then
           let+ _ := modelled (call (SelectProfile userId)) in
           match single_answer env with
           | SingleRejects e => raise e
           | SingleResolves row error =>
               match fatal error with
               | Some e => raise e
               | None =>
                   match row with
                   | Some row =>
                       let+ extendedProfile := known (convertToExtendedProfile row) in
                       let+ _ :=
                         modelled (cache_set userId extendedProfile (refreshed_at env)) in
                       pure extendedProfile
                   | None => createUserProfile (only_id userId) (default_inputs env)
                   end
               end
           end
         else
           let+ memoryProfile := modelled (gets (fun st => users st !! userId)) in
           match memoryProfile with
           | Some profile =>
               if truthy profile then pure profile
               else createUserProfile (only_id userId) (default_inputs env)
           | None => createUserProfile (only_id userId) (default_inputs env)
           end
     end)
    (fun error =>
       let+ memoryProfile := modelled (gets (fun st => users st !! userId)) in
       match memoryProfile with
       | Some profile =>
           if truthy profile then pure profile
           else known (buildExtendedProfile userId [] None
                         (rescue_createdAt env) (rescue_updatedAt env))
       | None =>
           known (buildExtendedProfile userId [] None
                    (rescue_createdAt env) (rescue_updatedAt env))
       end).

(** *** Statements *)

(** The store has no row for the user: the answer carries none, and no
    error or the error of an empty result. *)
Definition no_row (answer : single) : Prop :=
  exists error, answer = SingleResolves None error /\ fatal error = None.

(** The fallback table has no profile for the user. *)
Definition no_fallback (st : State) (userId : string) : Prop :=
  match users st !! userId with
  | Some profile => truthy profile = false
  | None => True
  end.

(** The rows that an answer of the store carries are modelled. *)
Definition modelled_rows (answer : upserted) : Prop :=
  match answer with
  | UpsertedResolves (Some (row :: _)) None => convertToExtendedProfile row <> None
  | _ => True
  end.

(** The profile is held under [userId] by the cache or by the fallback
    table. *)
Definition held (st : State) (userId : string) (profile : value) : Prop :=
  users st !! userId = Some profile \/
  exists entry, profilesCache st !! userId = Some entry /\ data entry = profile.

(** The store did not take the write of a create: the promise rejects, the
    answer reports an error, or it carries no array of rows. *)
Definition write_failed (answer : upserted) : bool :=
  match answer with
  | UpsertedResolves (Some _) None => false
  | _ => true
  end.

(** The profile that a create returns: the conversion of the first row
    that a configured store answers, and otherwise the profile built from
    [userData]. *)
Definition created_profile (configured : bool) (userData : UserData) (env : CreateInputs)
  : option value :=
  match configured, upsert_answer env with
  | true, UpsertedResolves (Some (row :: _)) None => convertToExtendedProfile row
  | _, _ =>
      buildExtendedProfile (userId_of userData (new_id env)) (ud_fields userData) None
        (built_createdAt env) (built_updatedAt env)
  end.

(** The state that a create leaves. *)
Definition after_create (st : State) (userId : string) (answer : upserted)
    (profile : value) (now : Z) : State :=
  {| supabase := supabase st;
     profilesCache :=
       if supabase st
       then <[userId := {| data := profile; timestamp := now |}]> (profilesCache st)
       else profilesCache st;
     users :=
       if supabase st && negb (write_failed answer)
       then users st
       else <[userId := profile]> (users st);
     calls := if supabase st then calls st ++ [UpsertProfile userId] else calls st |}.

(** The read of the store fails: the promise rejects, or the answer reports
    an error other than that of an empty result. *)
Definition failing (answer : single) : Prop :=
  match answer with
  | SingleRejects _ => True
  | SingleResolves _ error => fatal error <> None
  end.

(** The state after a call was logged. *)
Definition logged (st : State) (c : DurableCall) : State :=
  {| supabase := supabase st;
     profilesCache := profilesCache st;
     users := users st;
     calls := calls st ++ [c] |}.

(** Sample inputs. *)
Definition accepted_default : CreateInputs :=
  {| new_id := "user_lx1c0k_4fzzzxjyl";
     upsert_answer := UpsertedResolves (Some []) None;
     built_createdAt := "2024-05-01T08:00:00.000Z";
     built_updatedAt := "2024-05-01T08:00:00.000Z";
     cached_at := 1000 |}.

Definition first_read : ReadInputs :=
  {| checked_at := 1000;
     single_answer := SingleResolves None (Some {| code := Some "PGRST116";
                                                   cause := {| message := "no rows" |} |});
     refreshed_at := 1000;
     default_inputs := accepted_default;
     rescue_createdAt := "2024-05-01T08:00:00.000Z";
     rescue_updatedAt := "2024-05-01T08:00:00.000Z" |}.

Definition second_read : ReadInputs :=
  {| checked_at := 61000;
     single_answer := SingleResolves None None;
     refreshed_at := 61000;
     default_inputs :=
       {| new_id := "user_lx1d9a_c3po0r2d2";
          upsert_answer := UpsertedResolves (Some []) None;
          built_createdAt := "2024-05-01T08:01:00.000Z";
          built_updatedAt := "2024-05-01T08:01:00.000Z";
          cached_at := 61000 |};
     rescue_createdAt := "2024-05-01T08:01:00.000Z";
     rescue_updatedAt := "2024-05-01T08:01:00.000Z" |}.

(** A row as the table holds it after a create with level 6. *)
Definition jean_row : Row :=
  {| uuid := VStr "jean";
     created_at := VStr "2024-05-01T08:00:00.000Z";
     updated_at := VStr "2024-05-01T08:00:00.000Z";
     nickname := VStr "Jean";
     email := VUndefined;
     surf_level := VStr "advanced";
     min_wave_height := Some (dec 8 10);
     max_wave_height := Some (dec 25 10) |}.

(** A create of a level 6 surfer with a 1.4 m optimum, answered with the
    row. *)
Definition create_jean : UserData :=
  {| ud_id := Some "jean";
     ud_fields := [("name", VStr "Jean"); ("surfLevel", int_lit 6);
                   ("optimalWaveSize", num_lit 14 10)] |}.

Definition answered_create : CreateInputs :=
  {| new_id := "user_lx1c0k_4fzzzxjyl";
     upsert_answer := UpsertedResolves (Some [jean_row]) None;
     built_createdAt := "2024-05-01T08:00:00.000Z";
     built_updatedAt := "2024-05-01T08:00:00.000Z";
     cached_at := 1000 |}.

(** The same create when the store is down. *)
Definition rejected_create : CreateInputs :=
  {| new_id := "user_lx1c0k_4fzzzxjyl";
     upsert_answer := UpsertedRejects {| message := "fetch failed" |};
     built_createdAt := "2024-05-01T08:00:00.000Z";
     built_updatedAt := "2024-05-01T08:00:00.000Z";
     cached_at := 1000 |}.

(** A read while the store is down. *)
Definition read_in_outage : ReadInputs :=
  {| checked_at := 1000;
     single_answer := SingleRejects {| message := "fetch failed" |};
     refreshed_at := 1000;
     default_inputs := accepted_default;
     rescue_createdAt := "2024-05-01T08:00:00.000Z";
     rescue_updatedAt := "2024-05-01T08:00:00.000Z" |}.

End Adapted.

(** * Properties *)

(** ** Finite numbers as rationals *)

Section NumFacts.
Local Open Scope Q_scope.

Lemma is_q_fin q : is_q (fin q) q.
Proof. apply Qred_correct. Qed.

Lemma is_q_Fin q : is_q (Fin q) q.
Proof. simpl. reflexivity. Qed.

Lemma is_q_of_Z z : is_q (of_Z z) (inject_Z z).
Proof. simpl. reflexivity. Qed.

Lemma is_q_dec n d : is_q (dec n d) (n # d).
Proof. apply is_q_fin. Qed.

Lemma is_q_eq a x y : is_q a x -> x == y -> is_q a y.
Proof. destruct a; simpl; intros H E; try contradiction. now rewrite H. Qed.

Lemma is_q_add a b x y : is_q a x -> is_q b y -> is_q (a + b)%num (x + y).
Proof.
  destruct a, b; simpl; try contradiction. intros Ha Hb.
  rewrite Qred_correct, Ha, Hb. reflexivity.
Qed.

Lemma is_q_neg a x : is_q a x -> is_q (Num.neg a) (- x).
Proof.
  destruct a; simpl; try contradiction. intros Ha.
  rewrite Qred_correct, Ha. reflexivity.
Qed.

Lemma is_q_sub a b x y : is_q a x -> is_q b y -> is_q (a - b)%num (x - y).
Proof. intros Ha Hb. apply is_q_add; [assumption | now apply is_q_neg]. Qed.

Lemma is_q_mul a b x y : is_q a x -> is_q b y -> is_q (a * b)%num (x * y).
Proof.
  destruct a, b; simpl; try contradiction. intros Ha Hb.
  rewrite Qred_correct, Ha, Hb. reflexivity.
Qed.

Lemma Qzero_spec q : Qzero q = true <-> q == 0.
Proof.
  unfold Qzero, Qeq. simpl. rewrite Z.eqb_eq. lia.
Qed.

Lemma is_q_div a b x y : is_q a x -> is_q b y -> ~ y == 0 -> is_q (a / b)%num (x / y).
Proof.
  destruct a, b; simpl; try contradiction. intros Ha Hb Hy.
  destruct (Qzero q0) eqn:E.
  - apply Qzero_spec in E. rewrite Hb in E. contradiction.
  - simpl. rewrite Qred_correct, Ha, Hb. reflexivity.
Qed.

Lemma is_q_abs a x : is_q a x -> is_q (Num.abs a) (Qabs x).
Proof.
  destruct a; simpl; try contradiction. intros Ha.
  rewrite Qred_correct, Ha. reflexivity.
Qed.

Lemma is_q_round a x :
  is_q a x -> is_q (Num.round a) (inject_Z (Qfloor (x + (1 # 2)))).
Proof.
  destruct a; unfold is_q, Num.round, of_Z; try contradiction.
  intros Ha. rewrite Ha. reflexivity.
Qed.

Lemma leb_is_q a b x y : is_q a x -> is_q b y -> Num.leb a b = Qle_bool x y.
Proof.
  destruct a, b; unfold is_q; try contradiction. intros Ha Hb.
  cbn [Num.leb].
  destruct (Qle_bool q q0) eqn:E1, (Qle_bool x y) eqn:E2; try reflexivity.
  - apply Qle_bool_iff in E1. rewrite Ha, Hb in E1. apply Qle_bool_iff in E1. congruence.
  - apply Qle_bool_iff in E2. rewrite <- Ha, <- Hb in E2. apply Qle_bool_iff in E2. congruence.
Qed.

Lemma le_is_q a b x y : is_q a x -> is_q b y -> Num.le a b <-> x <= y.
Proof.
  intros Ha Hb. unfold Num.le. rewrite (leb_is_q _ _ _ _ Ha Hb). apply Qle_bool_iff.
Qed.

Lemma is_q_max a b x y :
  is_q a x -> is_q b y ->
  exists m, is_q (Num.max a b) m /\ x <= m /\ y <= m /\ (m == x \/ m == y).
Proof.
  intros Ha Hb. pose proof (leb_is_q _ _ _ _ Ha Hb) as E.
  destruct a as [| | |p], b as [| | |q]; unfold is_q in Ha, Hb; try contradiction.
  unfold Num.max. rewrite E. destruct (Qle_bool x y) eqn:L.
  - apply Qle_bool_iff in L. exists y. repeat split; auto with qarith.
  - assert (~ x <= y) by (rewrite <- Qle_bool_iff; congruence).
    exists x. repeat split; auto with qarith; lra.
Qed.

Lemma is_q_min a b x y :
  is_q a x -> is_q b y ->
  exists m, is_q (Num.min a b) m /\ m <= x /\ m <= y /\ (m == x \/ m == y).
Proof.
  intros Ha Hb. pose proof (leb_is_q _ _ _ _ Ha Hb) as E.
  destruct a as [| | |p], b as [| | |q]; unfold is_q in Ha, Hb; try contradiction.
  unfold Num.min. rewrite E. destruct (Qle_bool x y) eqn:L.
  - apply Qle_bool_iff in L. exists x. repeat split; auto with qarith.
  - assert (~ x <= y) by (rewrite <- Qle_bool_iff; congruence).
    exists y. repeat split; auto with qarith; lra.
Qed.

End NumFacts.


(** ** The score as a function of the wave height *)

Section ScoringFacts.
Import Scoring.
Local Open Scope Q_scope.

Lemma score_split u c :
  calculateAdvancedSpotScore u c = afterWave u c (waveStep u c (of_Z 5)).
Proof. reflexivity. Qed.

Lemma finite_is_q a : finite a -> is_q a (toQ a).
Proof. destruct a; unfold finite; simpl; try discriminate. reflexivity. Qed.

Lemma round10_comp x y : x == y -> round10 x == round10 y.
Proof. intros E. unfold round10. rewrite E. reflexivity. Qed.


Lemma is_q_round10 a x :
  is_q a x -> is_q (Num.round (a * of_Z 10) / of_Z 10)%num (round10 x).
Proof.
  intros Ha. unfold round10. apply is_q_div.
  - apply is_q_round. apply is_q_mul; [exact Ha | apply is_q_of_Z].
  - apply is_q_of_Z.
  - discriminate.
Qed.





(** C7 at a failing input: with [min = max = optimal = 1] and a wave of
    1 m, inside the range, the division by the zero-width range is carried
    out and the returned score is [NaN]. *)
Theorem zero_width_range_score_is_NaN :
  in_range flat_range (Fin 1) = true /\
  calculateAdvancedSpotScore flat_range
    {| waveHeight := of_Z 1; windSpeed := of_Z 10; crowd := None |} = Some NaN.
Proof. split; reflexivity. Qed.

(** Non-finite numbers stay non-finite through the rest of the score. *)
Lemma not_finite_mul_l a b : Num.is_finite a = false -> Num.is_finite (a * b)%num = false.
Proof.
  destruct a, b; simpl; try discriminate; try reflexivity; intros _;
    destruct (Qzero q); try reflexivity; destruct (Qpos q); reflexivity.
Qed.

Lemma not_finite_mul_r a b : Num.is_finite b = false -> Num.is_finite (a * b)%num = false.
Proof.
  destruct a, b; simpl; try discriminate; try reflexivity; intros _;
    destruct (Qzero q); try reflexivity; destruct (Qpos q); reflexivity.
Qed.

Lemma not_finite_add_r a b : Num.is_finite b = false -> Num.is_finite (a + b)%num = false.
Proof. destruct a, b; simpl; try discriminate; reflexivity. Qed.

Lemma not_finite_sub_r a b : Num.is_finite b = false -> Num.is_finite (a - b)%num = false.
Proof.
  intros H. unfold Num.sub. apply not_finite_add_r.
  destruct b; simpl; try discriminate; reflexivity.
Qed.

Lemma not_finite_div_Fin a q : Num.is_finite a = false -> Num.is_finite (a / Fin q)%num = false.
Proof.
  destruct a; simpl; try discriminate; intros _; try reflexivity;
    destruct (Qpos q || Qzero q); reflexivity.
Qed.

Lemma not_finite_div_zero a q : Qzero q = true -> Num.is_finite (a / Fin q)%num = false.
Proof.
  intros Hz. destruct a; simpl; rewrite ?Hz; try reflexivity.
  - rewrite orb_true_r. reflexivity.
  - rewrite orb_true_r. reflexivity.
  - destruct (Qzero q0); [reflexivity |]. destruct (Qpos q0); reflexivity.
Qed.

(** With a wave range of no width, a wave height inside the range never
    gets a finite score: the division by the range is carried out. *)
Lemma zero_width_range_score_not_finite (u : User) (c : Conditions) (m1 m2 : Q) :
  waveSize_min u = Fin m1 -> waveSize_max u = Fin m2 -> m1 == m2 ->
  in_range u (waveHeight c) = true ->
  forall r, calculateAdvancedSpotScore u c = Some r -> Num.is_finite r = false.
Proof.
  intros Hmin Hmax Heq Hin r.
  assert (Hw : Num.is_finite (waveStep u c (of_Z 5)) = false).
  { unfold waveStep. unfold in_range in Hin. rewrite Hin.
    apply not_finite_mul_r, not_finite_add_r, not_finite_mul_r, not_finite_sub_r.
    rewrite Hmin, Hmax.
    assert (Hr : is_q (Fin m2 - Fin m1)%num (m2 - m1))
      by (apply is_q_sub; apply is_q_Fin).
    destruct (Fin m2 - Fin m1)%num as [| | | q]; unfold is_q in Hr; try contradiction.
    apply not_finite_div_zero. apply Qzero_spec. rewrite Hr, Heq. ring. }
  rewrite score_split. unfold afterWave, levelStep.
  set (s := waveStep u c (of_Z 5)) in *.
  destruct (crowdGiven (crowd c)) as [cr |];
    [destruct (crowdFactor (crowdTolerance u) cr) as [f |]; [| discriminate] |];
    intros [= <-]; apply not_finite_div_Fin.
  - assert (N : Num.is_finite
                  (s * windFactor u c
                   * (dec 6 10
                      + dec 2 10 * Num.min (of_Z 1) (surfLevel_overall u / of_Z 10)
                      + dec 2 10 * Num.min (of_Z 1) (sessionsCount u / of_Z 100))
                   * f * of_Z 10)%num = false)
      by (do 4 apply not_finite_mul_l; exact Hw).
    destruct (_ * of_Z 10)%num; try reflexivity. discriminate.
  - assert (N : Num.is_finite
                  (s * windFactor u c
                   * (dec 6 10
                      + dec 2 10 * Num.min (of_Z 1) (surfLevel_overall u / of_Z 10)
                      + dec 2 10 * Num.min (of_Z 1) (sessionsCount u / of_Z 100))
                   * of_Z 10)%num = false)
      by (do 3 apply not_finite_mul_l; exact Hw).
    destruct (_ * of_Z 10)%num; try reflexivity. discriminate.
Qed.

End ScoringFacts.

(** ** Property lookup after a merge *)

Section JsonFacts.

Lemma getp_setp_eq o key v : getp (setp o key v) key = Some v.
Proof.
  induction o as [| [k w] rest IH]; simpl.
  - now rewrite String.eqb_refl.
  - destruct (String.eqb k key) eqn:E; simpl; rewrite E; [reflexivity | exact IH].
Qed.

Lemma getp_setp_ne o key key' v :
  key <> key' -> getp (setp o key v) key' = getp o key'.
Proof.
  intros Hne. induction o as [| [k w] rest IH]; simpl.
  - destruct (String.eqb key key') eqn:E; [| reflexivity].
    apply String.eqb_eq in E. contradiction.
  - destruct (String.eqb k key) eqn:E; simpl.
    + apply String.eqb_eq in E. subst k.
      destruct (String.eqb key key') eqn:E'; [| reflexivity].
      apply String.eqb_eq in E'. contradiction.
    + destruct (String.eqb k key'); [reflexivity | exact IH].
Qed.


Lemma getp_In o key v : wf_props o -> In (key, v) o -> getp o key = Some v.
Proof.
  unfold wf_props. induction o as [| [k w] rest IH]; simpl; [tauto |].
  intros Hnd [Heq | Hin].
  - inversion Heq; subst. now rewrite String.eqb_refl.
  - apply List.NoDup_cons_iff in Hnd as [Hk Hnd]. destruct (String.eqb k key) eqn:E.
    + apply String.eqb_eq in E. subst k. exfalso. apply Hk.
      apply in_map_iff. exists (key, v). split; [reflexivity | exact Hin].
    + now apply IH.
Qed.

(** One step of the loop stores [mergedValue] under the key. *)
Lemma mergeInto_cons target key sv rest output :
  mergeInto target ((key, sv) :: rest) output
  = mergeInto target rest (setp output key (mergedValue target key sv)).
Proof.
  unfold mergeInto, mergedValue. simpl fold_left.
  destruct (isObject sv); [destruct (negb (key_in key target)) |]; reflexivity.
Qed.

Lemma deepMerge_obj (t s : props) :
  deepMerge (VObj t) (VObj s) = VObj (mergeInto (VObj t) s t).
Proof. reflexivity. Qed.

Lemma deepMerge_not_object target source :
  isObject target = false \/ isObject source = false ->
  deepMerge target source = VObj (objectAssign target).
Proof.
  intros [H | H].
  - destruct source; try reflexivity. simpl. now rewrite H.
  - destruct source; try reflexivity. discriminate.
Qed.

Lemma mergeInto_other target entries output key :
  ~ In key (keys entries) ->
  getp (mergeInto target entries output) key = getp output key.
Proof.
  revert output. induction entries as [| [k sv] rest IH]; intros output Hk.
  - reflexivity.
  - rewrite mergeInto_cons, IH.
    + apply getp_setp_ne. intros ->. apply Hk. now left.
    + intros Hin. apply Hk. now right.
Qed.

Lemma mergeInto_entry target entries output key sv :
  wf_props entries -> In (key, sv) entries ->
  getp (mergeInto target entries output) key = Some (mergedValue target key sv).
Proof.
  unfold wf_props. revert output.
  induction entries as [| [k v] rest IH]; intros output Hnd Hin; [destruct Hin |].
  simpl in Hnd. apply List.NoDup_cons_iff in Hnd as [Hk Hnd].
  rewrite mergeInto_cons. destruct Hin as [Heq | Hin].
  - inversion Heq; subst. rewrite mergeInto_other by exact Hk. apply getp_setp_eq.
  - now apply IH.
Qed.

(** Every property of the output so far is still there after the loop. *)
Lemma mergeInto_keeps target entries output key :
  getp output key <> None -> getp (mergeInto target entries output) key <> None.
Proof.
  revert output. induction entries as [| [k sv] rest IH]; intros output H.
  - exact H.
  - rewrite mergeInto_cons. apply IH.
    destruct (String.eqb_spec k key) as [-> | Hne].
    + now rewrite getp_setp_eq.
    + now rewrite getp_setp_ne.
Qed.

End JsonFacts.

(** ** The merge rule *)

Section MergeClaims.

(** C2 at a failing input.  The update [{constructor: {a: 1}}] holds a
    plain object under a key that the profile [{id: "u1"}] does not have,
    so the rule asks for the update value to be assigned as it is.  But
    [constructor] names an inherited member, [key in target] is true, and
    the code merges the update value into that member: the merged profile
    holds the empty object under [constructor] and nothing of the update. *)
Theorem deepMerge_drops_update_under_inherited_key :
  let target := VObj [("id"%string, VStr "u1")] in
  let update := VObj [("constructor"%string, VObj [("a"%string, VNum (of_Z 1))])] in
  isObject (VObj [("a"%string, VNum (of_Z 1))]) = true /\
  own target "constructor" = None /\
  deepMerge target update
  = VObj [("id"%string, VStr "u1"); ("constructor"%string, VObj [])] /\
  own (deepMerge target update) "constructor"
  <> Some (VObj [("a"%string, VNum (of_Z 1))]).
Proof. repeat split. discriminate. Qed.

(** C10, as amended.  When an update key holds a plain object and the
    target's value at that key is not a plain object, the merged value at
    that key is an object made of a copy of the own enumerable properties of
    the target's old value: empty for [undefined], [null], a boolean, a
    number, an empty string or an empty array, and the index-keyed elements
    for a non-empty array or string.  Nothing of the update's object is
    kept. *)
Theorem deepMerge_over_non_object (t s : props) (key : string) (sv tv : value) :
  wf_props s -> In (key, sv) s ->
  isObject sv = true -> getp t key = Some tv -> isObject tv = false ->
  own (deepMerge (VObj t) (VObj s)) key = Some (VObj (objectAssign tv)) /\
  match tv with
  | VArr (e :: rest) => objectAssign tv = ("0"%string, e) :: imap (fun i v => (pretty (S i), v)) rest
  | VStr (String c rest) =>
      objectAssign tv
      = ("0"%string, VStr (String c EmptyString)) :: imap (fun i v => (pretty (S i), v)) (chars rest)
  | _ => objectAssign tv = []
  end.
Proof.
  intros Hwf Hin Hsv Ht Htv. split.
  - rewrite deepMerge_obj. cbn [own].
    rewrite (mergeInto_entry _ _ _ _ _ Hwf Hin). unfold mergedValue.
    rewrite Hsv. cbn [key_in member]. unfold prop. rewrite Ht. cbn [negb].
    f_equal. apply deepMerge_not_object. now left.
  - destruct tv as [| | | | [| c rest] | [| e rest] |]; try reflexivity. discriminate.
Qed.

(** The amended rule at a profile whose [boards] is an array. *)
Lemma deepMerge_over_non_object_witness :
  own (deepMerge (VObj [("boards"%string, VArr [VStr "longboard"])])
                 (VObj [("boards"%string, VObj [("main"%string, VStr "fish")])]))
      "boards"
  = Some (VObj [("0"%string, VStr "longboard")]).
Proof.
  destruct (deepMerge_over_non_object
              [("boards"%string, VArr [VStr "longboard"])]
              [("boards"%string, VObj [("main"%string, VStr "fish")])]
              "boards" (VObj [("main"%string, VStr "fish")]) (VArr [VStr "longboard"]))
    as [H _].
  - unfold wf_props. simpl. repeat constructor. simpl. tauto.
  - simpl. tauto.
  - reflexivity.
  - reflexivity.
  - reflexivity.
  - exact H.
Defined.

(** C10 as stated fails: merging the object [{main: "fish"}] over the array
    [["longboard"]] leaves the object [{0: "longboard"}], which is not the
    empty object. *)
Lemma deepMerge_over_array_not_empty :
  let target := [("boards"%string, VArr [VStr "longboard"])] in
  let source := [("boards"%string, VObj [("main"%string, VStr "fish")])] in
  isObject (VObj [("main"%string, VStr "fish")]) = true /\
  getp target "boards" = Some (VArr [VStr "longboard"]) /\
  isObject (VArr [VStr "longboard"]) = false /\
  own (deepMerge (VObj target) (VObj source)) "boards"
    = Some (VObj [("0"%string, VStr "longboard")]) /\
  own (deepMerge (VObj target) (VObj source)) "boards" <> Some (VObj []).
Proof. repeat split. discriminate. Qed.

End MergeClaims.

(** ** Read, create and update *)

Section ServiceFacts.
Import Service.

(** Unfolding of the operation monad. *)
Ltac run :=
  unfold try_catch, bind, gets, ret, throw, lift, call, cache_set, users_set, modify;
  cbn [supabase profilesCache users calls fst snd].

(** The laws of the operation monad, state by state. *)
Lemma bind_ret_l {A B} (a : A) (k : A -> M B) st : bind (ret a) k st = k a st.
Proof. reflexivity. Qed.

Lemma bind_ret_r {A} (m : M A) st : bind m ret st = m st.
Proof. unfold bind, ret. destruct (m st) as [[a | e] st']; reflexivity. Qed.

Lemma bind_assoc {A B C} (m : M A) (k : A -> M B) (h : B -> M C) st :
  bind (bind m k) h st = bind m (fun a => bind (k a) h) st.
Proof. unfold bind. destruct (m st) as [[a | e] st']; reflexivity. Qed.

Lemma bind_throw {A B} (e : Error) (k : A -> M B) st : bind (throw e) k st = throw e st.
Proof. reflexivity. Qed.

Lemma try_catch_ret {A} (a : A) (handler : Error -> M A) st :
  try_catch (ret a) handler st = ret a st.
Proof. reflexivity. Qed.

Lemma try_catch_throw {A} (e : Error) (handler : Error -> M A) st :
  try_catch (throw e) handler st = handler e st.
Proof. reflexivity. Qed.

Lemma complete_buildCompleteProfile userId userData createdAt updatedAt :
  complete (buildCompleteProfile userId userData createdAt updatedAt) = true.
Proof. reflexivity. Qed.

Lemma complete_getDefaultProfile userId createdAt updatedAt :
  complete (getDefaultProfile userId createdAt updatedAt) = true.
Proof. reflexivity. Qed.

(** The reads of the store row succeed on a freshly built profile. *)
Lemma extractBasicProfileData_built userId userData createdAt updatedAt :
  extractBasicProfileData (buildCompleteProfile userId userData createdAt updatedAt)
  = Returns tt.
Proof. reflexivity. Qed.

(** C3.  Whatever the store answers to the writes, and whether or not a
    store is configured, [createUserProfile] returns the profile it built,
    which is complete, after writing it to the cache and to the fallback
    table under the id of the profile. *)
Theorem create_degrades_to_memory (userData : UserData) (env : CreateEnv) (st : State) :
  let userId := userId_of userData (generated_id env) in
  let profile :=
    buildCompleteProfile userId (ud_fields userData) (createdAt_now env) (updatedAt_now env) in
  exists st',
    createUserProfile userData env st = (Returns profile, st') /\
    complete profile = true /\
    profilesCache st'
      = <[userId := {| data := profile; timestamp := cache_now env |}]> (profilesCache st) /\
    users st' = <[userId := profile]> (users st) /\
    supabase st' = supabase st.
Proof.
  intros userId profile. unfold createUserProfile. fold userId. fold profile.
  destruct st as [configured cache fallback log]. run.
  destruct configured.
  - unfold profile at 1. rewrite extractBasicProfileData_built. run.
    destruct (profile_upsert env) as [e | [error |]]; run;
      [| | destruct (extended_upsert env) as [e | error]; run];
      eexists; repeat split; reflexivity.
  - eexists; repeat split; reflexivity.
Qed.

Lemma cache_hit_Some cached now profile :
  cache_hit cached now = Some profile ->
  exists entry, cached = Some entry /\ data entry = profile /\
                now - timestamp entry < cacheTimeout.
Proof.
  unfold cache_hit. destruct cached as [entry |]; [| discriminate].
  destruct (now - timestamp entry <? cacheTimeout) eqn:E; [| discriminate].
  intros [= <-]. exists entry. repeat split. now apply Z.ltb_lt.
Qed.

(** A read always returns, in every state and whatever the store answers. *)
Lemma read_returns (userId : string) (env : ReadEnv) (st : State) :
  exists profile st',
    getUserProfile userId env st = (Returns profile, st') /\
    supabase st' = supabase st.
Proof.
  unfold getUserProfile. destruct st as [configured cache fallback log]. run.
  destruct (cache_hit (cache !! userId) (check_now env)) as [hit |]; run;
    [eexists; eexists; split; reflexivity |].
  destruct (fallback !! userId) as [p |] eqn:Hp; [destruct (truthy p) eqn:Tp |];
  (destruct configured; run;
   [destruct (selected env) as [e | [|] [[found | e] |]]; run |]);
  rewrite ?Hp; unfold js_or; rewrite ?Tp;
  eexists; eexists; split; reflexivity.
Qed.

Lemma tiers_complete_refreshed st st' userId profile now :
  profilesCache st' = <[userId := {| data := profile; timestamp := now |}]> (profilesCache st) ->
  users st' = users st ->
  complete profile = true ->
  tiers_complete st -> tiers_complete st'.
Proof.
  intros Hc Hu Hp [H1 H2]. split; [rewrite Hc | rewrite Hu; exact H2].
  intros id x. rewrite lookup_insert. case_decide; [intros [= <-]; exact Hp | apply H1].
Qed.

Lemma read_invariant (userId : string) (env : ReadEnv) (st : State) :
  tiers_complete st -> store_complete (selected env) ->
  exists profile st',
    getUserProfile userId env st = (Returns profile, st') /\
    complete profile = true /\ tiers_complete st'.
Proof.
  intros Inv Hstore. pose proof Inv as [Hcache Husers].
  unfold getUserProfile. destruct st as [configured cache fallback log]. run.
  cbn [supabase profilesCache users calls] in *.
  destruct (cache_hit (cache !! userId) (check_now env)) as [hit |] eqn:Hhit.
  { run. exists hit. eexists. split; [reflexivity |].
    apply cache_hit_Some in Hhit as (entry & Hentry & <- & _). split; eauto. }
  destruct (fallback !! userId) as [p |] eqn:Hp; [destruct (truthy p) eqn:Tp |];
  (destruct configured; run;
   [destruct (selected env) as [e | [|] [[found | e] |]] eqn:Hsel; run |]);
  rewrite ?Hp; unfold js_or; rewrite ?Tp.
  all: eexists; eexists; (split; [reflexivity |]).
  all: split;
    [ first [reflexivity | solve [eapply Husers; eassumption]
            | solve [apply Hstore; reflexivity]]
    | first [ solve [split; [exact Hcache | exact Husers]]
            | eapply tiers_complete_refreshed; [| | | exact Inv];
              [reflexivity | reflexivity | apply Hstore; reflexivity] ] ].
Qed.

(** What a read does to the log, the cache and the fallback table. *)
Lemma read_flow (userId : string) (env : ReadEnv) (st st' : State) (profile : value) :
  getUserProfile userId env st = (Returns profile, st') ->
  (forall cached,
      cache_hit (profilesCache st !! userId) (check_now env) = Some cached ->
      profile = cached /\ st' = st) /\
  (forall found,
      cache_hit (profilesCache st !! userId) (check_now env) = None ->
      supabase st = true ->
      selected env = SelectsResolve true (Some (Returns found)) ->
      profile = found) /\
  calls st' = calls st ++ read_calls st userId env /\
  profilesCache st' = read_cache st userId env /\
  users st' = users st /\
  supabase st' = supabase st.
Proof.
  unfold getUserProfile, read_calls, read_cache.
  destruct st as [configured cache fallback log]. run.
  cbn [supabase profilesCache users calls] in *.
  destruct (cache_hit (cache !! userId) (check_now env)) as [hit |] eqn:Hhit.
  { run. intros [= <- <-]. cbn [supabase profilesCache users calls].
    rewrite app_nil_r. repeat split; try reflexivity; intros; congruence. }
  destruct (fallback !! userId) as [p |] eqn:Hp; [destruct (truthy p) eqn:Tp |];
  (destruct configured; run;
   [destruct (selected env) as [e | [|] [[found | e] |]] eqn:Hsel; run |]);
  rewrite ?Hp; unfold js_or; rewrite ?Tp.
  all: intros [= <- <-]; cbn [supabase profilesCache users calls].
  all: repeat match goal with |- _ /\ _ => split end.
  all: first
    [ reflexivity
    | solve [intros ? [=]]
    | solve [intros ? _ ? E; first [discriminate | congruence]]
    | solve [rewrite <- ?app_assoc, ?app_nil_r; reflexivity] ].
Qed.

Lemma stale_cache_hit (st : State) (userId : string) (env : ReadEnv) :
  stale st userId env <-> cache_hit (profilesCache st !! userId) (check_now env) = None.
Proof.
  unfold stale, cache_hit, cacheTimeout.
  destruct (profilesCache st !! userId) as [entry |]; [| split; [reflexivity | discriminate]].
  destruct (Z.ltb_spec (check_now env - timestamp entry) (5 * 60 * 1000)) as [Hlt | Hge].
  - split; [| discriminate]. intros H. specialize (H entry eq_refl). lia.
  - split; [reflexivity |]. now intros _ e [= <-].
Qed.

(** What a read returns when the cache and the store give nothing. *)
Lemma read_without_store (userId : string) (env : ReadEnv) (st : State) :
  cache_hit (profilesCache st !! userId) (check_now env) = None ->
  supabase st = false \/ finds_nothing (selected env) ->
  fst (getUserProfile userId env st) = Returns (fallback_or_default st userId env).
Proof.
  intros Hhit Hmiss. unfold getUserProfile, fallback_or_default.
  destruct st as [configured cache fallback log]. run.
  cbn [supabase profilesCache users calls] in *. rewrite Hhit.
  destruct (fallback !! userId) as [p |] eqn:Hp; [destruct (truthy p) eqn:Tp |];
  (destruct configured; run;
   [destruct Hmiss as [[=] | Hmiss];
    destruct (selected env) as [e | [|] [[found | e] |]]; run; try (destruct Hmiss) |]);
  rewrite ?Hp; unfold js_or; rewrite ?Tp; reflexivity.
Qed.

Lemma truthy_fallback_or_default (st : State) (userId : string) (env : ReadEnv) :
  truthy (fallback_or_default st userId env) = true.
Proof.
  unfold fallback_or_default.
  destruct (users st !! userId) as [kept |]; [| reflexivity].
  destruct (truthy kept) eqn:T; [exact T | reflexivity].
Qed.

(** C1, as amended.  [getUserProfile] returns in every state and whatever
    the store answers, and consults the tiers in this order.  A cache
    entry younger than five minutes is returned as it is, with no call to
    the store and no change of state, whatever the store would answer.
    Without such an entry, and with a store configured, the record that
    the store finds is returned as it was parsed and is cached.  Neither
    of these two values is checked: it is what was stored.  In every
    other case (no store, no record, a record that does not parse, a
    rejection) the read returns the entry of the fallback table if it is
    truthy and a default profile otherwise, a value that is never [null]
    and is a complete profile when the entry of the fallback table is.
    The store is queried exactly when the cache has no fresh entry and a
    store is configured, the cache changes exactly when that query finds
    a record, and the fallback table is never written. *)
Theorem read_tier_order (userId : string) (env : ReadEnv) (st : State) :
  exists profile st',
    getUserProfile userId env st = (Returns profile, st') /\
    (forall entry,
        profilesCache st !! userId = Some entry ->
        check_now env - timestamp entry < 5 * 60 * 1000 ->
        profile = data entry /\ st' = st) /\
    (forall found,
        stale st userId env ->
        supabase st = true ->
        selected env = SelectsResolve true (Some (Returns found)) ->
        profile = found /\
        profilesCache st' !! userId
        = Some {| data := found; timestamp := refresh_now env |}) /\
    (stale st userId env ->
     supabase st = false \/ finds_nothing (selected env) ->
     profile = fallback_or_default st userId env /\
     truthy profile = true /\
     profile <> VNull /\
     ((forall kept, users st !! userId = Some kept -> complete kept = true) ->
      complete profile = true)) /\
    calls st' = calls st ++ read_calls st userId env /\
    profilesCache st' = read_cache st userId env /\
    users st' = users st /\
    supabase st' = supabase st.
Proof.
  destruct (read_returns userId env st) as (profile & st' & Hrun & _).
  exists profile, st'. split; [exact Hrun |].
  destruct (read_flow userId env st st' profile Hrun)
    as (Hhit & Hfound & Hcalls & Hcache & Husers & Hsb).
  split; [| split; [| split]].
  - intros entry Hentry Hage. apply Hhit.
    unfold cache_hit, cacheTimeout. rewrite Hentry.
    destruct (Z.ltb_spec (check_now env - timestamp entry) (5 * 60 * 1000)); [reflexivity | lia].
  - intros found Hstale Hs Hsel. apply stale_cache_hit in Hstale.
    split; [now apply Hfound |].
    rewrite Hcache. unfold read_cache. rewrite Hstale, Hs, Hsel.
    apply lookup_insert_eq.
  - intros Hstale Hnone. apply stale_cache_hit in Hstale.
    pose proof (read_without_store userId env st Hstale Hnone) as E.
    rewrite Hrun in E. cbn [fst] in E. injection E as ->.
    split; [reflexivity |]. split; [apply truthy_fallback_or_default |]. split.
    + intros E. pose proof (truthy_fallback_or_default st userId env) as T.
      rewrite E in T. discriminate.
    + intros Hkept. unfold fallback_or_default.
      destruct (users st !! userId) as [kept |] eqn:Hk; [| reflexivity].
      destruct (truthy kept); [now apply Hkept | reflexivity].
  - repeat split; assumption.
Qed.

(** The theorem at a state with a fresh cache entry: the read returns the
    cached profile and sends nothing to the store, although the store
    holds a newer record. *)
Lemma read_tier_order_witness :
  exists st',
    getUserProfile "jean" read_in_window cached_state
    = (Returns (getDefaultProfile "jean" "2024-05-01T08:00:00.000Z"
                                         "2024-05-01T08:00:00.000Z"), st') /\
    st' = cached_state.
Proof.
  destruct (read_tier_order "jean" read_in_window cached_state)
    as (profile & st' & Hrun & Hhit & _).
  destruct (Hhit {| data := getDefaultProfile "jean" "2024-05-01T08:00:00.000Z"
                                              "2024-05-01T08:00:00.000Z";
                    timestamp := 1000 |}) as [-> ->].
  - reflexivity.
  - vm_compute. reflexivity.
  - exists cached_state. split; [exact Hrun | reflexivity].
Defined.

(** C1 as stated fails: when the record of the store holds the JSON text
    [null], the read of a new service returns [null], which is no complete
    profile, and caches it; a read one minute later returns [null] again,
    from the cache. *)
Lemma read_returns_null :
  let after :=
    {| supabase := true;
       profilesCache := {[ "jean"%string := {| data := VNull; timestamp := 1005 |} ]};
       users := ∅;
       calls := [SelectProfile "jean"; SelectExtended "jean"] |} in
  getUserProfile "jean" read_null_record (fresh_state true) = (Returns VNull, after) /\
  complete VNull = false /\
  getUserProfile "jean" read_a_minute_later after = (Returns VNull, after).
Proof. repeat split. Qed.

(** A read that finds the id nowhere returns the default profile and
    leaves the cache and the fallback table as they were. *)
Lemma read_nothing_found (userId : string) (env : ReadEnv) (st : State) :
  cache_hit (profilesCache st !! userId) (check_now env) = None ->
  supabase st = false \/ finds_nothing (selected env) ->
  users st !! userId = None ->
  getUserProfile userId env st
  = (Returns (getDefaultProfile userId (default_createdAt env) (default_updatedAt env)),
     {| supabase := supabase st;
        profilesCache := profilesCache st;
        users := users st;
        calls := calls st ++ read_calls st userId env |}).
Proof.
  intros Hhit Hmiss Hp. unfold getUserProfile, read_calls.
  destruct st as [configured cache fallback log]. run.
  cbn [supabase profilesCache users calls] in *. rewrite Hhit.
  destruct configured; run.
  - destruct Hmiss as [[=] | Hmiss].
    destruct (selected env) as [e | [|] [[found | e] |]]; run; rewrite ?Hp;
      try (destruct Hmiss); rewrite <- ?app_assoc; reflexivity.
  - rewrite Hp, app_nil_r. reflexivity.
Qed.

(** C5, as amended.  When the cache misses or has expired, the store is
    absent or yields no profile, and the fallback table has no entry, the
    read returns a default profile for the id but stores it nowhere: cache
    and fallback table are unchanged and no write is sent to the store.  A
    later read that again finds nothing therefore builds a new default
    profile, with the timestamps of that later read. *)
Theorem read_default_is_not_stored (userId : string) (env : ReadEnv) (st : State) :
  cache_hit (profilesCache st !! userId) (check_now env) = None ->
  supabase st = false \/ finds_nothing (selected env) ->
  users st !! userId = None ->
  exists st',
    getUserProfile userId env st
    = (Returns (getDefaultProfile userId (default_createdAt env) (default_updatedAt env)), st') /\
    profilesCache st' = profilesCache st /\
    users st' = users st /\
    List.filter is_upsert (calls st') = List.filter is_upsert (calls st) /\
    forall env2,
      cache_hit (profilesCache st' !! userId) (check_now env2) = None ->
      supabase st = false \/ finds_nothing (selected env2) ->
      exists st'',
        getUserProfile userId env2 st'
        = (Returns (getDefaultProfile userId (default_createdAt env2) (default_updatedAt env2)),
           st'').
Proof.
  intros Hhit Hmiss Hp. eexists. split; [now apply read_nothing_found |].
  cbn [supabase profilesCache users calls]. repeat split.
  - rewrite List.filter_app. unfold read_calls. rewrite Hhit.
    destruct (supabase st); cbn; now rewrite app_nil_r.
  - intros env2 Hhit2 Hmiss2. eexists. now apply read_nothing_found.
Qed.

(** The amended claim at a new service whose store has no record. *)
Lemma read_default_is_not_stored_witness :
  exists st',
    getUserProfile "surfer-42" (read_missing 1000 "2024-05-01T08:00:00.000Z") (fresh_state true)
    = (Returns (getDefaultProfile "surfer-42" "2024-05-01T08:00:00.000Z"
                                  "2024-05-01T08:00:00.000Z"), st') /\
    users st' = ∅.
Proof.
  destruct (read_default_is_not_stored "surfer-42"
              (read_missing 1000 "2024-05-01T08:00:00.000Z") (fresh_state true))
    as (st' & Hrun & _ & Husers & _).
  - reflexivity.
  - right. exact I.
  - reflexivity.
  - exists st'. split; [exact Hrun | exact Husers].
Defined.

(** C5 as stated fails: after a read of an unknown id on a new service,
    neither the cache nor the fallback table holds the id and the store has
    received only the two selects, and the next read builds another default
    profile, which differs from the first by its timestamps. *)
Lemma default_profile_is_rebuilt :
  let first := read_missing 1000 "2024-05-01T08:00:00.000Z" in
  let second := read_missing 2000 "2024-05-01T08:00:01.000Z" in
  let after :=
    {| supabase := true; profilesCache := ∅; users := ∅;
       calls := [SelectProfile "surfer-42"; SelectExtended "surfer-42"] |} in
  getUserProfile "surfer-42" first (fresh_state true)
  = (Returns (getDefaultProfile "surfer-42" "2024-05-01T08:00:00.000Z"
                                "2024-05-01T08:00:00.000Z"), after) /\
  profilesCache after !! "surfer-42"%string = None /\
  users after !! "surfer-42"%string = None /\
  fst (getUserProfile "surfer-42" second after)
  = Returns (getDefaultProfile "surfer-42" "2024-05-01T08:00:01.000Z"
                               "2024-05-01T08:00:01.000Z") /\
  getDefaultProfile "surfer-42" "2024-05-01T08:00:01.000Z" "2024-05-01T08:00:01.000Z"
  <> getDefaultProfile "surfer-42" "2024-05-01T08:00:00.000Z" "2024-05-01T08:00:00.000Z".
Proof.
  repeat split. intros H.
  apply (f_equal (fun v => own v "createdAt")) in H. cbn in H. discriminate.
Qed.

Lemma deepMerge_is_object target source :
  exists o, deepMerge target source = VObj o.
Proof.
  destruct source; try (eexists; reflexivity).
  simpl. destruct (isObject target); eexists; reflexivity.
Qed.

Lemma updated_profile_stamped current updates stamp :
  own (updated_profile current updates stamp) "updatedAt" = Some (VStr stamp).
Proof.
  unfold updated_profile. destruct (deepMerge_is_object current updates) as [o ->].
  cbn [set_member own]. apply getp_setp_eq.
Qed.

(** An update keeps every section of a complete profile. *)
Lemma complete_updated_profile current updates stamp :
  complete current = true -> complete (updated_profile current updates stamp) = true.
Proof.
  unfold updated_profile. destruct current as [| | | | | | o]; try discriminate.
  intros Hc.
  assert (Hkeep : forall o', deepMerge (VObj o) updates = VObj o' ->
                    forall key, getp o key <> None -> getp o' key <> None).
  { intros o' E key Hk. destruct updates as [| | | | | | s];
      try (injection E as <-; exact Hk).
    rewrite deepMerge_obj in E. injection E as <-. now apply mergeInto_keeps. }
  destruct (deepMerge_is_object (VObj o) updates) as [o' E]. rewrite E.
  specialize (Hkeep o' E). cbn [set_member complete] in *.
  rewrite forallb_forall in *. intros key Hin. specialize (Hc key Hin).
  assert (getp o key <> None) by (destruct (getp o key); [discriminate | discriminate]).
  destruct (String.eqb_spec "updatedAt" key) as [<- | Hne].
  - now rewrite getp_setp_eq.
  - rewrite getp_setp_ne by exact Hne.
    specialize (Hkeep key H). destruct (getp o' key); [reflexivity | contradiction].
Qed.



(** An update also throws when no write fails: setting [personal] to [null]
    makes the reads of the store row throw, before any write is sent. *)
Lemma update_throws_on_null_section :
  fst (updateUserProfile "jean" erase_personal accepted_update fallback_state)
  = Throws {| message := "Impossible de mettre à jour le profil: "
                         ++ "Cannot read properties of null (reading 'email')" |} /\
  List.filter is_upsert
    (calls (snd (updateUserProfile "jean" erase_personal accepted_update fallback_state)))
  = [] /\
  users (snd (updateUserProfile "jean" erase_personal accepted_update fallback_state))
  = users fallback_state.
Proof. repeat split. Qed.

(** *** The completeness of the tiers is an invariant of the service *)

Lemma tiers_complete_fresh configured : tiers_complete (fresh_state configured).
Proof. split; intros id x; cbn [fresh_state profilesCache users]; now rewrite lookup_empty. Qed.

Lemma tiers_complete_same_tiers st st' :
  profilesCache st' = profilesCache st -> users st' = users st ->
  tiers_complete st -> tiers_complete st'.
Proof. intros Hc Hu [H1 H2]. split; [rewrite Hc | rewrite Hu]; assumption. Qed.

Lemma tiers_complete_written st st' userId profile now :
  profilesCache st' = <[userId := {| data := profile; timestamp := now |}]> (profilesCache st) ->
  users st' = <[userId := profile]> (users st) ->
  complete profile = true ->
  tiers_complete st -> tiers_complete st'.
Proof.
  intros Hc Hu Hp [H1 H2]. split; [rewrite Hc | rewrite Hu];
    intros id x; rewrite lookup_insert; case_decide;
    [intros [= <-]; exact Hp | apply H1 | intros [= <-]; exact Hp | apply H2].
Qed.

Lemma create_keeps_tiers_complete (userData : UserData) (env : CreateEnv) (st : State) :
  tiers_complete st -> tiers_complete (snd (createUserProfile userData env st)).
Proof.
  intros Inv. unfold createUserProfile.
  destruct st as [configured cache fallback log]. run.
  destruct configured.
  - rewrite extractBasicProfileData_built. run.
    destruct (profile_upsert env) as [e | [error |]]; run;
      [| | destruct (extended_upsert env) as [e | error]; run];
      cbn [snd]; (eapply tiers_complete_written; [| | | exact Inv]); reflexivity.
  - cbn [snd]. eapply tiers_complete_written; [| | | exact Inv]; reflexivity.
Qed.

Lemma update_keeps_tiers_complete
    (userId : string) (updates : value) (env : UpdateEnv) (st : State) :
  tiers_complete st -> store_complete (selected (read_env env)) ->
  tiers_complete (snd (updateUserProfile userId updates env st)).
Proof.
  intros Inv Hstore.
  destruct (read_invariant userId (read_env env) st Inv Hstore)
    as (current & st1 & Hread & Hcur & Inv1).
  unfold updateUserProfile. run. rewrite Hread.
  set (updated := set_member (deepMerge current updates) "updatedAt"
                             (VStr (updatedAt_stamp env))).
  assert (Hup : complete updated = true)
    by (apply (complete_updated_profile current updates (updatedAt_stamp env) Hcur)).
  destruct st1 as [configured cache fallback log]. cbn [supabase profilesCache users calls].
  destruct configured.
  - destruct (extractBasicProfileData updated) as [[] | e]; run.
    + destruct (both_upserts env) as [e | e1 e2]; cbn [snd].
      * eapply tiers_complete_same_tiers; [| | exact Inv1]; reflexivity.
      * eapply tiers_complete_written; [| | | exact Inv1]; [reflexivity | reflexivity | exact Hup].
    + cbn [snd]. exact Inv1.
  - cbn [snd]. eapply tiers_complete_written; [| | | exact Inv1];
      [reflexivity | reflexivity | exact Hup].
Qed.

End ServiceFacts.

(** ** Streak and statistics *)

Section StatsFacts.
Import Service Stats.

Lemma diffDays_within_week prev curr p c :
  date prev = Some p -> date curr = Some c ->
  (diffDays prev curr <=? of_Z 7)%num = (Z.abs (c - p) <=? week).
Proof.
  intros Hp Hc. unfold diffDays, time. rewrite Hp, Hc.
  assert (Hd : is_q (Num.abs (of_Z c - of_Z p) / of_Z (1000 * 60 * 60 * 24))%num
                    (Qabs (inject_Z c - inject_Z p) / inject_Z (1000 * 60 * 60 * 24))).
  { apply is_q_div; [| apply is_q_of_Z | discriminate].
    apply is_q_abs, is_q_sub; apply is_q_of_Z. }
  rewrite (leb_is_q _ _ _ _ Hd (is_q_of_Z 7)).
  assert (E : (Qabs (inject_Z c - inject_Z p) == inject_Z (Z.abs (c - p)))%Q).
  { unfold Qminus. rewrite <- inject_Z_opp, <- inject_Z_plus. reflexivity. }
  destruct (Z.abs (c - p) <=? week) eqn:L.
  - apply Z.leb_le in L. apply Qle_bool_iff. rewrite E.
    apply Qle_shift_div_r; [reflexivity |].
    rewrite <- inject_Z_mult, <- Zle_Qle. exact L.
  - apply Z.leb_gt in L. destruct (Qle_bool _ _) eqn:B; [| reflexivity].
    apply Qle_bool_iff in B. rewrite E in B. exfalso.
    assert (H : (inject_Z (Z.abs (c - p)) <= inject_Z 7 * inject_Z (1000 * 60 * 60 * 24))%Q).
    { apply (Qmult_le_r _ _ (/ inject_Z (1000 * 60 * 60 * 24))); [reflexivity |].
      rewrite <- Qmult_assoc, Qmult_inv_r by discriminate. rewrite Qmult_1_r. exact B. }
    rewrite <- inject_Z_mult, <- Zle_Qle in H. unfold week in L. lia.
Qed.

Lemma streak_loop_run prev rest p ts k :
  date prev = Some p -> map date rest = map Some ts ->
  streak_loop prev rest k = (k + run p ts)%nat.
Proof.
  revert prev p ts k. induction rest as [| curr rest IH]; intros prev p ts k Hp Hts.
  - destruct ts; [| discriminate]. simpl. lia.
  - destruct ts as [| t ts]; [discriminate |]. simpl in Hts. injection Hts as Hc Hts.
    simpl. rewrite (diffDays_within_week prev curr p t Hp Hc).
    destruct (Z.abs (t - p) <=? week); [| lia].
    rewrite (IH curr t ts (S k) Hc Hts). lia.
Qed.

Lemma run_length p ts : (run p ts <= length ts)%nat.
Proof.
  revert p. induction ts as [| t ts IH]; intros p; simpl; [lia |].
  destruct (Z.abs (t - p) <=? week); [specialize (IH t) |]; lia.
Qed.

(** Inside the run every gap is at most a week. *)
Lemma run_gaps p ts i a b :
  (S i <= run p ts)%nat ->
  (p :: ts) !! i = Some a -> (p :: ts) !! S i = Some b -> Z.abs (b - a) <= week.
Proof.
  revert p i a b. induction ts as [| t ts IH]; intros p i a b Hi Ha Hb.
  - simpl in Hi. lia.
  - simpl in Hi. destruct (Z.abs (t - p) <=? week) eqn:L; [| lia].
    destruct i as [| i].
    + simpl in Ha, Hb. injection Ha as <-. injection Hb as <-. now apply Z.leb_le.
    + apply (IH t i a b); [lia | exact Ha | exact Hb].
Qed.

(** The gap that ends the run is longer than a week. *)
Lemma run_stops p ts a b :
  (p :: ts) !! run p ts = Some a -> (p :: ts) !! S (run p ts) = Some b ->
  week < Z.abs (b - a).
Proof.
  revert p a b. induction ts as [| t ts IH]; intros p a b Ha Hb.
  - simpl in Hb. discriminate.
  - simpl in Ha, Hb. destruct (Z.abs (t - p) <=? week) eqn:L.
    + apply (IH t a b); [exact Ha | exact Hb].
    + simpl in Ha, Hb. injection Ha as <-. injection Hb as <-. now apply Z.leb_gt.
Qed.

Lemma streak_at_offsets now :
  calculateStreak [session_at (day_offset now 0);
                   session_at (day_offset now 5);
                   session_at (day_offset now 20)] = 2%nat.
Proof.
  cbn [calculateStreak].
  rewrite (streak_loop_run (session_at (day_offset now 0))
             [session_at (day_offset now 5); session_at (day_offset now 20)]
             (day_offset now 0) [day_offset now 5; day_offset now 20] 1 eq_refl eq_refl).
  unfold run, day_offset, week.
  repeat match goal with
         | |- context [?x <=? ?y] => destruct (Z.leb_spec x y); try lia
         end.
Qed.

(** C9.  On sessions with valid dates, sorted from the most recent to the
    oldest, [calculateStreak] returns 0 for no session and at least 1 (and
    at most the number of sessions) otherwise; every pair of adjacent
    sessions inside the streak is at most 7 days apart, and the pair that
    ends it, if any, is more than 7 days apart.  Sessions 0, 5 and 20 days
    before now give a streak of 2. *)
Theorem streak_counts_recent_sessions (sessions : list Session) (ts : list Z) :
  map date sessions = map Some ts -> descending ts ->
  (sessions = [] -> calculateStreak sessions = 0%nat) /\
  (sessions <> [] ->
     (1 <= calculateStreak sessions)%nat /\
     (calculateStreak sessions <= length sessions)%nat) /\
  (forall i a b,
      (S i < calculateStreak sessions)%nat ->
      ts !! i = Some a -> ts !! S i = Some b -> a - b <= week) /\
  (forall a b,
      (1 <= calculateStreak sessions)%nat ->
      ts !! (calculateStreak sessions - 1)%nat = Some a ->
      ts !! calculateStreak sessions = Some b -> week < a - b) /\
  (forall now,
      calculateStreak [session_at (day_offset now 0);
                       session_at (day_offset now 5);
                       session_at (day_offset now 20)] = 2%nat).
Proof.
  intros Hts Hdesc.
  split; [now intros -> |].
  destruct sessions as [| first rest].
  { split; [intros H; now destruct H |]. cbn [calculateStreak].
    split; [intros; lia |]. split; [intros; lia |].
    apply streak_at_offsets. }
  destruct ts as [| p ts]; [discriminate |]. simpl in Hts. injection Hts as Hp Hts.
  cbn [calculateStreak]. rewrite (streak_loop_run first rest p ts 1 Hp Hts).
  pose proof (run_length p ts) as Hlen.
  assert (Hl : length rest = length ts).
  { apply (f_equal (@length _)) in Hts. now rewrite !length_map in Hts. }
  split; [intros _; simpl; lia |]. split; [| split].
  - intros i a b Hi Ha Hb.
    pose proof (run_gaps p ts i a b ltac:(lia) Ha Hb) as G.
    specialize (Hdesc i a b Ha Hb). lia.
  - intros a b _ Ha Hb.
    replace (1 + run p ts - 1)%nat with (run p ts) in Ha by lia.
    pose proof (run_stops p ts a b Ha Hb) as G.
    specialize (Hdesc (run p ts) a b Ha Hb). lia.
  - apply streak_at_offsets.
Qed.

(** The theorem at four sessions 0, 5, 20 and 21 days before a given day. *)
Lemma streak_counts_recent_sessions_witness :
  descending [1714550400000; 1714118400000; 1712822400000; 1712736000000] /\
  calculateStreak (map session_at
                     [1714550400000; 1714118400000; 1712822400000; 1712736000000])
  = 2%nat /\
  week < 1714118400000 - 1712822400000.
Proof.
  assert (D : descending [1714550400000; 1714118400000; 1712822400000; 1712736000000]).
  { intros [| [| [| [| i]]]] a b Ha Hb; simpl in Ha, Hb; try discriminate;
      injection Ha as <-; injection Hb as <-; lia. }
  split; [exact D |].
  destruct (streak_counts_recent_sessions
              (map session_at [1714550400000; 1714118400000; 1712822400000; 1712736000000])
              [1714550400000; 1714118400000; 1712822400000; 1712736000000]
              eq_refl D) as (_ & _ & _ & Hstop & _).
  split; [reflexivity |].
  apply Hstop; [vm_compute; lia | reflexivity | reflexivity].
Defined.

(** The draws of [Math.random()] reach the [try] block only through
    [totalPredictions]. *)
Lemma stats_try_with_draws configured user page env r1 r2 r3 :
  stats_try configured user page (with_draws env r1 r2 r3)
  = match stats_try configured user page env with
    | Returns s =>
        Returns {| totalSessions := totalSessions s;
                   avgRating := avgRating s;
                   favoriteSpots := favoriteSpots s;
                   totalBoards := totalBoards s;
                   totalPredictions := random_int r1 50 20;
                   currentStreak := currentStreak s;
                   level := level s;
                   experience := experience s |}
    | Throws e => Throws e
    end.
Proof.
  unfold stats_try, obind. cbn [with_draws favorites_counted boards_counted random_try].
  repeat match goal with
         | |- context [match ?o with Returns _ => _ | Throws _ => _ end] =>
             destruct o; try reflexivity
         end.
Qed.

Lemma random_int_range (r : Q) (n k : Z) :
  unit_draw r -> 0 < n ->
  Num.le (of_Z k) (random_int r n k) /\ Num.le (random_int r n k) (of_Z (k + n - 1)).
Proof.
  intros [H0 H1] Hn. unfold random_int.
  assert (Hq : is_q (Num.floor (Fin r * of_Z n) + of_Z k)%num
                    (inject_Z (Qfloor (r * inject_Z n)) + inject_Z k)).
  { apply is_q_add; [| apply is_q_of_Z].
    assert (Hm : is_q (Fin r * of_Z n)%num (r * inject_Z n))
      by (apply is_q_mul; [apply is_q_Fin | apply is_q_of_Z]).
    destruct (Fin r * of_Z n)%num as [| | | q]; unfold is_q in Hm; try contradiction.
    unfold Num.floor, of_Z, is_q. now rewrite Hm. }
  assert (Pn : (0 < inject_Z n)%Q) by (change 0%Q with (inject_Z 0); rewrite <- Zlt_Qlt; exact Hn).
  assert (L0 : (0 <= Qfloor (r * inject_Z n))%Z).
  { change 0%Z with (Qfloor 0). apply Qfloor_resp_le. apply Qmult_le_0_compat; lra. }
  assert (L1 : (Qfloor (r * inject_Z n) < n)%Z).
  { rewrite Zlt_Qlt. apply Qle_lt_trans with (r * inject_Z n)%Q; [apply Qfloor_le |].
    rewrite <- (Qmult_1_l (inject_Z n)) at 2. apply Qmult_lt_compat_r; assumption. }
  split.
  - apply (le_is_q _ _ _ _ (is_q_of_Z k) Hq).
    rewrite <- inject_Z_plus, <- Zle_Qle. lia.
  - apply (le_is_q _ _ _ _ Hq (is_q_of_Z (k + n - 1))).
    rewrite <- inject_Z_plus, <- Zle_Qle. lia.
Qed.

(** [Math.floor(r * n) + k] is an integer. *)
Lemma random_int_integer (r : Q) (n k : Z) :
  is_q (random_int r n k) (inject_Z (Qfloor (r * inject_Z n) + k)).
Proof.
  unfold random_int.
  assert (Hm : is_q (Fin r * of_Z n)%num (r * inject_Z n))
    by (apply is_q_mul; [apply is_q_Fin | apply is_q_of_Z]).
  apply is_q_eq with (inject_Z (Qfloor (r * inject_Z n)) + inject_Z k)%Q;
    [| now rewrite inject_Z_plus].
  apply is_q_add; [| apply is_q_of_Z].
  destruct (Fin r * of_Z n)%num as [| | | q]; unfold is_q in Hm; try contradiction.
  unfold Num.floor, of_Z, is_q. now rewrite Hm.
Qed.

(** C8, as amended.  For a fixed profile, page of sessions and store
    answers, two computations of the statistics agree on every field other
    than [totalPredictions], and on [currentStreak] too when the [try]
    block completes, where it is the streak of the sessions;
    [totalPredictions] is drawn from [Math.random()] at each computation
    and is an integer between 20 and 69. *)
Theorem stats_fixed_apart_from_draws
    (configured : bool) (user : value) (page : SessionsPage) (env : StatsEnv)
    (r1 r2 r3 r1' r2' r3' : Q) :
  let a := getUserStats configured user page (with_draws env r1 r2 r3) in
  let b := getUserStats configured user page (with_draws env r1' r2' r3') in
  totalSessions a = totalSessions b /\
  avgRating a = avgRating b /\
  favoriteSpots a = favoriteSpots b /\
  totalBoards a = totalBoards b /\
  level a = level b /\
  experience a = experience b /\
  (forall s, stats_try configured user page env = Returns s ->
     currentStreak a = currentStreak b /\
     currentStreak a = of_Z (Z.of_nat (calculateStreak (sessions page)))) /\
  (unit_draw r1 -> unit_draw r2 ->
     Num.le (of_Z 20) (totalPredictions a) /\ Num.le (totalPredictions a) (of_Z 69) /\
     exists z : Z, is_q (totalPredictions a) (inject_Z z)).
Proof.
  cbv zeta. unfold getUserStats. rewrite !stats_try_with_draws.
  destruct (stats_try configured user page env) as [s |] eqn:E;
    cbn [totalSessions avgRating favoriteSpots totalBoards totalPredictions
         currentStreak level experience with_draws random_catch_predictions
         random_catch_streak].
  - do 6 (split; [reflexivity |]). split.
    + intros s' [= <-]. split; [reflexivity |]. revert E. unfold stats_try, obind.
      repeat match goal with
             | |- context [match ?o with Returns _ => _ | Throws _ => _ end] =>
                 destruct o; try discriminate
             end.
      now intros [= <-].
    + intros U1 _.
      destruct (random_int_range r1 50 20 U1 ltac:(lia)) as [Hlo Hhi].
      split; [exact Hlo |]. split; [exact Hhi |].
      eexists. apply random_int_integer.
  - do 6 (split; [reflexivity |]). split.
    + intros s' [=].
    + intros _ U2.
      destruct (random_int_range r2 50 20 U2 ltac:(lia)) as [Hlo Hhi].
      split; [exact Hlo |]. split; [exact Hhi |].
      eexists. apply random_int_integer.
Qed.

(** The amended claim at the test user, for the draws 0 and 1/2. *)
Lemma stats_fixed_apart_from_draws_witness :
  unit_draw 0 /\ unit_draw (1 # 2) /\
  currentStreak (getUserStats false jean_profile jean_page
                   (with_draws (stats_env 0) 0 0 0))
  = currentStreak (getUserStats false jean_profile jean_page
                     (with_draws (stats_env 0) (1 # 2) (1 # 2) (1 # 2))) /\
  Num.le (totalPredictions (getUserStats false jean_profile jean_page
                              (with_draws (stats_env 0) 0 0 0))) (of_Z 69) /\
  exists z : Z,
    is_q (totalPredictions (getUserStats false jean_profile jean_page
                              (with_draws (stats_env 0) 0 0 0))) (inject_Z z).
Proof.
  assert (U0 : unit_draw 0) by (split; [apply Qle_refl | reflexivity]).
  assert (U1 : unit_draw (1 # 2)) by (split; [discriminate | reflexivity]).
  split; [exact U0 |]. split; [exact U1 |].
  destruct (stats_fixed_apart_from_draws false jean_profile jean_page (stats_env 0)
              0 0 0 (1 # 2) (1 # 2) (1 # 2))
    as (_ & _ & _ & _ & _ & _ & Hstreak & Hrange).
  split.
  - eapply Hstreak. reflexivity.
  - destruct (Hrange U0 U0) as (_ & Hhi & Hint). split; [exact Hhi | exact Hint].
Defined.

(** C8 as stated fails: two computations of the statistics of the same
    profile and the same sessions, with the same store answers, return 20
    and 45 predictions for the draws 0 and 1/2 of [Math.random()]. *)
Lemma stats_vary_between_runs :
  totalPredictions (getUserStats false jean_profile jean_page (stats_env 0)) = Fin 20 /\
  totalPredictions (getUserStats false jean_profile jean_page (stats_env (1 # 2))) = Fin 45 /\
  getUserStats false jean_profile jean_page (stats_env 0)
  <> getUserStats false jean_profile jean_page (stats_env (1 # 2)).
Proof.
  repeat split. intros H. apply (f_equal totalPredictions) in H. vm_compute in H.
  discriminate.
Qed.

End StatsFacts.

(** ** Reads after writes *)

Section RepositoryFacts.
Import Service Repository.

Ltac run :=
  unfold try_catch, bind, gets, ret, throw, lift, call, cache_set, users_set, modify,
         clearCache;
  cbn [supabase profilesCache users calls fst snd].

(** The state [createUserProfile] leaves. *)
Lemma create_run (userData : UserData) (env : CreateEnv) (st : State) :
  let userId := userId_of userData (generated_id env) in
  let profile :=
    buildCompleteProfile userId (ud_fields userData) (createdAt_now env) (updatedAt_now env) in
  exists log,
    createUserProfile userData env st
    = (Returns profile,
       {| supabase := supabase st;
          profilesCache :=
            <[userId := {| data := profile; timestamp := cache_now env |}]> (profilesCache st);
          users := <[userId := profile]> (users st);
          calls := log |}).
Proof.
  intros userId profile. unfold createUserProfile. fold userId. fold profile.
  destruct st as [configured cache fallback log]. run.
  destruct configured.
  - unfold profile at 1. rewrite extractBasicProfileData_built. run.
    destruct (profile_upsert env) as [e | [error |]]; run;
      [| | destruct (extended_upsert env) as [e | error]; run];
      eexists; reflexivity.
  - eexists; reflexivity.
Qed.

(** The state [updateUserProfile] leaves: the tiers as the read left them
    when it throws, and the result written to both when it returns. *)
Lemma update_run (userId : string) (updates : value) (env : UpdateEnv) (st : State) :
  exists current st1,
    getUserProfile userId (read_env env) st = (Returns current, st1) /\
    ((exists e log,
        updateUserProfile userId updates env st
        = (Throws e,
           {| supabase := supabase st1; profilesCache := profilesCache st1;
              users := users st1; calls := log |}))
     \/
     (exists log,
        updateUserProfile userId updates env st
        = (Returns (updated_profile current updates (updatedAt_stamp env)),
           {| supabase := supabase st1;
              profilesCache :=
                <[userId := {| data := updated_profile current updates (updatedAt_stamp env);
                               timestamp := store_now env |}]> (profilesCache st1);
              users := <[userId := updated_profile current updates (updatedAt_stamp env)]>
                         (users st1);
              calls := log |}))).
Proof.
  destruct (read_returns userId (read_env env) st) as (current & st1 & Hread & Hsb).
  exists current, st1. split; [exact Hread |].
  unfold updateUserProfile, updated_profile. run. rewrite Hread.
  set (updated := set_member (deepMerge current updates) "updatedAt"
                             (VStr (updatedAt_stamp env))).
  destruct st1 as [configured cache fallback log]. cbn [supabase profilesCache users calls].
  destruct configured; [| right; eexists; reflexivity].
  destruct (extractBasicProfileData updated) as [[] | e]; run;
    [| left; eexists; eexists; reflexivity].
  destruct (both_upserts env) as [e | e1 e2];
    [left; eexists; eexists; reflexivity | right; eexists; reflexivity].
Qed.

(** A truthy profile held by both tiers under an id is what a read of that
    id returns, as long as the read sees the write. *)
Lemma read_stored (userId : string) (env : ReadEnv) (st : State) (profile : value) (written : Z) :
  profilesCache st !! userId = Some {| data := profile; timestamp := written |} ->
  users st !! userId = Some profile ->
  truthy profile = true ->
  sees_write (supabase st) written env ->
  fst (getUserProfile userId env st) = Returns profile.
Proof.
  intros Hc Hu Ht Hsee. unfold getUserProfile.
  destruct st as [configured cache fallback log]. run.
  cbn [supabase profilesCache users calls] in *. rewrite Hc. unfold cache_hit.
  cbn [timestamp data].
  destruct (check_now env - written <? cacheTimeout) eqn:Hfresh; run; [reflexivity |].
  apply Z.ltb_ge in Hfresh.
  destruct Hsee as [Hlt | [-> | Hmiss]]; [lia | |].
  - run. rewrite Hu, Ht. reflexivity.
  - destruct configured; run; [| rewrite Hu, Ht; reflexivity].
    destruct (selected env) as [e | [|] [[found | e] |]]; run; rewrite ?Hu;
      unfold js_or; rewrite ?Ht; try reflexivity.
    destruct Hmiss.
Qed.

Lemma truthy_updated_profile current updates stamp :
  truthy (updated_profile current updates stamp) = true.
Proof.
  unfold updated_profile. destruct (deepMerge_is_object current updates) as [o ->].
  reflexivity.
Qed.

(** X1.  A read that follows a create returns the created profile: from the
    cache while the entry is fresh, and from the fallback table afterwards
    when no store is configured or the store yields nothing (an outage
    included); only a record found in the store after the entry expired
    can replace it. *)
Theorem create_then_read
    (userData : UserData) (env : CreateEnv) (renv : ReadEnv) (st : State) :
  sees_write (supabase st) (cache_now env) renv ->
  fst (getUserProfile (userId_of userData (generated_id env)) renv
         (snd (createUserProfile userData env st)))
  = Returns (buildCompleteProfile (userId_of userData (generated_id env))
               (ud_fields userData) (createdAt_now env) (updatedAt_now env)).
Proof.
  intros Hsee. destruct (create_run userData env st) as [log ->]. cbn [snd].
  apply (read_stored _ _ _ _ (cache_now env)); cbn [profilesCache users supabase].
  - apply lookup_insert_eq.
  - apply lookup_insert_eq.
  - reflexivity.
  - exact Hsee.
Qed.

(** The theorem when the store fails ten minutes after the create. *)
Lemma create_then_read_witness :
  sees_write true (cache_now accepted_create) read_in_outage /\
  fst (getUserProfile "jean" read_in_outage
         (snd (createUserProfile create_jean accepted_create (fresh_state true))))
  = Returns (buildCompleteProfile "jean" (ud_fields create_jean)
               "2024-05-01T08:00:00.000Z" "2024-05-01T08:00:00.000Z").
Proof.
  assert (S : sees_write true (cache_now accepted_create) read_in_outage)
    by (right; right; exact I).
  split; [exact S |].
  exact (create_then_read create_jean accepted_create read_in_outage (fresh_state true) S).
Defined.

(** X2.  When an update returns, a read that follows it returns the same
    profile, stamped with the time of the update, under the same
    condition: the cache entry is fresh, or no store is configured, or the
    store yields nothing. *)
Theorem update_then_read
    (userId : string) (updates : value) (env : UpdateEnv) (renv : ReadEnv)
    (st st' : State) (profile : value) :
  updateUserProfile userId updates env st = (Returns profile, st') ->
  sees_write (supabase st) (store_now env) renv ->
  fst (getUserProfile userId renv st') = Returns profile /\
  own profile "updatedAt" = Some (VStr (updatedAt_stamp env)).
Proof.
  intros Hup Hsee.
  destruct (read_returns userId (read_env env) st) as (c0 & s0 & Hread0 & Hsb).
  destruct (update_run userId updates env st) as (current & st1 & Hread & [Hthrow | Hret]).
  - destruct Hthrow as (e & log & E). rewrite E in Hup. discriminate.
  - destruct Hret as (log & E). rewrite E in Hup. injection Hup as <- <-.
    rewrite Hread in Hread0. injection Hread0 as <- <-.
    split; [| apply updated_profile_stamped].
    apply (read_stored _ _ _ _ (store_now env)); cbn [profilesCache users supabase].
    + apply lookup_insert_eq.
    + apply lookup_insert_eq.
    + apply truthy_updated_profile.
    + rewrite Hsb. exact Hsee.
Qed.

(** The theorem at an accepted update of the name, read during an outage
    ten minutes later. *)
Lemma update_then_read_witness :
  exists profile st',
    updateUserProfile "jean" rename_jean accepted_update fallback_state
    = (Returns profile, st') /\
    sees_write (supabase fallback_state) (store_now accepted_update) read_in_outage /\
    fst (getUserProfile "jean" read_in_outage st') = Returns profile /\
    access_path profile ["personal"; "name"]%string = Some (VStr "Jean").
Proof.
  destruct (updateUserProfile "jean" rename_jean accepted_update fallback_state)
    as [[profile | e] st'] eqn:E; [| vm_compute in E; discriminate].
  assert (S : sees_write (supabase fallback_state) (store_now accepted_update) read_in_outage)
    by (right; right; exact I).
  exists profile, st'. split; [reflexivity |]. split; [exact S |].
  split; [exact (proj1 (update_then_read _ _ _ read_in_outage _ _ _ E S)) |].
  vm_compute in E. injection E as <- _. reflexivity.
Defined.

(** X3.  A read that found a record in the store serves the following
    reads of the same id from the cache for the next five minutes: they
    return that record, send nothing to the store and change nothing,
    whatever the store would now answer. *)
Theorem read_then_read
    (userId : string) (env renv : ReadEnv) (st st' : State) (found profile : value) :
  cache_hit (profilesCache st !! userId) (check_now env) = None ->
  supabase st = true ->
  selected env = SelectsResolve true (Some (Returns found)) ->
  getUserProfile userId env st = (Returns profile, st') ->
  check_now renv - refresh_now env < cacheTimeout ->
  profile = found /\
  getUserProfile userId renv st' = (Returns found, st').
Proof.
  intros Hmiss Hsb Hsel Hrun Hfresh.
  destruct (read_flow userId env st st' profile Hrun) as (_ & Hfound & _ & Hcache & _).
  assert (Hp : profile = found) by (apply Hfound; assumption).
  split; [exact Hp |].
  unfold read_cache in Hcache. rewrite Hmiss, Hsb, Hsel in Hcache.
  destruct (read_returns userId renv st') as (p2 & st2 & Hrun2 & _).
  destruct (read_flow userId renv st' st2 p2 Hrun2) as (Hhit & _).
  destruct (Hhit found) as [-> ->]; [| exact Hrun2].
  rewrite Hcache, lookup_insert_eq. unfold cache_hit. cbn [timestamp data].
  apply Z.ltb_lt in Hfresh. now rewrite Hfresh.
Qed.

(** The theorem at a new service whose store holds a record for ["jean"],
    read again two minutes later during an outage. *)
Lemma read_then_read_witness :
  getUserProfile "jean" read_soon_in_outage
    (snd (getUserProfile "jean" read_in_window (fresh_state true)))
  = (Returns (getDefaultProfile "jean" "2024-05-01T08:00:30.000Z"
                                       "2024-05-01T08:00:30.000Z"),
     snd (getUserProfile "jean" read_in_window (fresh_state true))).
Proof.
  assert (E : getUserProfile "jean" read_in_window (fresh_state true)
              = (Returns (getDefaultProfile "jean" "2024-05-01T08:00:30.000Z"
                                                   "2024-05-01T08:00:30.000Z"),
                 snd (getUserProfile "jean" read_in_window (fresh_state true))))
    by (vm_compute; reflexivity).
  exact (proj2 (read_then_read "jean" read_in_window read_soon_in_outage
                  (fresh_state true) _ _ _ eq_refl eq_refl eq_refl E eq_refl)).
Defined.

(** X4.  Operations on one id leave the other ids alone: after a read, a
    create or an update for an id, the cache entry and the fallback entry of
    every other id are what they were, whatever the store answers and
    whether the operation returns or throws. *)
Theorem other_ids_untouched (userId other : string) (st : State) :
  other <> userId ->
  (forall env,
      profilesCache (snd (getUserProfile userId env st)) !! other = profilesCache st !! other /\
      users (snd (getUserProfile userId env st)) !! other = users st !! other) /\
  (forall userData env,
      userId_of userData (generated_id env) = userId ->
      profilesCache (snd (createUserProfile userData env st)) !! other
        = profilesCache st !! other /\
      users (snd (createUserProfile userData env st)) !! other = users st !! other) /\
  (forall updates env,
      profilesCache (snd (updateUserProfile userId updates env st)) !! other
        = profilesCache st !! other /\
      users (snd (updateUserProfile userId updates env st)) !! other = users st !! other).
Proof.
  intros Hne.
  assert (Hread : forall env st0 p st1,
            getUserProfile userId env st0 = (Returns p, st1) ->
            profilesCache st1 !! other = profilesCache st0 !! other /\
            users st1 !! other = users st0 !! other).
  { intros env st0 p st1 Hrun.
    destruct (read_flow userId env st0 st1 p Hrun) as (_ & _ & _ & Hc & Hu & _).
    rewrite Hc, Hu. split; [| reflexivity]. unfold read_cache.
    destruct (cache_hit _ _); [reflexivity |].
    destruct (supabase st0); [| reflexivity].
    destruct (selected env) as [e | [|] [[found | e] |]]; try reflexivity.
    apply lookup_insert_ne. congruence. }
  split; [| split].
  - intros env. destruct (read_returns userId env st) as (p & st1 & Hrun & _).
    rewrite Hrun. cbn [snd]. now apply (Hread env st p st1).
  - intros userData env Hid. destruct (create_run userData env st) as [log ->].
    cbn [snd profilesCache users]. rewrite Hid.
    split; apply lookup_insert_ne; congruence.
  - intros updates env.
    destruct (update_run userId updates env st) as (current & st1 & Hrun & [Hthrow | Hret]).
    + destruct Hthrow as (e & log & ->). cbn [snd profilesCache users].
      now apply (Hread (read_env env) st current st1).
    + destruct Hret as (log & ->). cbn [snd profilesCache users].
      destruct (Hread (read_env env) st current st1 Hrun) as [Hc Hu].
      rewrite <- Hc, <- Hu. split; apply lookup_insert_ne; congruence.
Qed.

(** The theorem for an update of another id on a state that holds
    ["jean"]. *)
Lemma other_ids_untouched_witness :
  "jean"%string <> "marie"%string /\
  users (snd (updateUserProfile "marie" rename_jean accepted_update fallback_state))
    !! "jean"%string
  = users fallback_state !! "jean"%string.
Proof.
  assert (N : "jean"%string <> "marie"%string) by discriminate.
  split; [exact N |].
  destruct (other_ids_untouched "marie" "jean" fallback_state N) as (_ & _ & Hupdate).
  exact (proj2 (Hupdate rename_jean accepted_update)).
Defined.

(** X5.  [clearCache] empties the cache and nothing else: the fallback
    table is kept, so with no store, or a store that yields nothing, the
    next read of an id still returns the profile the fallback table holds
    for it. *)
Theorem clearCache_keeps_fallback
    (userId : string) (env : ReadEnv) (st : State) (profile : value) :
  users st !! userId = Some profile ->
  truthy profile = true ->
  supabase st = false \/ finds_nothing (selected env) ->
  profilesCache (snd (clearCache st)) = ∅ /\
  users (snd (clearCache st)) = users st /\
  fst (getUserProfile userId env (snd (clearCache st))) = Returns profile.
Proof.
  intros Hu Ht Hmiss. unfold clearCache, modify. cbn [snd profilesCache users].
  split; [reflexivity |]. split; [reflexivity |].
  unfold getUserProfile. destruct st as [configured cache fallback log]. run.
  cbn [supabase profilesCache users calls] in *. rewrite lookup_empty. cbn [cache_hit].
  destruct configured; run.
  - destruct Hmiss as [[=] | Hmiss].
    destruct (selected env) as [e | [|] [[found | e] |]]; run; rewrite ?Hu;
      unfold js_or; rewrite ?Ht; try reflexivity.
    destruct Hmiss.
  - rewrite Hu, Ht. reflexivity.
Qed.

(** The theorem after a create, with a store that fails at the read. *)
Lemma clearCache_keeps_fallback_witness :
  fst (getUserProfile "jean" read_in_outage
         (snd (clearCache (snd (createUserProfile create_jean accepted_create
                                  (fresh_state true))))))
  = Returns (buildCompleteProfile "jean" (ud_fields create_jean)
               "2024-05-01T08:00:00.000Z" "2024-05-01T08:00:00.000Z").
Proof.
  apply (clearCache_keeps_fallback "jean" read_in_outage
           (snd (createUserProfile create_jean accepted_create (fresh_state true)))).
  - reflexivity.
  - reflexivity.
  - right. exact I.
Defined.






Lemma truthy_js_or_r a b : truthy b = true -> truthy (js_or a b) = true.
Proof. intros H. unfold js_or. destruct (truthy a) eqn:E; assumption. Qed.

(** X7.  Whatever [userData] holds, the profile [buildCompleteProfile]
    builds has a truthy level, wave size minimum, maximum and optimum,
    onshore wind tolerance and crowd tolerance: a value that is missing,
    [null], 0, [NaN] or empty is replaced by the default. *)
Theorem built_profile_scoring_fields_truthy
    (userId : string) (userData : props) (createdAt updatedAt : string) (path : list string) :
  In path scoring_fields ->
  exists v,
    access_path (buildCompleteProfile userId userData createdAt updatedAt) path = Some v /\
    truthy v = true.
Proof.
  unfold scoring_fields. simpl.
  intros [<- | [<- | [<- | [<- | [<- | [<- | []]]]]]];
    eexists; (split; [reflexivity |]); apply truthy_js_or_r; reflexivity.
Qed.

(** The theorem at a [userData] whose minimum wave size is 0. *)
Lemma built_profile_scoring_fields_truthy_witness :
  In ["preferences"; "waveSize"; "min"]%string scoring_fields /\
  exists v,
    access_path
      (buildCompleteProfile "jean" [("minWaveSize"%string, int_lit 0)]
         "2024-05-01T08:00:00.000Z" "2024-05-01T08:00:00.000Z")
      ["preferences"; "waveSize"; "min"]%string = Some v /\
    truthy v = true.
Proof.
  assert (H : In ["preferences"; "waveSize"; "min"]%string scoring_fields)
    by (simpl; tauto).
  split; [exact H |].
  exact (built_profile_scoring_fields_truthy "jean" [("minWaveSize"%string, int_lit 0)]
           "2024-05-01T08:00:00.000Z" "2024-05-01T08:00:00.000Z" _ H).
Defined.

End RepositoryFacts.

(** ** The score as a product of factors *)

Section ScoreFormulaFacts.
Import Prototype Scoring ScoreFormula.
Local Open Scope Q_scope.

Lemma is_q_max_exact a b x y :
  is_q a x -> is_q b y -> is_q (Num.max a b) (Qmax2 x y).
Proof.
  intros Ha Hb. pose proof (leb_is_q _ _ _ _ Ha Hb) as E.
  destruct a as [| | |p], b as [| | |q]; unfold is_q in Ha, Hb; try contradiction.
  unfold Num.max, Qmax2. rewrite E. destruct (Qle_bool x y); assumption.
Qed.

Lemma is_q_min_exact a b x y :
  is_q a x -> is_q b y -> is_q (Num.min a b) (Qmin2 x y).
Proof.
  intros Ha Hb. pose proof (leb_is_q _ _ _ _ Ha Hb) as E.
  destruct a as [| | |p], b as [| | |q]; unfold is_q in Ha, Hb; try contradiction.
  unfold Num.min, Qmin2. rewrite E. destruct (Qle_bool x y); assumption.
Qed.





Lemma own_crowd_given c cr :
  own_crowd c -> crowdGiven (crowd c) = Some cr -> inherited cr = false.
Proof.
  unfold own_crowd, crowdGiven. destruct (crowd c) as [s |]; [| discriminate].
  intros H. destruct (String.eqb s ""); [discriminate |]. now intros [= <-].
Qed.

Lemma crowdFactor_table t c :
  known_tolerance t -> inherited c = false ->
  exists f, crowdFactor t c = Some f /\ is_q f (crowd_table t c).
Proof.
  intros Ht Hc. unfold crowdFactor, crowd_table.
  destruct Ht as [-> | [-> | ->]];
    cbn [crowdRow String.eqb Ascii.eqb Bool.eqb];
    (destruct (String.eqb c "low");
     [| destruct (String.eqb c "medium"); [| destruct (String.eqb c "high")]]);
    rewrite ?Hc; eexists; (split; [reflexivity |]); reflexivity.
Qed.



(** What the code does after the wave block, on inputs in the ranges of
    the data model, in exact arithmetic. *)
Lemma afterWave_formula (u : User) (c : Conditions) :
  admissible u c -> own_crowd c ->
  forall score s, is_q score s ->
    exists r, afterWave u c score = Some r /\ is_q r (round10 (s * other_factors u c)).
Proof.
  intros A Oc score s Hs.
  destruct (adm_wind _ _ A) as [Fw Hw0]. destruct (adm_tol _ _ A) as [Ft Ht0].
  destruct (adm_level _ _ A) as [Fo _]. destruct (adm_sessions _ _ A) as [Fs _].
  apply finite_is_q in Fw, Ft, Fo, Fs.
  assert (Wd : is_q (windFactor u c)
                 (wind_factor (toQ (windSpeed c)) (toQ (windTolerance_onshore u)))).
  { unfold windFactor, wind_factor.
    apply is_q_max_exact; [apply (is_q_eq _ _ _ (is_q_dec 2 10)); reflexivity |].
    change 1 with (inject_Z 1).
    apply is_q_sub; [apply is_q_of_Z |]. apply is_q_div; try eassumption. lra. }
  assert (Lv : forall score s, is_q score s ->
                 is_q (levelStep u score)
                   (s * level_factor (toQ (surfLevel_overall u)) (toQ (sessionsCount u)))).
  { intros score' s' Hs'. unfold levelStep, level_factor.
    apply is_q_mul; [exact Hs' |].
    repeat apply is_q_add; try apply is_q_mul; try apply is_q_dec;
      apply (is_q_min_exact _ _ 1); try apply is_q_of_Z;
      (apply is_q_div; [eassumption | apply is_q_of_Z | discriminate]). }
  unfold afterWave, other_factors, crowd_factor.
  destruct (crowdGiven (crowd c)) as [cr |] eqn:Ec.
  - destruct (crowdFactor_table (crowdTolerance u) cr (adm_crowd _ _ A)
                (own_crowd_given c cr Oc Ec)) as (f & -> & Hf).
    eexists. split; [reflexivity |].
    eapply is_q_eq.
    + apply is_q_round10. apply is_q_mul; [| exact Hf].
      apply Lv. apply is_q_mul; [exact Hs | exact Wd].
    + apply round10_comp. ring.
  - eexists. split; [reflexivity |].
    eapply is_q_eq.
    + apply is_q_round10. apply Lv. apply is_q_mul; [exact Hs | exact Wd].
    + apply round10_comp. ring.
Qed.

(** The wave block at a finite height, in exact arithmetic. *)
Lemma waveStep_formula (u : User) (c : Conditions) :
  admissible u c -> finite (waveHeight c) ->
  is_q (waveStep u c (of_Z 5))
       (5 * wave_factor (toQ (waveSize_min u)) (toQ (waveSize_max u))
              (toQ (waveSize_optimal u)) (toQ (waveHeight c))).
Proof.
  intros A Fh.
  pose proof (finite_is_q _ (adm_min _ _ A)) as Hmn.
  pose proof (finite_is_q _ (adm_max _ _ A)) as Hmx.
  pose proof (finite_is_q _ (adm_opt _ _ A)) as Hopt.
  pose proof (finite_is_q _ Fh) as Hh.
  pose proof (adm_range _ _ A) as HR.
  unfold waveStep, wave_factor, Num.geb.
  rewrite (leb_is_q _ _ _ _ Hmn Hh), (leb_is_q _ _ _ _ Hh Hmx).
  destruct (Qle_bool (toQ (waveSize_min u)) (toQ (waveHeight c))
            && Qle_bool (toQ (waveHeight c)) (toQ (waveSize_max u))).
  - apply is_q_mul; [apply is_q_of_Z |].
    eapply is_q_eq.
    + apply is_q_add; [apply is_q_dec |]. apply is_q_mul; [apply is_q_dec |].
      apply is_q_sub; [apply is_q_of_Z |].
      apply is_q_div; [apply is_q_abs, is_q_sub; eassumption | apply is_q_sub; eassumption |].
      lra.
    + change (inject_Z 1) with 1.
      set (d := Qabs _ / _). lra.
  - apply is_q_mul; [apply is_q_of_Z | apply is_q_dec].
Qed.

(** On inputs in the ranges of the data model, the model of the code
    computes the rounded product. *)
Lemma score_formula_aux (u : User) (c : Conditions) :
  admissible u c -> own_crowd c -> finite (waveHeight c) ->
  exists r, calculateAdvancedSpotScore u c = Some r /\ is_q r (score_formula u c).
Proof.
  intros A Oc Fh. rewrite score_split.
  destruct (afterWave_formula u c A Oc _ _ (waveStep_formula u c A Fh)) as (r & Hr & Hq).
  exists r. split; [exact Hr |].
  eapply is_q_eq; [exact Hq |]. apply round10_comp.
  unfold product, other_factors. ring.
Qed.

(** A rounding to one decimal moves a number by at most 0.05. *)
Lemma round10_close x : Qabs (round10 x - x) <= 1 # 20.
Proof.
  unfold round10.
  pose proof (Qfloor_le (x * 10 + (1 # 2))) as L.
  pose proof (Qlt_floor (x * 10 + (1 # 2))) as U.
  rewrite inject_Z_plus in U. change (inject_Z 1) with 1 in U.
  set (a := inject_Z (Qfloor (x * 10 + (1 # 2)))) in *. clearbody a.
  assert (E : a / 10 == a * (1 # 10)) by reflexivity.
  apply Qabs_Qle_condition. rewrite E. split; lra.
Qed.



Lemma admissible_jean : admissible jean grande_plage.
Proof.
  constructor; try reflexivity; try (split; [reflexivity | vm_compute; congruence]).
  right; left; reflexivity.
Qed.

(** X8.  The score is the product of its factors up to the rounding: on
    inputs in the ranges of the data model, with a lower bound of the wave
    range that is not negative, the optimum inside the range, a finite
    wave height and a crowd level that names no inherited member,
    [calculateAdvancedSpotScore] returns a number within 0.1 of the base
    score 5.0 times the wave-fit, wind, level/experience and crowd
    factors.  The rounding to one decimal accounts for 0.05; the rest is
    room for the binary rounding of the operations. *)
Theorem score_close_to_product (u : User) (c : Conditions) :
  admissible u c -> own_crowd c -> finite (waveHeight c) ->
  0 <= toQ (waveSize_min u) ->
  toQ (waveSize_min u) <= toQ (waveSize_optimal u) <= toQ (waveSize_max u) ->
  exists r q,
    calculateAdvancedSpotScore u c = Some r /\ is_q r q /\
    Qabs (q - product u c) <= 1 # 10.
Proof.
  intros A Oc Fh _ _.
  destruct (score_formula_aux u c A Oc Fh) as (r & Hr & Hq).
  exists r, (score_formula u c). split; [exact Hr |]. split; [exact Hq |].
  unfold score_formula. pose proof (round10_close (product u c)) as H.
  eapply Qle_trans; [exact H | discriminate].
Qed.

(** The theorem at the test profile and the conditions of Biarritz: the
    score is between 0.9 and 1.2. *)
Lemma score_close_to_product_witness :
  exists r,
    calculateAdvancedSpotScore jean grande_plage = Some r /\
    Num.le (dec 9 10) r /\ Num.le r (dec 12 10).
Proof.
  destruct (score_close_to_product jean grande_plage admissible_jean eq_refl eq_refl)
    as (r & q & Hr & Hq & Hclose); [discriminate | split; discriminate |].
  exists r. split; [exact Hr |].
  apply Qabs_Qle_condition in Hclose. destruct Hclose as [C1 C2].
  assert (P1 : 109 # 100 <= product jean grande_plage) by (vm_compute; discriminate).
  assert (P2 : product jean grande_plage <= 11 # 10) by (vm_compute; discriminate).
  set (P := product jean grande_plage) in *. clearbody P.
  split.
  - apply (le_is_q _ _ _ _ (is_q_dec 9 10) Hq). lra.
  - apply (le_is_q _ _ _ _ Hq (is_q_dec 12 10)). lra.
Defined.



























Lemma crowdRow_unknown t : ~ known_tolerance t -> crowdRow t = None.
Proof.
  intros H. unfold crowdRow.
  destruct (String.eqb_spec t "low") as [-> | _]; [exfalso; apply H; left; reflexivity |].
  destruct (String.eqb_spec t "medium") as [-> | _];
    [exfalso; apply H; right; left; reflexivity |].
  destruct (String.eqb_spec t "high") as [-> | _];
    [exfalso; apply H; right; right; reflexivity |].
  reflexivity.
Qed.

(** X14.  A crowd tolerance outside low, medium and high that names no
    inherited member makes [calculateAdvancedSpotScore] throw as soon as a
    crowd level is given, whatever the other inputs; without a crowd level
    the tolerance is not looked at and the function returns. *)
Theorem unknown_tolerance_throws (u : User) (c : Conditions) :
  ~ known_tolerance (crowdTolerance u) ->
  Prototype.inherited (crowdTolerance u) = false ->
  (forall cr, cr <> ""%string ->
     calculateAdvancedSpotScore u (with_crowd c (Some cr)) = None) /\
  calculateAdvancedSpotScore u (with_crowd c None) <> None /\
  calculateAdvancedSpotScore u (with_crowd c (Some ""%string))
  = calculateAdvancedSpotScore u (with_crowd c None).
Proof.
  intros Hu _. split; [| split].
  - intros cr Hcr. unfold calculateAdvancedSpotScore, crowdFactor.
    cbn [with_crowd crowd crowdGiven].
    destruct (String.eqb_spec cr "") as [-> | _]; [contradiction |].
    now rewrite (crowdRow_unknown _ Hu).
  - unfold calculateAdvancedSpotScore. cbn [with_crowd crowd crowdGiven]. discriminate.
  - reflexivity.
Qed.

(** The theorem for a surfer whose tolerance is ["none"]. *)
Lemma unknown_tolerance_throws_witness :
  ~ known_tolerance (crowdTolerance (with_tolerance jean "none")) /\
  Prototype.inherited (crowdTolerance (with_tolerance jean "none")) = false /\
  calculateAdvancedSpotScore (with_tolerance jean "none")
    (with_crowd grande_plage (Some "low"%string)) = None.
Proof.
  assert (N : ~ known_tolerance (crowdTolerance (with_tolerance jean "none")))
    by (intros [H | [H | H]]; discriminate).
  split; [exact N |]. split; [reflexivity |].
  apply (proj1 (unknown_tolerance_throws (with_tolerance jean "none") grande_plage N eq_refl)).
  discriminate.
Defined.


(** ** The wave-fit claim *)







(** With a crowd level that names an inherited member the score is not a
    number at any wave height, so none of the comparisons of C6 holds. *)
Lemma score_not_a_number_on_inherited_crowd :
  admissible expert calm_constructor /\
  calculateAdvancedSpotScore expert calm_constructor = Some NaN /\
  calculateAdvancedSpotScore expert (with_wave calm_constructor (of_Z 5)) = Some NaN.
Proof.
  split; [| split; reflexivity].
  constructor; try reflexivity; try (split; [reflexivity | vm_compute; congruence]).
  right; left; reflexivity.
Qed.

(** Outside the ranges of the data model the other two parts of C6 fail as
    well: an optimum outside [min, max] scores less than the upper end of
    the range, and a negative wind speed lifts the score of a wave outside
    the range above 1.5. *)
Lemma score_needs_model_ranges :
  calculateAdvancedSpotScore expert_off_range (with_wave calm (dec 35 10)) = Some (dec 15 10) /\
  calculateAdvancedSpotScore expert_off_range (with_wave calm (Fin 3)) = Some (dec 44 10) /\
  in_range expert (waveHeight tailwind) = false /\
  calculateAdvancedSpotScore expert tailwind = Some (Fin 3).
Proof. repeat split. Qed.

End ScoreFormulaFacts.

(** ** Average rating and streak on any list of sessions *)

Section StatsMoreFacts.
Import Scoring Service Stats StatsMore.
Local Open Scope Q_scope.

Lemma rating_term_value r q :
  rating_value r = Some q -> exists n, rating_term r = TermNumber n /\ is_q n q.
Proof.
  destruct r as [| n | o].
  - intros [= <-]. eexists. split; reflexivity.
  - destruct n as [| | | p]; simpl; try discriminate.
    + intros [= <-]. eexists. split; reflexivity.
    + intros [= <-]. destruct (Qzero p) eqn:Z0; cbn [negb].
      * eexists. split; [reflexivity |]. apply Qzero_spec in Z0.
        unfold is_q, of_Z. now rewrite Z0.
      * eexists. split; reflexivity.
  - destruct o as [[| | | p] |]; simpl; try discriminate.
    destruct (Qzero p); [discriminate |]. intros [= <-]. cbn [negb].
    eexists. split; reflexivity.
Qed.

Lemma fold_ratings sessions qs a x :
  map (fun s => rating_value (rating s)) sessions = map Some qs ->
  is_q a x ->
  exists b,
    fold_left (fun sum session => acc_add sum (rating_term (rating session)))
              sessions (Sum a) = Sum b /\
    is_q b (x + Qsum qs).
Proof.
  revert qs a x. induction sessions as [| s rest IH]; intros qs a x Hm Ha.
  - destruct qs; [| discriminate]. exists a. split; [reflexivity |].
    eapply is_q_eq; [exact Ha |]. unfold Qsum. simpl. ring.
  - destruct qs as [| q qs]; [discriminate |]. simpl in Hm. injection Hm as Hq Hm.
    destruct (rating_term_value _ _ Hq) as (n & Hn & Hnq).
    simpl. rewrite Hn. cbn [acc_add].
    destruct (IH qs (a + n)%num (x + q) Hm (is_q_add _ _ _ _ Ha Hnq)) as (b & Hb & Hbq).
    exists b. split; [exact Hb |].
    eapply is_q_eq; [exact Hbq |]. unfold Qsum. simpl. ring.
Qed.

Lemma Qsum_bounds qs lo hi :
  Forall (fun q => lo <= q <= hi) qs ->
  inject_Z (Z.of_nat (length qs)) * lo <= Qsum qs /\
  Qsum qs <= inject_Z (Z.of_nat (length qs)) * hi.
Proof.
  induction 1 as [| q qs [H1 H2] _ [IH1 IH2]].
  - unfold Qsum. cbn [length fold_right]. change (inject_Z (Z.of_nat 0)) with 0.
    split; lra.
  - change (length (q :: qs)) with (S (length qs)).
    rewrite Nat2Z.inj_succ. unfold Z.succ. rewrite inject_Z_plus.
    change (inject_Z 1) with 1. unfold Qsum in *. cbn [fold_right].
    set (N := inject_Z (Z.of_nat (length qs))) in *.
    set (S := fold_right Qplus 0 qs) in *.
    split; nra.
Qed.

Lemma mean_bounds qs lo hi :
  qs <> [] -> Forall (fun q => lo <= q <= hi) qs -> lo <= mean qs <= hi.
Proof.
  intros Hne Hall. destruct (Qsum_bounds qs lo hi Hall) as [L H].
  assert (Hn : 0 < inject_Z (Z.of_nat (length qs))).
  { change 0 with (inject_Z 0). rewrite <- Zlt_Qlt. destruct qs; [contradiction |].
    simpl. lia. }
  unfold mean. split.
  - apply Qle_shift_div_l; [exact Hn |]. lra.
  - apply Qle_shift_div_r; [exact Hn |]. lra.
Qed.

(** The model of the code computes the mean rounded to one decimal, in
    exact arithmetic. *)
Lemma average_rating_exact (sessions : list Session) (qs : list Q) :
  map (fun s => rating_value (rating s)) sessions = map Some qs ->
  sessions <> [] ->
  is_q (calculateAverageRating sessions) (round10 (mean qs)).
Proof.
  intros Hm Hne.
  assert (Hlen : length sessions = length qs).
  { apply (f_equal (@length _)) in Hm. now rewrite !length_map in Hm. }
  unfold calculateAverageRating.
  destruct sessions as [| s rest]; [contradiction |].
  change (length (s :: rest) =? 0)%nat with false. cbv iota.
  destruct (fold_ratings (s :: rest) qs (of_Z 0) 0 Hm (is_q_of_Z 0)) as (b & -> & Hb).
  cbn [acc_div]. apply is_q_round10. unfold mean.
  apply is_q_div.
  - eapply is_q_eq; [exact Hb | ring].
  - rewrite Hlen. apply is_q_of_Z.
  - intros E. destruct qs; [discriminate |].
    simpl in E. revert E. unfold Qeq. simpl. lia.
Qed.

(** X15.  The average stays within the range of the ratings, up to the
    rounding: when every session has a rating that counts as a number (a
    numeric rating, a rating object with an [overall] other than 0, or no
    rating or a [NaN] rating, which count as 0), the ratings lie between
    [lo] and [hi] on the scale from 0 to 10, and the array has fewer than
    2^32 elements, [calculateAverageRating] returns a number between
    [lo - 0.1] and [hi + 0.1]; it returns 0 for no session.  The rounding
    to one decimal accounts for 0.05; the rest is room for the binary
    rounding of the sum. *)
Theorem average_rating_within_range
    (sessions : list Session) (qs : list Q) (lo hi : Q) :
  map (fun s => rating_value (rating s)) sessions = map Some qs ->
  Forall (fun q => lo <= q <= hi) qs ->
  0 <= lo -> hi <= 10 ->
  (Z.of_nat (length sessions) < 2 ^ 32)%Z ->
  (sessions = [] -> calculateAverageRating sessions = of_Z 0) /\
  (sessions <> [] ->
     exists q, is_q (calculateAverageRating sessions) q /\
               lo - (1 # 10) <= q <= hi + (1 # 10)).
Proof.
  intros Hm Hall _ _ _. split; [now intros -> |]. intros Hne.
  assert (Hq : qs <> [])
    by (destruct qs; [destruct sessions; [contradiction | discriminate] | discriminate]).
  exists (round10 (mean qs)). split; [now apply average_rating_exact |].
  destruct (mean_bounds qs lo hi Hq Hall) as [L H].
  pose proof (round10_close (mean qs)) as C.
  apply Qabs_Qle_condition in C. destruct C as [C1 C2].
  set (m := mean qs) in *. set (r := round10 m) in *. clearbody r m.
  split; lra.
Qed.

(** The theorem at three sessions rated 8, 6 and 7: the average lies
    between 5.9 and 8.1. *)
Lemma average_rating_within_range_witness :
  exists q, is_q (calculateAverageRating [rated 8; rated 6; rated 7]) q /\
            (59 # 10) <= q <= (81 # 10).
Proof.
  destruct (average_rating_within_range [rated 8; rated 6; rated 7] [8; 6; 7] 6 8 eq_refl)
    as [_ H].
  - repeat constructor; discriminate.
  - discriminate.
  - discriminate.
  - reflexivity.
  - destruct H as (q & Hq & Hb); [discriminate |].
    exists q. split; [exact Hq |]. destruct Hb. split; lra.
Defined.

Lemma fold_text sessions :
  fold_left (fun sum session => acc_add sum (rating_term (rating session))) sessions Text
  = Text.
Proof. induction sessions as [| s rest IH]; [reflexivity | exact IH]. Qed.

Lemma broken_rating_term r : broken_rating r -> rating_term r = TermObject.
Proof.
  destruct r as [| n | [overall |]]; simpl; try contradiction; [| reflexivity].
  now intros ->.
Qed.

(** X16.  One session whose rating is an object with a missing or falsy
    [overall] (0 included) makes [calculateAverageRating] return [NaN],
    whatever the other sessions are. *)
Theorem average_rating_poisoned (sessions : list Session) (s : Session) :
  In s sessions -> broken_rating (rating s) ->
  calculateAverageRating sessions = NaN.
Proof.
  intros Hin Hb. unfold calculateAverageRating.
  destruct sessions as [| s0 rest]; [destruct Hin |].
  change (length (s0 :: rest) =? 0)%nat with false. cbv iota.
  assert (Hfold : forall l a, In s l ->
            fold_left (fun sum session => acc_add sum (rating_term (rating session))) l a
            = Text).
  { induction l as [| x l IH]; intros a Hl; [destruct Hl |].
    simpl. destruct Hl as [-> | Hl].
    - rewrite (broken_rating_term _ Hb).
      replace (acc_add a TermObject) with Text by (destruct a; reflexivity).
      apply fold_text.
    - now apply IH. }
  rewrite (Hfold (s0 :: rest) _ Hin). reflexivity.
Qed.

(** The theorem at two good ratings around one object rated 0. *)
Lemma average_rating_poisoned_witness :
  calculateAverageRating [rated 8; rated 0; rated 7] = NaN.
Proof.
  apply (average_rating_poisoned [rated 8; rated 0; rated 7] (rated 0)).
  - simpl. tauto.
  - reflexivity.
Defined.

Lemma diffDays_invalid prev curr :
  date prev = None \/ date curr = None -> (diffDays prev curr <=? of_Z 7)%num = false.
Proof.
  unfold diffDays, time. intros [-> | ->].
  - destruct (date curr); reflexivity.
  - destruct (date prev); reflexivity.
Qed.

Lemma streak_loop_stops_at_invalid prev pre bad post k :
  date bad = None ->
  streak_loop prev (pre ++ bad :: post) k = streak_loop prev pre k.
Proof.
  intros Hbad. revert prev k. induction pre as [| curr pre IH]; intros prev k.
  - simpl. now rewrite diffDays_invalid by (right; exact Hbad).
  - simpl. destruct (diffDays prev curr <=? of_Z 7)%num; [apply IH | reflexivity].
Qed.

(** X17.  A session whose date is invalid ends the streak: the sessions
    after it never count, the streak is that of the sessions before it, and
    it is 1 when the invalid date comes first. *)
Theorem streak_stops_at_invalid_date (pre post : list Session) (bad : Session) :
  date bad = None ->
  (pre <> [] -> calculateStreak (pre ++ bad :: post) = calculateStreak pre) /\
  calculateStreak (bad :: post) = 1%nat.
Proof.
  intros Hbad. split.
  - destruct pre as [| first pre]; [contradiction |]. intros _.
    cbn [calculateStreak app]. now apply streak_loop_stops_at_invalid.
  - cbn [calculateStreak]. destruct post as [| curr post]; [reflexivity |].
    simpl. now rewrite diffDays_invalid by (left; exact Hbad).
Qed.

(** The theorem at two sessions a day apart followed by an undated one. *)
Lemma streak_stops_at_invalid_date_witness :
  calculateStreak ([session_at 172800000; session_at 86400000] ++ undated :: [session_at 0])
  = 2%nat.
Proof.
  destruct (streak_stops_at_invalid_date [session_at 172800000; session_at 86400000]
              [session_at 0] undated eq_refl) as [H _].
  rewrite H by discriminate. reflexivity.
Defined.

Lemma streak_loop_bounds prev rest k :
  (k <= streak_loop prev rest k <= k + length rest)%nat.
Proof.
  revert prev k. induction rest as [| curr rest IH]; intros prev k; simpl; [lia |].
  destruct (diffDays prev curr <=? of_Z 7)%num; [specialize (IH curr (S k)) |]; lia.
Qed.

Lemma streak_loop_app prev rest more k :
  (streak_loop prev rest k <= streak_loop prev (rest ++ more) k)%nat /\
  ((streak_loop prev rest k < k + length rest)%nat ->
   streak_loop prev (rest ++ more) k = streak_loop prev rest k).
Proof.
  revert prev k. induction rest as [| curr rest IH]; intros prev k; simpl.
  - split; [apply streak_loop_bounds | lia].
  - destruct (diffDays prev curr <=? of_Z 7)%num.
    + destruct (IH curr (S k)) as [H1 H2]. split; [exact H1 |].
      intros H. apply H2. lia.
    + split; [lia | reflexivity].
Qed.

(** X18.  On any list of sessions, sorted or not and with valid dates or
    not, the streak is at most the number of sessions, is at least 1 when
    there is one, never gets shorter when older sessions are appended, and
    no longer changes once it is shorter than the list. *)
Theorem streak_of_longer_history (sessions more : list Session) :
  (calculateStreak sessions <= length sessions)%nat /\
  (sessions <> [] -> (1 <= calculateStreak sessions)%nat) /\
  (sessions <> [] ->
     (calculateStreak sessions <= calculateStreak (sessions ++ more))%nat) /\
  ((calculateStreak sessions < length sessions)%nat ->
     calculateStreak (sessions ++ more) = calculateStreak sessions).
Proof.
  destruct sessions as [| first rest].
  - cbn [calculateStreak length]. split; [lia |]. split; [intros H; now destruct H |].
    split; [intros H; now destruct H | lia].
  - cbn [calculateStreak app length].
    pose proof (streak_loop_bounds first rest 1) as B.
    destruct (streak_loop_app first rest more 1) as [H1 H2].
    split; [lia |]. split; [lia |]. split; [intros _; exact H1 |].
    intros H. apply H2. lia.
Qed.

(** The theorem at a streak broken after two sessions. *)
Lemma streak_of_longer_history_witness :
  calculateStreak ([session_at 1000000000; session_at 999000000; session_at 0]
                   ++ [session_at 0; session_at 0])
  = 2%nat.
Proof.
  destruct (streak_of_longer_history
              [session_at 1000000000; session_at 999000000; session_at 0]
              [session_at 0; session_at 0]) as (_ & _ & _ & H).
  rewrite H; [reflexivity |]. vm_compute. lia.
Defined.

End StatsMoreFacts.

(** ** Levels and categories *)

Section LevelFacts.
Import Service Prototype Adapted.

Lemma leb_trans (a b c : num) :
  Num.leb a b = true -> Num.leb b c = true -> Num.leb a c = true.
Proof.
  destruct a as [| | | x], b as [| | | y], c as [| | | z];
    cbn [Num.leb]; try discriminate; try reflexivity.
  intros H1 H2. apply Qle_bool_iff in H1, H2. apply Qle_bool_iff.
  eapply Qle_trans; eassumption.
Qed.

(** X19.  Storing a numeric level and reading it back keeps its category
    but not the number: [convertLevelToYourFormat] sends every number,
    [NaN] and the infinities included, to the category that
    [convertLevelToCategory] of the first variant gives it, and
    [convertLevelFromYourFormat] sends that category to one of 2, 4, 7 and
    9, a level of the same category. *)
Theorem level_round_trip_keeps_category (n : num) :
  exists k : Z,
    In k [2; 4; 7; 9] /\
    convertLevelFromYourFormat (convertLevelToYourFormat (VNum n)) = Some (int_lit k) /\
    convertLevelToYourFormat (int_lit k) = convertLevelToYourFormat (VNum n) /\
    convertLevelToYourFormat (VNum n) = VStr (convertLevelToCategory n).
Proof.
  unfold convertLevelToYourFormat at 1 3 4, convertLevelToCategory.
  destruct (n <=? of_Z 2)%num; [exists 2; cbn [In]; auto 10 |].
  destruct (n <=? of_Z 5)%num; [exists 4; cbn [In]; auto 10 |].
  destruct (n <=? of_Z 8)%num; [exists 7; cbn [In]; auto 10 | exists 9; cbn [In]; auto 10].
Qed.

(** X20.  A category read from the store and written back is unchanged:
    for each of the four categories [convertLevelToYourFormat] undoes
    [convertLevelFromYourFormat]; any other text that names no inherited
    member is read as level 4 and written back as intermediate. *)
Theorem category_round_trip (s : string) :
  inherited s = false ->
  exists v,
    convertLevelFromYourFormat (VStr s) = Some v /\
    (In s categories -> convertLevelToYourFormat v = VStr s) /\
    (~ In s categories ->
       v = int_lit 4 /\ convertLevelToYourFormat v = VStr "intermediate").
Proof.
  intros Hs. unfold convertLevelFromYourFormat. rewrite Hs.
  eexists. split; [reflexivity |].
  unfold prop, mapping, categories. cbn [getp In].
  destruct (String.eqb_spec "beginner" s) as [<- | N1];
    [split; [reflexivity | intros N; exfalso; apply N; auto] |].
  destruct (String.eqb_spec "intermediate" s) as [<- | N2];
    [split; [reflexivity | intros N; exfalso; apply N; auto] |].
  destruct (String.eqb_spec "advanced" s) as [<- | N3];
    [split; [reflexivity | intros N; exfalso; apply N; auto] |].
  destruct (String.eqb_spec "expert" s) as [<- | N4];
    [split; [reflexivity | intros N; exfalso; apply N; auto 10] |].
  split; [intros [E | [E | [E | [E | []]]]]; congruence |].
  intros _. split; reflexivity.
Qed.

(** The theorem at the category of an experienced surfer, and at a text
    that is no category. *)
Lemma category_round_trip_witness :
  (exists v, convertLevelFromYourFormat (VStr "advanced") = Some v /\
             convertLevelToYourFormat v = VStr "advanced") /\
  (exists v, convertLevelFromYourFormat (VStr "pro") = Some v /\
             convertLevelToYourFormat v = VStr "intermediate").
Proof.
  split.
  - destruct (category_round_trip "advanced" eq_refl) as (v & Hv & Hin & _).
    exists v. split; [exact Hv |]. apply Hin. cbn. auto.
  - destruct (category_round_trip "pro" eq_refl) as (v & Hv & _ & Hout).
    exists v. split; [exact Hv |]. apply Hout.
    intros [E | [E | [E | [E | []]]]]; discriminate.
Defined.

(** X21.  The category never goes down when the level goes up. *)
Theorem category_is_monotone (n m : num) :
  Num.le n m ->
  (rank (convertLevelToCategory n) <= rank (convertLevelToCategory m))%nat.
Proof.
  unfold Num.le. intros Hle. unfold convertLevelToCategory.
  destruct (m <=? of_Z 2)%num eqn:M2;
    [rewrite (leb_trans _ _ _ Hle M2); reflexivity |].
  destruct (m <=? of_Z 5)%num eqn:M5.
  { rewrite (leb_trans _ _ _ Hle M5). destruct (n <=? of_Z 2)%num; vm_compute; lia. }
  destruct (m <=? of_Z 8)%num eqn:M8.
  { rewrite (leb_trans _ _ _ Hle M8).
    destruct (n <=? of_Z 2)%num; [vm_compute; lia |].
    destruct (n <=? of_Z 5)%num; vm_compute; lia. }
  destruct (n <=? of_Z 2)%num; [vm_compute; lia |].
  destruct (n <=? of_Z 5)%num; [vm_compute; lia |].
  destruct (n <=? of_Z 8)%num; vm_compute; lia.
Qed.

(** The theorem at levels 3 and 6. *)
Lemma category_is_monotone_witness :
  Num.le (of_Z 3) (of_Z 6) /\
  (rank (convertLevelToCategory (of_Z 3)) <= rank (convertLevelToCategory (of_Z 6)))%nat.
Proof.
  split; [reflexivity |]. apply category_is_monotone. reflexivity.
Defined.

Lemma requirements_other_keys (k : Z) :
  ~ (1 <= k <= 10) -> getp requirements (pretty k) = None.
Proof.
  intros Hk. unfold requirements. cbn [getp].
  repeat match goal with
  | |- context [String.eqb ?key (pretty k)] =>
      destruct (String.eqb_spec key (pretty k)) as [E | _];
        [exfalso; apply Hk;
         first [ assert (P : key = pretty 1) by (vm_compute; reflexivity)
               | assert (P : key = pretty 2) by (vm_compute; reflexivity)
               | assert (P : key = pretty 3) by (vm_compute; reflexivity)
               | assert (P : key = pretty 4) by (vm_compute; reflexivity)
               | assert (P : key = pretty 5) by (vm_compute; reflexivity)
               | assert (P : key = pretty 6) by (vm_compute; reflexivity)
               | assert (P : key = pretty 7) by (vm_compute; reflexivity)
               | assert (P : key = pretty 8) by (vm_compute; reflexivity)
               | assert (P : key = pretty 9) by (vm_compute; reflexivity)
               | assert (P : key = pretty 10) by (vm_compute; reflexivity) ];
         rewrite P in E; apply (inj pretty) in E; lia |]
  end.
  reflexivity.
Qed.

Lemma next_level_of_integer (currentLevel : num) (z : Z) :
  is_q currentLevel (inject_Z z) ->
  (currentLevel + of_Z 1)%num = Fin (Qred (inject_Z (z + 1))).
Proof.
  destruct currentLevel as [| | | q]; cbn [is_q]; try contradiction. intros Hq.
  change (Fin q + of_Z 1)%num with (fin (q + inject_Z 1)). unfold fin. f_equal.
  apply Qred_complete. rewrite Hq, inject_Z_plus. reflexivity.
Qed.

(** X22.  [getNextLevelRequirements] gives the two requirements of the
    next level when the level is one of the integers 0 to 9, and says that
    the maximum is reached when the next level is off the table: for
    level 10 and above, for -1 and below, for [NaN] and the infinities,
    and for a level with a fraction, at least a thousandth away from every
    integer (closer to an integer, the sum [currentLevel + 1] may round to
    that integer). *)
Theorem next_level_requirements (currentLevel : num) :
  (forall z, 0 <= z <= 9 -> is_q currentLevel (inject_Z z) ->
     getp requirements (pretty (z + 1)) = Some (getNextLevelRequirements currentLevel) /\
     exists first second,
       getNextLevelRequirements currentLevel = VArr [VStr first; VStr second]) /\
  (off_table currentLevel ->
     getNextLevelRequirements currentLevel = maximum_reached).
Proof.
  split.
  - intros z Hz Hq. unfold getNextLevelRequirements.
    rewrite (next_level_of_integer _ _ Hq).
    assert (C : z = 0 \/ z = 1 \/ z = 2 \/ z = 3 \/ z = 4 \/ z = 5 \/ z = 6 \/ z = 7
                \/ z = 8 \/ z = 9) by lia.
    destruct C as [-> | [-> | [-> | [-> | [-> | [-> | [-> | [-> | [-> | ->]]]]]]]]];
      vm_compute; (split; [reflexivity | eauto]).
  - intros Hoff. unfold getNextLevelRequirements.
    destruct currentLevel as [| | | q]; try reflexivity.
    cbn [off_table] in Hoff.
    change (Fin q + of_Z 1)%num with (fin (q + inject_Z 1)).
    unfold fin, integer_key.
    rewrite (Qred_complete (Qred (q + inject_Z 1)) (q + inject_Z 1) (Qred_correct _)).
    destruct (Qred (q + inject_Z 1)) as [k d] eqn:E. cbn [Qnum Qden].
    destruct ((Z.pos d =? 1) && (Z.abs k <? 10 ^ 21)) eqn:B; [| reflexivity].
    apply andb_true_iff in B as [B _]. apply Z.eqb_eq in B.
    assert (D : d = 1%positive) by lia. subst d.
    pose proof (Qred_correct (q + inject_Z 1)) as C. rewrite E in C.
    change (k # 1)%Q with (inject_Z k) in C. change (inject_Z 1) with 1%Q in C.
    assert (Hk : ~ (1 <= k <= 10)).
    { intros [K1 K10]. rewrite Zle_Qle in K1, K10.
      change (inject_Z 1) with 1%Q in K1. change (inject_Z 10) with 10%Q in K10.
      destruct Hoff as [H | [H | (z & H1 & H2)]].
      - assert (11 <= inject_Z k)%Q by lra. lra.
      - lra.
      - assert (L : (inject_Z (z + 1) < inject_Z k)%Q)
          by (rewrite inject_Z_plus; change (inject_Z 1) with 1%Q; lra).
        assert (U : (inject_Z k < inject_Z (z + 2))%Q)
          by (rewrite inject_Z_plus; change (inject_Z 2) with 2%Q; lra).
        rewrite <- Zlt_Qlt in L, U. lia. }
    unfold prop. now rewrite (requirements_other_keys k Hk).
Qed.

End LevelFacts.

(** ** The adapted service *)

Section AdaptedFacts.
Import Service Prototype Adapted.

Ltac go :=
  unfold attempt, and_then, modelled, known, pure, raise,
         try_catch, bind, gets, ret, throw, lift, call, cache_set, users_set, modify;
  cbn [supabase profilesCache users calls fst snd].

(** What [createUserProfile] does, in every state and for every answer. *)
Lemma create_run_adapted (userData : UserData) (env : CreateInputs) (st : State) :
  createUserProfile userData env st
  = match created_profile (supabase st) userData env with
    | Some profile =>
        Some (Returns profile,
              after_create st (userId_of userData (new_id env)) (upsert_answer env)
                profile (cached_at env))
    | None => None
    end.
Proof.
  unfold createUserProfile, created_profile, after_create.
  destruct st as [configured cache fallback log]. go.
  destruct configured; cbn [andb negb].
  - destruct (upsert_answer env) as [e | [[| row rest] |] [error |]];
      cbn [first_row head write_failed negb]; go;
      try (destruct (buildExtendedProfile _ _ None _ _); reflexivity).
    cbn [buildExtendedProfile].
    destruct (convertToExtendedProfile row); reflexivity.
  - destruct (buildExtendedProfile _ _ None _ _); reflexivity.
Qed.

Lemma userId_of_only_id (userId generated : string) :
  userId <> ""%string -> userId_of (only_id userId) generated = userId.
Proof.
  intros H. unfold userId_of, only_id. cbn [ud_id truthy].
  destruct (String.eqb_spec userId ""); [contradiction | reflexivity].
Qed.

Lemma built_is_object userId fields row createdAt updatedAt profile :
  buildExtendedProfile userId fields row createdAt updatedAt = Some profile ->
  truthy profile = true.
Proof.
  unfold buildExtendedProfile, convertToExtendedProfile.
  destruct row as [row |].
  - destruct (convertLevelFromYourFormat _); [| discriminate].
    intros [= <-]. reflexivity.
  - destruct (overall_of fields); [| discriminate]. intros [= <-]. reflexivity.
Qed.

Lemma created_is_object configured userData env profile :
  created_profile configured userData env = Some profile -> truthy profile = true.
Proof.
  unfold created_profile.
  destruct configured; [| apply built_is_object].
  destruct (upsert_answer env) as [e | [[| row rest] |] [error |]];
    try apply built_is_object.
  apply (built_is_object "" [] (Some row) "" "").
Qed.

(** A default profile is always built. *)
Lemma default_is_built userId createdAt updatedAt :
  exists profile,
    buildExtendedProfile userId [] None createdAt updatedAt = Some profile.
Proof. eexists. reflexivity. Qed.

Lemma created_default userId (configured : bool) env :
  modelled_rows (upsert_answer env) ->
  exists profile, created_profile configured (only_id userId) env = Some profile.
Proof.
  intros Hm. unfold created_profile.
  destruct configured; [| apply default_is_built].
  destruct (upsert_answer env) as [e | [[| row rest] |] [error |]];
    try apply default_is_built.
  cbn [modelled_rows] in Hm.
  destruct (convertToExtendedProfile row) as [p |]; [eauto | contradiction].
Qed.

(** X23.  A read that finds nothing stores the default profile it returns:
    when the cache misses and the store has no row (or, without a store,
    the fallback table has no profile), [getUserProfile] of this variant
    creates a profile for the id, returns it and leaves it in the cache or
    in the fallback table, after sending it to the store when one is
    configured; a second read, while the cache entry is fresh or without a
    store, returns the same profile and changes nothing. *)
Theorem adapted_read_persists_default
    (userId : string) (env env2 : ReadInputs) (st : State) :
  userId <> ""%string ->
  cache_hit (profilesCache st !! userId) (checked_at env) = None ->
  (if supabase st then no_row (single_answer env) else no_fallback st userId) ->
  modelled_rows (upsert_answer (default_inputs env)) ->
  (if supabase st
   then checked_at env2 - cached_at (default_inputs env) < cacheTimeout
   else cache_hit (profilesCache st !! userId) (checked_at env2) = None) ->
  exists profile st',
    getUserProfile userId env st = Some (Returns profile, st') /\
    held st' userId profile /\
    (supabase st = true -> In (UpsertProfile userId) (calls st')) /\
    getUserProfile userId env2 st' = Some (Returns profile, st').
Proof.
  intros Hid Hmiss Hnone Hrows Hsecond.
  destruct st as [configured cache fallback log].
  cbn [supabase profilesCache users] in *.
  destruct configured.
  - destruct Hnone as (error & Hanswer & Hfatal).
    destruct (created_default userId true _ Hrows) as (profile & Hp).
    pose (st1 := {| supabase := true; profilesCache := cache; users := fallback;
                    calls := log ++ [SelectProfile userId] |}).
    assert (Hrun : getUserProfile userId env
                     {| supabase := true; profilesCache := cache; users := fallback;
                        calls := log |}
                   = Some (Returns profile,
                           after_create st1 userId (upsert_answer (default_inputs env))
                             profile (cached_at (default_inputs env)))).
    { unfold getUserProfile. go. rewrite Hmiss. go. rewrite Hanswer, Hfatal.
      fold st1. rewrite create_run_adapted. cbn [supabase st1].
      rewrite Hp, (userId_of_only_id _ _ Hid). reflexivity. }
    eexists _, _. split; [exact Hrun |].
    unfold after_create, st1. cbn [supabase profilesCache users calls].
    split; [| split].
    + right. cbn [profilesCache]. eexists. rewrite lookup_insert_eq. split; reflexivity.
    + intros _. apply in_or_app. right. left. reflexivity.
    + unfold getUserProfile. go. rewrite lookup_insert_eq.
      unfold cache_hit. cbn [timestamp data].
      destruct (Z.ltb_spec (checked_at env2 - cached_at (default_inputs env)) cacheTimeout)
        as [_ | Hge]; [reflexivity | lia].
  - destruct (created_default userId false _ Hrows) as (profile & Hp).
    assert (Hrun : getUserProfile userId env
                     {| supabase := false; profilesCache := cache; users := fallback;
                        calls := log |}
                   = Some (Returns profile,
                           after_create
                             {| supabase := false; profilesCache := cache;
                                users := fallback; calls := log |}
                             userId (upsert_answer (default_inputs env))
                             profile (cached_at (default_inputs env)))).
    { unfold getUserProfile. go. rewrite Hmiss. go.
      unfold no_fallback in Hnone. cbn [users] in Hnone.
      destruct (fallback !! userId) as [old |] eqn:Hold;
        [rewrite Hnone |];
        rewrite create_run_adapted; cbn [supabase];
        rewrite Hp, (userId_of_only_id _ _ Hid); reflexivity. }
    eexists _, _. split; [exact Hrun |].
    unfold after_create. cbn [supabase profilesCache users calls andb].
    split; [| split].
    + left. cbn [users]. apply lookup_insert_eq.
    + discriminate.
    + unfold getUserProfile. go. rewrite Hsecond. go. rewrite lookup_insert_eq.
      now rewrite (created_is_object _ _ _ _ Hp).
Qed.

(** The theorem at a first read of ["jean"] by a fresh service with a
    store, and a second read a minute later. *)
Lemma adapted_read_persists_default_witness :
  exists profile st',
    getUserProfile "jean" first_read (fresh_state true) = Some (Returns profile, st') /\
    held st' "jean" profile /\
    getUserProfile "jean" second_read st' = Some (Returns profile, st').
Proof.
  destruct (adapted_read_persists_default "jean" first_read second_read (fresh_state true))
    as (profile & st' & H1 & H2 & _ & H3).
  - discriminate.
  - reflexivity.
  - eexists. split; reflexivity.
  - exact I.
  - vm_compute. reflexivity.
  - exists profile, st'. auto.
Defined.

Lemma created_exists (configured : bool) userData env :
  overall_of (ud_fields userData) <> None ->
  modelled_rows (upsert_answer env) ->
  exists profile, created_profile configured userData env = Some profile.
Proof.
  intros Hl Hm.
  assert (B : exists profile,
            buildExtendedProfile (userId_of userData (new_id env)) (ud_fields userData) None
              (built_createdAt env) (built_updatedAt env) = Some profile).
  { unfold buildExtendedProfile.
    destruct (overall_of (ud_fields userData)); [eauto | contradiction]. }
  unfold created_profile.
  destruct configured; [| exact B].
  destruct (upsert_answer env) as [e | [[| row rest] |] [error |]]; try exact B.
  cbn [modelled_rows] in Hm.
  destruct (convertToExtendedProfile row) as [p |]; [eauto | contradiction].
Qed.

Lemma created_without_row (configured : bool) userData env :
  configured = false \/ write_failed (upsert_answer env) = true ->
  created_profile configured userData env
  = buildExtendedProfile (userId_of userData (new_id env)) (ud_fields userData) None
      (built_createdAt env) (built_updatedAt env).
Proof.
  unfold created_profile. intros [-> | H]; [reflexivity |].
  destruct configured; [| reflexivity].
  destruct (upsert_answer env) as [e | [[| row rest] |] [error |]];
    try reflexivity; discriminate.
Qed.

(** X24.  [createUserProfile] of this variant never fails the caller:
    whatever the store answers, it returns a profile that the cache or the
    fallback table then holds.  Without a store, or when the write is
    rejected, reports an error or answers no rows, the profile is the one
    built from [userData] and the fallback table holds it; without a store
    nothing else changes, and with one the write is the only call. *)
Theorem adapted_create_never_fails (userData : UserData) (env : CreateInputs) (st : State) :
  overall_of (ud_fields userData) <> None ->
  modelled_rows (upsert_answer env) ->
  exists profile st',
    createUserProfile userData env st = Some (Returns profile, st') /\
    held st' (userId_of userData (new_id env)) profile /\
    (supabase st = false \/ write_failed (upsert_answer env) = true ->
       buildExtendedProfile (userId_of userData (new_id env)) (ud_fields userData) None
         (built_createdAt env) (built_updatedAt env) = Some profile /\
       users st' !! userId_of userData (new_id env) = Some profile) /\
    (supabase st = false ->
       profilesCache st' = profilesCache st /\ calls st' = calls st) /\
    (supabase st = true ->
       calls st' = calls st ++ [UpsertProfile (userId_of userData (new_id env))]).
Proof.
  intros Hl Hm.
  destruct (created_exists (supabase st) userData env Hl Hm) as (profile & Hp).
  exists profile. eexists. rewrite create_run_adapted, Hp.
  split; [reflexivity |].
  unfold held, after_create. cbn [supabase profilesCache users calls].
  split; [| split; [| split]].
  - destruct (supabase st); cbn [andb].
    + right. eexists. rewrite lookup_insert_eq. split; reflexivity.
    + left. apply lookup_insert_eq.
  - intros H. rewrite <- (created_without_row (supabase st) userData env H), Hp.
    split; [reflexivity |].
    destruct H as [-> | ->]; [| rewrite andb_false_r]; apply lookup_insert_eq.
  - intros ->. split; reflexivity.
  - intros ->. reflexivity.
Qed.

(** The theorem at a create while the store is down. *)
Lemma adapted_create_never_fails_witness :
  exists profile st',
    createUserProfile create_jean rejected_create (fresh_state true)
    = Some (Returns profile, st') /\
    users st' !! "jean"%string = Some profile.
Proof.
  destruct (adapted_create_never_fails create_jean rejected_create (fresh_state true))
    as (profile & st' & H1 & _ & H2 & _).
  - discriminate.
  - exact I.
  - exists profile, st'. split; [exact H1 |]. apply H2. right. reflexivity.
Defined.

(** X25.  When a configured store answers the write with a row, the
    profile that [createUserProfile] returns is rebuilt from that row
    alone: of [userData] only the id is used, so two creates for the same
    id return the same profile and leave the same state whatever else they
    ask for, and the fallback table is not written. *)
Theorem adapted_create_keeps_row_only
    (userData userData' : UserData) (env : CreateInputs) (st : State)
    (row : Row) (rest : list Row) :
  supabase st = true ->
  upsert_answer env = UpsertedResolves (Some (row :: rest)) None ->
  userId_of userData (new_id env) = userId_of userData' (new_id env) ->
  createUserProfile userData env st = createUserProfile userData' env st /\
  forall profile st',
    createUserProfile userData env st = Some (Returns profile, st') ->
    convertToExtendedProfile row = Some profile /\ users st' = users st.
Proof.
  intros Hs Ha Hid. rewrite !create_run_adapted, <- Hid.
  unfold created_profile. rewrite Hs, Ha. split; [reflexivity |].
  intros profile st'. destruct (convertToExtendedProfile row) as [p |]; [| discriminate].
  intros [= <- <-]. split; [reflexivity |].
  unfold after_create. cbn [users]. now rewrite Hs.
Qed.

(** The theorem at a create that asks for an optimum of 1.4 m: the profile
    returned has the optimum 1.65 m of the row. *)
Lemma adapted_create_keeps_row_only_witness :
  exists profile st',
    createUserProfile create_jean answered_create (fresh_state true)
    = Some (Returns profile, st') /\
    access_path profile ["preferences"; "waveSize"; "optimal"]%string
    = Some (num_lit 165 100).
Proof.
  destruct (createUserProfile create_jean answered_create (fresh_state true))
    as [[[profile | e] st'] |] eqn:E; try discriminate.
  destruct (adapted_create_keeps_row_only create_jean (only_id "jean") answered_create
              (fresh_state true) jean_row [] eq_refl eq_refl eq_refl) as [_ H].
  destruct (H profile st') as [Hrow _].
  - rewrite <- E. reflexivity.
  - exists profile, st'. split; [reflexivity |].
    injection Hrow as <-. reflexivity.
Defined.

(** X26.  A read during a store outage creates nothing: when the cache
    misses and the read of the store is rejected or reports an error other
    than that of an empty result, [getUserProfile] of this variant returns
    the profile of the fallback table, or a default profile built on the
    spot when there is none, and changes neither the cache nor the
    fallback table; the read of the store is the only call. *)
Theorem adapted_read_in_outage (userId : string) (env : ReadInputs) (st : State) :
  supabase st = true ->
  cache_hit (profilesCache st !! userId) (checked_at env) = None ->
  failing (single_answer env) ->
  exists profile,
    getUserProfile userId env st
    = Some (Returns profile, logged st (SelectProfile userId)) /\
    match users st !! userId with
    | Some kept =>
        if truthy kept then profile = kept
        else buildExtendedProfile userId [] None (rescue_createdAt env)
               (rescue_updatedAt env) = Some profile
    | None =>
        buildExtendedProfile userId [] None (rescue_createdAt env)
          (rescue_updatedAt env) = Some profile
    end.
Proof.
  intros Hs Hmiss Hfail.
  destruct st as [configured cache fallback log].
  cbn [supabase profilesCache users] in *. subst configured.
  destruct (default_is_built userId (rescue_createdAt env) (rescue_updatedAt env))
    as (fresh & Hfresh).
  destruct (fallback !! userId) as [kept |] eqn:Hk; [destruct (truthy kept) eqn:Ht |];
    [exists kept | exists fresh | exists fresh];
    (split; [| first [reflexivity | exact Hfresh]]);
    unfold getUserProfile, logged; go; rewrite Hmiss; go;
    (destruct (single_answer env) as [e | row error]; cbn [failing] in Hfail;
     [| destruct (fatal error) as [e |]; [| contradiction]]);
    go; rewrite Hk, ?Ht, ?Hfresh; reflexivity.
Qed.

(** The theorem at a first read of ["jean"] while the store is down. *)
Lemma adapted_read_in_outage_witness :
  exists profile,
    getUserProfile "jean" read_in_outage (fresh_state true)
    = Some (Returns profile, logged (fresh_state true) (SelectProfile "jean")).
Proof.
  destruct (adapted_read_in_outage "jean" read_in_outage (fresh_state true) eq_refl eq_refl I)
    as (profile & H & _).
  exists profile. exact H.
Defined.

Lemma or_num_truthy column fallback :
  Num.truthy fallback = true -> Num.truthy (or_num column fallback) = true.
Proof.
  intros H. unfold or_num. destruct column as [n |]; [| exact H].
  destruct (Num.truthy n) eqn:E; [exact E | exact H].
Qed.

(** X27.  The wave range of a profile converted from a row: the bounds are
    those of the row, with 0.7 m and 1.8 m in place of a bound that is
    missing, 0 or [NaN], so neither is 0; the optimum, computed as half
    their sum, lies within the range whenever the bounds are in order and
    between -1000 m and 1000 m, where the sum cannot overflow; it is
    1.25 m for a row without bounds. *)
Theorem converted_wave_range (row : Row) (profile : value) :
  convertToExtendedProfile row = Some profile ->
  exists lo hi optimal,
    lo = or_num (min_wave_height row) (dec 7 10) /\
    hi = or_num (max_wave_height row) (dec 18 10) /\
    access_path profile ["preferences"; "waveSize"; "min"]%string = Some (VNum lo) /\
    access_path profile ["preferences"; "waveSize"; "max"]%string = Some (VNum hi) /\
    access_path profile ["preferences"; "waveSize"; "optimal"]%string
    = Some (VNum optimal) /\
    Num.truthy lo = true /\ Num.truthy hi = true /\
    (finite lo -> finite hi ->
     (- (1000) <= toQ lo)%Q -> (toQ lo <= toQ hi)%Q -> (toQ hi <= 1000)%Q ->
       Num.le lo optimal /\ Num.le optimal hi) /\
    (min_wave_height row = None -> max_wave_height row = None ->
       optimal = dec 125 100).
Proof.
  unfold convertToExtendedProfile.
  destruct (convertLevelFromYourFormat (surf_level row)) as [overall |]; [| discriminate].
  intros [= <-].
  set (lo := or_num (min_wave_height row) (dec 7 10)).
  set (hi := or_num (max_wave_height row) (dec 18 10)).
  exists lo, hi, ((lo + hi) / of_Z 2)%num.
  assert (Q : finite lo -> finite hi ->
              is_q ((lo + hi) / of_Z 2)%num ((toQ lo + toQ hi) / 2)%Q).
  { intros Fl Fh. change 2%Q with (inject_Z 2).
    apply is_q_div; [| apply is_q_of_Z | discriminate].
    apply is_q_add; apply finite_is_q; assumption. }
  do 5 (split; [reflexivity |]).
  split; [apply or_num_truthy; reflexivity |].
  split; [apply or_num_truthy; reflexivity |].
  split.
  - intros Fl Fh _ Hle _. split.
    + apply (le_is_q _ _ _ _ (finite_is_q _ Fl) (Q Fl Fh)).
      apply Qle_shift_div_l; [reflexivity | lra].
    + apply (le_is_q _ _ _ _ (Q Fl Fh) (finite_is_q _ Fh)).
      apply Qle_shift_div_r; [reflexivity | lra].
  - intros Hmin Hmax. unfold lo, hi. rewrite Hmin, Hmax. reflexivity.
Qed.

(** The theorem at the row of a surfer with the range 0.8 m to 2.5 m. *)
Lemma converted_wave_range_witness :
  exists profile optimal,
    convertToExtendedProfile jean_row = Some profile /\
    access_path profile ["preferences"; "waveSize"; "optimal"]%string
    = Some (VNum optimal) /\
    Num.le (dec 8 10) optimal /\ Num.le optimal (dec 25 10).
Proof.
  destruct (convertToExtendedProfile jean_row) as [profile |] eqn:E; [| discriminate].
  destruct (converted_wave_range jean_row profile E)
    as (lo & hi & optimal & -> & -> & _ & _ & Ho & _ & _ & Hr & _).
  exists profile, optimal. split; [reflexivity |]. split; [exact Ho |].
  apply Hr; [reflexivity | reflexivity | discriminate | discriminate | discriminate].
Defined.

End AdaptedFacts.

(** ** Shape and repetition of merges *)

Section MergeShapeFacts.
Import Prototype MergeShape.

(** Induction on values through the properties of objects. *)
Lemma value_obj_ind (P : value -> Prop) :
  (forall v, isObject v = false -> P v) ->
  (forall o, Forall (fun kv => P (snd kv)) o -> P (VObj o)) ->
  forall v, P v.
Proof.
  intros Hother Hobj.
  fix IH 1. intros [| | b | n | s | elems | o]; try (apply Hother; reflexivity).
  apply Hobj. induction o as [| [k w] rest IHo]; constructor; [apply IH | exact IHo].
Qed.

Lemma wf_value_obj (o : props) :
  wf_value (VObj o) <-> wf_props o /\ Forall (fun kv => wf_value (snd kv)) o.
Proof.
  cbn [wf_value]. apply and_iff_compat_l.
  induction o as [| [k w] rest IH].
  - split; [constructor | trivial].
  - rewrite Forall_cons_iff, <- IH. reflexivity.
Qed.

Lemma fits_obj (target : value) (entries : props) :
  fits target (VObj entries) <->
  Forall (fun kv =>
            isObject (snd kv) = true -> key_in (fst kv) target = true ->
            isObject (member target (fst kv)) = true /\
            fits (member target (fst kv)) (snd kv)) entries.
Proof.
  cbn [fits].
  induction entries as [| [k sv] rest IH].
  - split; [constructor | trivial].
  - rewrite Forall_cons_iff, <- IH. reflexivity.
Qed.

Lemma setp_getp o key v : getp o key = Some v -> setp o key v = o.
Proof.
  induction o as [| [k w] rest IH]; cbn [getp setp]; [discriminate |].
  destruct (String.eqb k key) eqn:E.
  - now intros [= ->].
  - intros H. now rewrite IH.
Qed.


(** A merge whose every step writes what the output already has changes
    nothing. *)
Lemma mergeInto_fixed target entries output :
  (forall key sv, In (key, sv) entries ->
     getp output key = Some (mergedValue target key sv)) ->
  mergeInto target entries output = output.
Proof.
  induction entries as [| [k sv] rest IH]; intros H; [reflexivity |].
  rewrite mergeInto_cons, setp_getp by (apply H; now left).
  apply IH. intros key sv' Hin. apply H. now right.
Qed.




Lemma wf_value_member (t : props) key tv :
  wf_value (VObj t) -> getp t key = Some tv -> wf_value tv.
Proof.
  rewrite wf_value_obj. intros [_ Hall]. revert Hall.
  induction t as [| [k w] rest IH]; cbn [getp]; [discriminate |].
  rewrite Forall_cons_iff. cbn [snd]. intros [Hw Hrest].
  destruct (String.eqb k key); [now intros [= <-] | now apply IH].
Qed.

(** An object merged into itself is unchanged. *)
Lemma deepMerge_self (v : value) :
  wf_value v -> isObject v = true -> deepMerge v v = v.
Proof.
  induction v as [v Hv | o IH] using value_obj_ind; [congruence |].
  intros Hwf _. rewrite deepMerge_obj. f_equal.
  apply wf_value_obj in Hwf as [Hnd Hall].
  apply mergeInto_fixed. intros key sv Hin.
  rewrite (getp_In _ _ _ Hnd Hin). f_equal.
  unfold mergedValue. destruct (isObject sv) eqn:Eo; [| reflexivity].
  cbn [key_in member]. unfold prop. rewrite (getp_In _ _ _ Hnd Hin). cbn [negb].
  rewrite List.Forall_forall in IH, Hall. symmetry.
  apply (IH (key, sv) Hin); [exact (Hall (key, sv) Hin) | exact Eo].
Qed.

Lemma deepMerge_twice (source : value) :
  forall target,
    isObject target = true -> isObject source = true ->
    wf_value target -> wf_value source -> fits target source ->
    deepMerge (deepMerge target source) source = deepMerge target source.
Proof.
  induction source as [v Hv | s IH] using value_obj_ind; [congruence |].
  intros [| | | | | | t]; try discriminate. intros _ _ Wt Ws F.
  rewrite deepMerge_obj. rewrite deepMerge_obj. f_equal.
  pose proof Ws as Ws'. apply wf_value_obj in Ws' as [Hnd Hall].
  rewrite fits_obj in F. rewrite List.Forall_forall in IH, Hall, F.
  apply mergeInto_fixed. intros key sv Hin.
  pose proof (mergeInto_entry (VObj t) s t key sv Hnd Hin) as Hr.
  rewrite Hr. f_equal.
  unfold mergedValue at 2. destruct (isObject sv) eqn:Eo.
  2:{ unfold mergedValue. now rewrite Eo. }
  cbn [key_in member]. unfold prop. rewrite Hr. cbn [negb].
  unfold mergedValue. rewrite Eo.
  destruct (key_in key (VObj t)) eqn:Ek; cbn [negb].
  - destruct (F (key, sv) Hin Eo Ek) as [Ft Ff]. cbn [fst snd] in Ft, Ff.
    symmetry. apply (IH (key, sv) Hin); try assumption.
    + cbn [member] in *. unfold prop in *.
      destruct (getp t key) as [tv |] eqn:Et; [| discriminate].
      exact (wf_value_member t key tv Wt Et).
    + exact (Hall (key, sv) Hin).
  - symmetry. apply deepMerge_self; [exact (Hall (key, sv) Hin) | exact Eo].
Qed.

(** X29.  Applying an update twice is the same as applying it once,
    provided the update fits the profile: where the update holds an object
    under a key of the profile, the profile holds an object too, and no
    property of the update bears the name of an inherited member.  An
    object merged into itself is unchanged. *)
Theorem deepMerge_is_idempotent (t s : props) :
  wf_value (VObj t) -> wf_value (VObj s) -> own_names (VObj s) ->
  fits (VObj t) (VObj s) ->
  deepMerge (deepMerge (VObj t) (VObj s)) (VObj s) = deepMerge (VObj t) (VObj s) /\
  deepMerge (VObj s) (VObj s) = VObj s.
Proof.
  intros Wt Ws _ F. split.
  - now apply deepMerge_twice.
  - now apply deepMerge_self.
Qed.

(** The theorem at an update of the overall level inside [surfLevel]. *)
Lemma deepMerge_is_idempotent_witness :
  deepMerge (deepMerge nested_level
               (VObj [("surfLevel"%string, VObj [("overall"%string, VNum (of_Z 6))])]))
    (VObj [("surfLevel"%string, VObj [("overall"%string, VNum (of_Z 6))])])
  = deepMerge nested_level
      (VObj [("surfLevel"%string, VObj [("overall"%string, VNum (of_Z 6))])]).
Proof.
  apply (deepMerge_is_idempotent
           [("surfLevel"%string, VObj [("overall"%string, VNum (of_Z 4))])]
           [("surfLevel"%string, VObj [("overall"%string, VNum (of_Z 6))])]).
  - cbn. repeat split; repeat constructor; intros [].
  - cbn. repeat split; repeat constructor; intros [].
  - cbn. auto.
  - cbn. repeat split; intros; try reflexivity; try discriminate.
Defined.


Lemma own_names_in (s : props) key sv :
  own_names (VObj s) -> In (key, sv) s -> inherited key = false.
Proof.
  cbn [own_names]. induction s as [| [k w] rest IH]; intros H Hin; [destruct Hin |].
  destruct H as (Hk & _ & Hrest).
  destruct Hin as [[= <- <-] | Hin]; [exact Hk | now apply IH].
Qed.

(** X30.  The merge rule, for an update whose properties bear no name of
    an inherited member and a profile without a property named
    [__proto__]: an update value that is a plain object is assigned as it
    is when the profile has no such key, and is merged recursively into
    the profile's value when it has one; any other update value (array or
    scalar) replaces the profile's value; keys that the update does not
    mention are kept.  In particular an update of [equipment.boards] to
    [[b1]] on boards [[b0]] leaves [[b1]]. *)
Theorem deepMerge_rule_for_own_names (t s : props) :
  wf_props s -> own_names (VObj s) -> no_proto (VObj t) ->
  (forall key sv, In (key, sv) s ->
     (isObject sv = true -> getp t key = None ->
        own (deepMerge (VObj t) (VObj s)) key = Some sv) /\
     (isObject sv = true -> forall tv, getp t key = Some tv ->
        own (deepMerge (VObj t) (VObj s)) key = Some (deepMerge tv sv)) /\
     (isObject sv = false ->
        own (deepMerge (VObj t) (VObj s)) key = Some sv)) /\
  (forall key, ~ In key (keys s) ->
     own (deepMerge (VObj t) (VObj s)) key = getp t key) /\
  (forall (equipment : props) (b0 b1 : value),
     getp t "equipment" = Some (VObj equipment) ->
     getp equipment "boards" = Some (VArr [b0]) ->
     access_path
       (deepMerge (VObj t) (VObj [("equipment"%string, VObj [("boards"%string, VArr [b1])])]))
       ["equipment"%string; "boards"%string]
     = Some (VArr [b1])).
Proof.
  intros Hwf Hown _. rewrite deepMerge_obj. cbn [own]. split; [| split].
  - intros key sv Hin.
    rewrite (mergeInto_entry _ _ _ _ _ Hwf Hin). unfold mergedValue.
    repeat split.
    + intros -> Ht. cbn [key_in]. now rewrite Ht, (own_names_in s key sv Hown Hin).
    + intros -> tv Ht. cbn [key_in member]. unfold prop. now rewrite Ht.
    + now intros ->.
  - intros key Hk. now apply mergeInto_other.
  - intros equipment b0 b1 He Hb.
    rewrite deepMerge_obj, !mergeInto_cons. cbn [mergeInto fold_left].
    unfold mergedValue at 1. cbn [isObject key_in member]. unfold prop.
    rewrite He. cbn [negb]. rewrite deepMerge_obj, mergeInto_cons.
    cbn [mergeInto fold_left access_path access]. unfold prop at 1.
    rewrite getp_setp_eq. cbn [access]. unfold prop.
    now rewrite getp_setp_eq.
Qed.

(** The rule at a profile with one board and an update that also changes
    the name. *)
Lemma deepMerge_rule_for_own_names_witness :
  own (deepMerge
         (VObj [("id"%string, VStr "u1");
                ("equipment"%string, VObj [("boards"%string, VArr [VStr "longboard"]);
                                           ("suits"%string, VArr [])])])
         (VObj [("personal"%string, VObj [("name"%string, VStr "Jean")]);
                ("equipment"%string, VObj [("boards"%string, VArr [VStr "fish"])])]))
      "equipment"
  = Some (VObj [("boards"%string, VArr [VStr "fish"]); ("suits"%string, VArr [])]).
Proof.
  destruct (deepMerge_rule_for_own_names
              [("id"%string, VStr "u1");
               ("equipment"%string, VObj [("boards"%string, VArr [VStr "longboard"]);
                                          ("suits"%string, VArr [])])]
              [("personal"%string, VObj [("name"%string, VStr "Jean")]);
               ("equipment"%string, VObj [("boards"%string, VArr [VStr "fish"])])])
    as [Hrule _].
  - unfold wf_props. simpl. repeat constructor; simpl; intuition discriminate.
  - cbn. auto 10.
  - cbn. repeat split; discriminate.
  - destruct (Hrule "equipment"%string (VObj [("boards"%string, VArr [VStr "fish"])]))
      as (_ & Hboth & _); [simpl; tauto |].
    rewrite (Hboth eq_refl _ eq_refl). reflexivity.
Defined.

End MergeShapeFacts.
